(** * Catalog backend: chapters, ordered articles, tariffs and cover photos

    A shallow embedding of [utils.py], [models.py] and the handlers of
    [app.py].  The persistent state is the relational store (three tables)
    and the upload directory; a handler is a state-passing function over
    that state which also records the store and file-system operations it
    performs, so that statements about "before any lookup" or "never
    written to disk" can be made about the recorded operations.

    Conventions.
    - A nullable column is an [option]; SQL [NULL] is [None].
    - Python integers are [Z].  What the columns of the store can hold
      (the width of an integer, the length of a text) depends on the
      database behind [DATABASE_URL]: the store carries the test it
      applies to a row it is asked to write, and a commit that writes a
      row the store refuses raises and writes nothing.
    - Python floats are IEEE binary64 values, [spec_float] at precision 53
      and maximal exponent 1024, with the operations of [SpecFloat].
    - What the process reads from its environment or from libraries whose
      details do not matter here (the admin list, the base URL, [int()],
      the store's coercion of a text key, werkzeug's [secure_filename], the
      [:.2f] formatting of a float) is gathered in the record [env]. *)

From Stdlib Require Import ZArith String Ascii List Bool Lia QArith.
From Stdlib Require Import Floats.SpecFloat.
From stdpp Require Import gmap strings list fin_maps pretty.

Local Open Scope Z_scope.

(** ** Python strings: the two methods [allowed_file] uses *)

Module PyStr.

(** [c.lower()] on the ASCII letters. *)
Definition lower_ascii (c : ascii) : ascii :=
  let n := nat_of_ascii c in
  if ((65 <=? n)%nat && (n <=? 90)%nat)%bool then ascii_of_nat (n + 32) else c.

Fixpoint lower (s : string) : string :=
  match s with
  | EmptyString => EmptyString
  | String c r => String (lower_ascii c) (lower r)
  end.

(** [s.rsplit('.', 1)[1]]: the text after the last dot; [None] when
    ['.' in s] is false. *)
Fixpoint rsplit_dot (s : string) : option string :=
  match s with
  | EmptyString => None
  | String c r =>
      match rsplit_dot r with
      | Some e => Some e
      | None => if Ascii.eqb c "."%char then Some r else None
      end
  end.

(** [s.split(',')] *)
Fixpoint split_comma (s : string) : list string :=
  match s with
  | EmptyString => [EmptyString]
  | String c r =>
      if Ascii.eqb c ","%char then EmptyString :: split_comma r
      else
        match split_comma r with
        | seg :: segs => String c seg :: segs
        | [] => [String c EmptyString]
        end
  end.

(** Truth value of [None] / a string in a condition. *)
Definition truthy (o : option string) : bool :=
  match o with
  | Some s => negb (String.eqb s "")
  | None => false
  end.

End PyStr.

(** ** Binary64 arithmetic *)

Module F64.

Definition prec : Z := 53.
Definition emax : Z := 1024.

(** An integer operand of a float operation is converted first. *)
Definition of_int (z : Z) : spec_float := binary_normalize prec emax z 0 false.

Definition add := SFadd prec emax.
Definition sub := SFsub prec emax.
Definition mul := SFmul prec emax.
Definition div := SFdiv prec emax.
Definition leb := SFleb.

(** [a / b] on two integers of magnitude below 2^53, where converting
    the operands is exact and the quotient is rounded once. *)
Definition truediv (a b : Z) : spec_float := div (of_int a) (of_int b).

End F64.

(** ** utils.py: configuration *)

Definition UPLOAD_FOLDER : string := "uploads".

Definition ALLOWED_EXTENSIONS : gset string := {[ "png"; "jpg"; "jpeg"; "gif" ]}.

(** [ASPECT_RATIO = 16 / 9] *)
Definition ASPECT_RATIO : spec_float := F64.truediv 16 9.

(** [ASPECT_RATIO_TOLERANCE = 0.05]: the literal denotes the binary64
    number nearest to 5/100. *)
Definition ASPECT_RATIO_TOLERANCE : spec_float := F64.truediv 5 100.

Definition allowed_file (filename : string) : bool :=
  match PyStr.rsplit_dot filename with
  | None => false
  | Some ext => bool_decide (PyStr.lower ext ∈ ALLOWED_EXTENSIONS)
  end.

(** ** models.py *)

Module Chapter.
Record t := mk {
  id : Z;
  photo_path : option string;
  title : option string;
  order : option Z
}.
Definition set_title (v : string) (c : t) : t :=
  mk (id c) (photo_path c) (Some v) (order c).
Definition set_order (v : Z) (c : t) : t :=
  mk (id c) (photo_path c) (title c) (Some v).
Definition set_photo_path (v : option string) (c : t) : t :=
  mk (id c) v (title c) (order c).
End Chapter.

Module Article.
Record t := mk {
  id : Z;
  photo_path : option string;
  title : option string;
  description : option string;
  link : option string;
  order : option Z;
  chapter_id : option Z
}.
Definition set_title (v : string) (a : t) : t :=
  mk (id a) (photo_path a) (Some v) (description a) (link a) (order a) (chapter_id a).
Definition set_description (v : string) (a : t) : t :=
  mk (id a) (photo_path a) (title a) (Some v) (link a) (order a) (chapter_id a).
Definition set_link (v : string) (a : t) : t :=
  mk (id a) (photo_path a) (title a) (description a) (Some v) (order a) (chapter_id a).
Definition set_order (v : Z) (a : t) : t :=
  mk (id a) (photo_path a) (title a) (description a) (link a) (Some v) (chapter_id a).
Definition set_chapter_id (v : Z) (a : t) : t :=
  mk (id a) (photo_path a) (title a) (description a) (link a) (order a) (Some v).
Definition set_photo_path (v : option string) (a : t) : t :=
  mk (id a) v (title a) (description a) (link a) (order a) (chapter_id a).
End Article.

#[export] Instance Chapter_eq_dec : EqDecision Chapter.t.
Proof. solve_decision. Defined.

#[export] Instance Article_eq_dec : EqDecision Article.t.
Proof. solve_decision. Defined.

(** [price] is a decimal with two fraction digits, kept in hundredths. *)
Module Tariff.
Record t := mk {
  id : Z;
  name : string;
  duration_days : Z;
  price : Z;
  currency : string;
  is_active : option bool
}.
End Tariff.

(** An entity with a primary key and an [order] column: what the two
    bulk-reorder handlers need of [Chapter] and [Article]. *)
Class Ordered (A : Type) := {
  ent_id : A → Z;
  ent_order : A → option Z;
  ent_set_order : Z → A → A;
  ent_id_set_order : ∀ v a, ent_id (ent_set_order v a) = ent_id a;
  ent_order_set_order : ∀ v a, ent_order (ent_set_order v a) = Some v;
  ent_set_order_twice : ∀ v v' a,
    ent_set_order v' (ent_set_order v a) = ent_set_order v' a
}.

#[export] Instance Chapter_Ordered : Ordered Chapter.t :=
  {| ent_id := Chapter.id; ent_order := Chapter.order;
     ent_set_order := Chapter.set_order;
     ent_id_set_order := λ _ _, eq_refl;
     ent_order_set_order := λ _ _, eq_refl;
     ent_set_order_twice := λ _ _ _, eq_refl |}.

#[export] Instance Article_Ordered : Ordered Article.t :=
  {| ent_id := Article.id; ent_order := Article.order;
     ent_set_order := Article.set_order;
     ent_id_set_order := λ _ _, eq_refl;
     ent_order_set_order := λ _ _, eq_refl;
     ent_set_order_twice := λ _ _ _, eq_refl |}.

(** [to_dict] of the three models.  [photo_url] is [None] when
    [photo_path] is [None] or empty. *)
Record ChapterDict := {
  cd_id : Z; cd_title : option string; cd_photo_url : option string;
  cd_order : option Z
}.

Record ArticleDict := {
  ad_id : Z; ad_title : option string; ad_description : option string;
  ad_link : option string; ad_photo_url : option string;
  ad_order : option Z; ad_chapter_id : option Z
}.

Definition photo_url (base : string) (photo_path : option string) : option string :=
  if PyStr.truthy photo_path then Some (base +:+ default "" photo_path) else None.

Definition Chapter_to_dict (base : string) (c : Chapter.t) : ChapterDict :=
  {| cd_id := Chapter.id c; cd_title := Chapter.title c;
     cd_photo_url := photo_url base (Chapter.photo_path c);
     cd_order := Chapter.order c |}.

Definition Article_to_dict (base : string) (a : Article.t) : ArticleDict :=
  {| ad_id := Article.id a; ad_title := Article.title a;
     ad_description := Article.description a; ad_link := Article.link a;
     ad_photo_url := photo_url base (Article.photo_path a);
     ad_order := Article.order a; ad_chapter_id := Article.chapter_id a |}.

(** ** The environment of the process *)

Record env := {
  BASE_IMAGE_URL : string;
  ADMIN_TELEGRAM_IDS : list string;
  (** [int(s)]; [None] when it raises [ValueError] *)
  py_int : string → option Z;
  (** how the store reads a text bound to an integer key; [None] when the
      statement fails *)
  db_int : string → option Z;
  secure_filename : string → string;
  (** [f"{x:.2f}"] *)
  format_2f : spec_float → string;
  (** the successive results of [uuid.uuid4()], as text *)
  uuid4 : nat → string
}.

(** [os.getenv('ADMIN_TELEGRAM_IDS', '').split(',')]: the value of
    [ADMIN_TELEGRAM_IDS] for a given content of the variable, [None] when
    it is not set. *)
Definition admin_ids (raw : option string) : list string :=
  PyStr.split_comma (default "" raw).

(** ** Persistent state: the store and the upload directory *)

Record database := {
  chapters : list Chapter.t;
  articles : list Article.t;
  tariffs : list Tariff.t;
  (** next value of each autoincrement key *)
  chapters_id_seq : Z;
  articles_id_seq : Z;
  (** whether the columns of a table can hold the values of a row: the
      store's test of a row an [INSERT] or [UPDATE] writes *)
  accepts_chapter : Chapter.t → bool;
  accepts_article : Article.t → bool;
  (** [str(e)] of the exception a commit raises when the store refuses
      one of the rows it writes *)
  exc_text : list Chapter.t → list Article.t → string
}.

Definition with_chapters (l : list Chapter.t) (d : database) : database :=
  {| chapters := l; articles := articles d; tariffs := tariffs d;
     chapters_id_seq := chapters_id_seq d; articles_id_seq := articles_id_seq d;
     accepts_chapter := accepts_chapter d; accepts_article := accepts_article d;
     exc_text := exc_text d |}.

Definition with_articles (l : list Article.t) (d : database) : database :=
  {| chapters := chapters d; articles := l; tariffs := tariffs d;
     chapters_id_seq := chapters_id_seq d; articles_id_seq := articles_id_seq d;
     accepts_chapter := accepts_chapter d; accepts_article := accepts_article d;
     exc_text := exc_text d |}.

(** What [Image.open] finds in a file: an image of some size, or bytes it
    cannot decode (it raises [err]). *)
Inductive file_data :=
| ImageFile (width height : Z)
| BrokenFile (err : string).

(** What [file.save(path)] does: it writes the whole upload, or raises
    after having created the file or not. *)
Inductive save_outcome :=
| SaveDone
| SaveRaises (leaves_file : bool) (err : string).

(** werkzeug's [FileStorage]: an uploaded part of the request. *)
Record FileStorage := {
  filename : string;
  data : file_data;
  on_save : save_outcome
}.

(** The operations a handler performs on the store and on the disk. *)
Inductive op :=
| SqlSelect (table : string)
| SqlCommit
| SqlRollback
| FileSave (path : string)
| ImageOpen (path : string)
| FileRemove (path : string).

#[export] Instance op_eq_dec : EqDecision op.
Proof. solve_decision. Defined.

Record world := {
  db : database;
  disk : gmap string file_data;
  uuid_calls : nat;
  ops : list op
}.

Definition log (o : op) (w : world) : world :=
  {| db := db w; disk := disk w; uuid_calls := uuid_calls w; ops := ops w ++ [o] |}.

Definition with_db (d : database) (w : world) : world :=
  {| db := d; disk := disk w; uuid_calls := uuid_calls w; ops := ops w |}.

Definition with_disk (fs : gmap string file_data) (w : world) : world :=
  {| db := db w; disk := fs; uuid_calls := uuid_calls w; ops := ops w |}.

(** ** State passing *)

Definition M (A : Type) : Type := world → A * world.

Definition ret {A} (a : A) : M A := λ w, (a, w).

Definition bind {A B} (m : M A) (k : A → M B) : M B :=
  λ w, let '(a, w') := m w in k a w'.

Declare Scope handler_scope.
Delimit Scope handler_scope with handler.
Notation "x <- m ;; k" := (bind m (λ x, k))
  (at level 62, m at next level, right associativity) : handler_scope.
Local Open Scope handler_scope.

(** *** The store session

    Objects loaded by a query and changed in memory are local values of
    the handler; [db.commit()] writes them to the store, [db.rollback()]
    and the end of the request drop them.  A commit writes the rows that
    differ from what the store holds; when the store refuses one of
    them the commit raises, and the store is what it was. *)

Definition sql_max (l : list (option Z)) : option Z :=
  foldr (λ o acc, match o, acc with
                  | Some v, Some m => Some (Z.max v m)
                  | Some v, None => Some v
                  | None, _ => acc
                  end) None l.

Definition query_chapter_first (key : Z) : M (option Chapter.t) :=
  λ w, (List.find (λ c, Chapter.id c =? key) (chapters (db w)),
        log (SqlSelect "chapters") w).

Definition query_article_first (key : Z) : M (option Article.t) :=
  λ w, (List.find (λ a, Article.id a =? key) (articles (db w)),
        log (SqlSelect "articles") w).

Definition query_chapters_in (ids : list Z) : M (list Chapter.t) :=
  λ w, (filter (λ c, Chapter.id c ∈ ids) (chapters (db w)),
        log (SqlSelect "chapters") w).

Definition query_articles_in (ids : list Z) : M (list Article.t) :=
  λ w, (filter (λ a, Article.id a ∈ ids) (articles (db w)),
        log (SqlSelect "articles") w).

Definition query_max_chapter_order : M (option Z) :=
  λ w, (sql_max (Chapter.order <$> chapters (db w)), log (SqlSelect "chapters") w).

Definition query_max_article_order (chapter_id : Z) : M (option Z) :=
  λ w, (sql_max (Article.order <$>
                 filter (λ a, Article.chapter_id a = Some chapter_id) (articles (db w))),
        log (SqlSelect "articles") w).


(** The rows a commit writes: the rows of the new table that the old
    one does not hold. *)
Definition written {A} `{EqDecision A} (old new : list A) : list A :=
  filter (λ r, r ∉ old) new.

(** The store takes every row that the change from [old] to [new]
    writes. *)
Definition store_accepts (old new : database) : bool :=
  forallb (accepts_chapter old) (written (chapters old) (chapters new))
  && forallb (accepts_article old) (written (articles old) (articles new)).

(** [db.commit()] with the pending changes [f].  [None]: the changes are
    written; [Some msg]: the store refused a row, the commit raised an
    exception [e] with [str(e) = msg], and nothing is written. *)
Definition db_commit (f : database → database) : M (option string) :=
  λ w, let d := f (db w) in
       if store_accepts (db w) d then (None, log SqlCommit (with_db d w))
       else (Some (exc_text (db w) (written (chapters (db w)) (chapters d))
                            (written (articles (db w)) (articles d))), w).

Definition db_rollback : M unit :=
  λ w, (tt, log SqlRollback w).

(** Pending changes: attribute changes of loaded objects. *)
Definition flush {A} `{Ordered A} (objs : gmap Z A) (rows : list A) : list A :=
  (λ r, default r (objs !! ent_id r)) <$> rows.

Definition flush_chapter (c : Chapter.t) (d : database) : database :=
  with_chapters (flush {[ Chapter.id c := c ]} (chapters d)) d.

Definition flush_article (a : Article.t) (d : database) : database :=
  with_articles (flush {[ Article.id a := a ]} (articles d)) d.

(** Pending changes: one added object.  [db.add(obj); db.commit();
    db.refresh(obj)]: the store assigns the key, the row is appended and
    read back; [None] when the store refuses the row and the commit
    raises.  Whether a refused [INSERT] uses up a key of the sequence
    depends on the store; the sequence is taken to stay. *)
Definition new_chapter_row (title : string) (order : Z) (photo : option string)
    (d : database) : Chapter.t :=
  Chapter.mk (chapters_id_seq d) photo (Some title) (Some order).

Definition insert_chapter (c : Chapter.t) (d : database) : database :=
  {| chapters := chapters d ++ [c];
     articles := articles d; tariffs := tariffs d;
     chapters_id_seq := chapters_id_seq d + 1;
     articles_id_seq := articles_id_seq d;
     accepts_chapter := accepts_chapter d; accepts_article := accepts_article d;
     exc_text := exc_text d |}.

Definition db_add_chapter (title : string) (order : Z) (photo : option string)
    : M (option Chapter.t) :=
  λ w, let c := new_chapter_row title order photo (db w) in
       if accepts_chapter (db w) c
       then (Some c, log (SqlSelect "chapters")
                       (log SqlCommit (with_db (insert_chapter c (db w)) w)))
       else (None, w).

Definition new_article_row (title description link : string) (order chapter_id : Z)
    (photo : option string) (d : database) : Article.t :=
  Article.mk (articles_id_seq d) photo (Some title) (Some description) (Some link)
             (Some order) (Some chapter_id).

Definition insert_article (a : Article.t) (d : database) : database :=
  {| chapters := chapters d;
     articles := articles d ++ [a];
     tariffs := tariffs d;
     chapters_id_seq := chapters_id_seq d;
     articles_id_seq := articles_id_seq d + 1;
     accepts_chapter := accepts_chapter d; accepts_article := accepts_article d;
     exc_text := exc_text d |}.

Definition db_add_article (title description link : string) (order chapter_id : Z)
    (photo : option string) : M (option Article.t) :=
  λ w, let a := new_article_row title description link order chapter_id photo (db w) in
       if accepts_article (db w) a
       then (Some a, log (SqlSelect "articles")
                       (log SqlCommit (with_db (insert_article a (db w)) w)))
       else (None, w).

(** *** The upload directory *)

Definition os_path_join (dir name : string) : string := dir +:+ "/" +:+ name.

#[global] Arguments os_path_join : simpl never.

Definition os_path_exists (path : string) : M bool :=
  λ w, (bool_decide (is_Some (disk w !! path)), w).

Definition os_remove (path : string) : M unit :=
  λ w, (tt, log (FileRemove path) (with_disk (delete path (disk w)) w)).

(** [file.save(path)]; [Some err] when it raises. *)
Definition file_save (f : FileStorage) (path : string) : M (option string) :=
  λ w, match on_save f with
       | SaveDone =>
           (None, log (FileSave path) (with_disk (<[path := data f]> (disk w)) w))
       | SaveRaises leaves err =>
           (Some err,
            log (FileSave path)
                (if leaves then with_disk (<[path := BrokenFile err]> (disk w)) w else w))
       end.

(** [Image.open(path)] and [img.size]; [inl err] when it raises. *)
Definition image_open (path : string) : M (string + Z * Z) :=
  λ w, (match disk w !! path with
        | Some (ImageFile width height) => inr (width, height)
        | Some (BrokenFile err) => inl err
        | None => inl "No such file or directory"
        end, log (ImageOpen path) w).

Definition uuid_uuid4 (E : env) : M string :=
  λ w, (uuid4 E (uuid_calls w),
        {| db := db w; disk := disk w; uuid_calls := S (uuid_calls w); ops := ops w |}).

(** ** utils.py: photos *)

Definition lower_bound : spec_float :=
  F64.mul ASPECT_RATIO (F64.sub (F64.of_int 1) ASPECT_RATIO_TOLERANCE).

Definition upper_bound : spec_float :=
  F64.mul ASPECT_RATIO (F64.add (F64.of_int 1) ASPECT_RATIO_TOLERANCE).

(** [lower_bound <= actual_ratio <= upper_bound] *)
Definition ratio_in_bounds (actual_ratio : spec_float) : bool :=
  F64.leb lower_bound actual_ratio && F64.leb actual_ratio upper_bound.

#[global] Arguments ratio_in_bounds : simpl never.
#[global] Arguments ASPECT_RATIO : simpl never.
#[global] Arguments F64.truediv : simpl never.

(** The name [save_photo] stores a file under: the next uuid, a dot and
    the lowered extension, through [secure_filename]. *)
Definition stored_name (E : env) (n : nat) (f : FileStorage) : string :=
  secure_filename E
    (uuid4 E n +:+ "." +:+ PyStr.lower (default "" (PyStr.rsplit_dot (filename f)))).

(** The [try] block of [save_photo].  [inl e]: an exception [e] left the
    block; [inr (Some msg)]: the block returned [(None, msg)];
    [inr None]: the block ran to its end. *)
Definition save_photo_try (E : env) (f : FileStorage) (filepath : string)
    : M (string + option string) :=
  saved <- file_save f filepath;;
  match saved with
  | Some e => ret (inl e)
  | None =>
      img <- image_open filepath;;
      match img with
      | inl e => ret (inl e)
      | inr (width, height) =>
          if height =? 0 then ret (inl "Image height cannot be zero.")
          else
            let actual_ratio := F64.truediv width height in
            if negb (ratio_in_bounds actual_ratio) then
              _u <- os_remove filepath;;
              ret (inr (Some ("Invalid aspect ratio. Required: ~"
                               +:+ format_2f E ASPECT_RATIO +:+ ", found: "
                               +:+ format_2f E actual_ratio)))
            else ret (inr None)
      end
  end.

(** [save_photo(file)]: the pair (stored file name, error). *)
Definition save_photo (E : env) (file : option FileStorage)
    : M (option string * option string) :=
  match file with
  | None => ret (None, None)
  | Some f =>
      if String.eqb (filename f) "" then ret (None, None)
      else if negb (allowed_file (filename f)) then
        ret (None, Some "Invalid file type. Allowed types: png, jpg, jpeg, gif")
      else
        u <- uuid_uuid4 E;;
        let name :=
          secure_filename E
            (u +:+ "." +:+ PyStr.lower (default "" (PyStr.rsplit_dot (filename f)))) in
        let filepath := os_path_join UPLOAD_FOLDER name in
        r <- save_photo_try E f filepath;;
        match r with
        | inl e =>
            ex <- os_path_exists filepath;;
            _u <- (if ex then os_remove filepath else ret tt);;
            ret (None, Some ("Error processing image: " +:+ e))
        | inr (Some msg) => ret (None, Some msg)
        | inr None => ret (Some name, None)
        end
  end.

(** [delete_photo(photo_filename)] *)
Definition delete_photo (photo_filename : option string) : M unit :=
  if negb (PyStr.truthy photo_filename) then ret tt
  else
    let filepath := os_path_join UPLOAD_FOLDER (default "" photo_filename) in
    ex <- os_path_exists filepath;;
    if ex then os_remove filepath else ret tt.

(** ** Requests and responses *)

(** One element of the body of a bulk reorder, as the handlers'
    documented schema has it: [{id: integer, order: integer}]. *)
Record order_item := { item_id : Z; item_order : Z }.

(** [request.get_json()]: an array of such elements, or a JSON value
    that is not an array. *)
Inductive json_body :=
| JsonList (items : list order_item)
| JsonNotList.

Record request := {
  headers : gmap string string;
  form : gmap string string;
  files : gmap string FileStorage;
  get_json : json_body
}.

(** Truth value of a [FileStorage] or [None]: that of its file name. *)
Definition file_truthy (file : option FileStorage) : bool :=
  match file with
  | Some f => negb (String.eqb (filename f) "")
  | None => false
  end.

Inductive body :=
| Error (msg : string)
| Message (msg : string)
| ChapterJson (d : ChapterDict)
| ArticleJson (d : ArticleDict)
| TariffJson (t : Tariff.t)
(** an exception that no handler catches: the framework's own reply *)
| Unhandled.

Definition response : Type := body * Z.

Definition status (r : response) : Z := snd r.

(** [admin_required] *)
Definition admin_required (E : env) (f : request → M response)
    : request → M response :=
  λ req,
    let telegram_id := headers req !! "X-Telegram-ID" in
    if negb (PyStr.truthy telegram_id)
       || negb (bool_decide (default "" telegram_id ∈ ADMIN_TELEGRAM_IDS E))
    then ret (Error "Forbidden: Admin access required", 403)
    else f req.

(** [(max_order or 0)] *)
Definition or_zero (max_order : option Z) : Z :=
  match max_order with
  | Some v => if v =? 0 then 0 else v
  | None => 0
  end.

(** ** app.py: chapters *)

(** [POST /chapters] *)
Definition create_chapter (E : env) (req : request) : M response :=
  let title := form req !! "title" in
  let file := files req !! "photo" in
  if negb (PyStr.truthy title) then ret (Error "Title is required", 400)
  else
    saved <- save_photo E file;;
    let photo_filename := fst saved in
    let error := snd saved in
    if PyStr.truthy error then ret (Error (default "" error), 400)
    else
      max_order <- query_max_chapter_order;;
      let new_order := or_zero max_order + 1 in
      added <- db_add_chapter (default "" title) new_order photo_filename;;
      match added with
      | None => ret (Unhandled, 500)
      | Some new_chapter =>
          ret (ChapterJson (Chapter_to_dict (BASE_IMAGE_URL E) new_chapter), 201)
      end.

(** [PUT /chapters] *)
Definition update_chapter (E : env) (req : request) : M response :=
  let data := form req in
  let file := files req !! "photo" in
  let chapter_id := data !! "id" in
  if negb (PyStr.truthy chapter_id) then
    ret (Error "Chapter ID is required in body", 400)
  else
    match db_int E (default "" chapter_id) with
    | None => ret (Unhandled, 500)
    | Some key =>
        found <- query_chapter_first key;;
        match found with
        | None => ret (Error "Chapter not found", 404)
        | Some chapter =>
            let chapter :=
              match data !! "title" with
              | Some v => Chapter.set_title v chapter
              | None => chapter
              end in
            match
              match data !! "order" with
              | Some v => (λ n, Chapter.set_order n chapter) <$> py_int E v
              | None => Some chapter
              end
            with
            | None => ret (Unhandled, 500)
            | Some chapter =>
                if file_truthy file then
                  _u <- delete_photo (Chapter.photo_path chapter);;
                  saved <- save_photo E file;;
                  let photo_filename := fst saved in
                  let error := snd saved in
                  if PyStr.truthy error then ret (Error (default "" error), 400)
                  else
                    let chapter := Chapter.set_photo_path photo_filename chapter in
                    raised <- db_commit (flush_chapter chapter);;
                    match raised with
                    | Some _ => ret (Unhandled, 500)
                    | None =>
                        ret (ChapterJson (Chapter_to_dict (BASE_IMAGE_URL E) chapter), 200)
                    end
                else
                  raised <- db_commit (flush_chapter chapter);;
                  match raised with
                  | Some _ => ret (Unhandled, 500)
                  | None =>
                      ret (ChapterJson (Chapter_to_dict (BASE_IMAGE_URL E) chapter), 200)
                  end
            end
        end
    end.

(** [GET /chapters/<int:chapter_id>] *)
Definition get_chapter (E : env) (chapter_id : Z) : M response :=
  chapter <- query_chapter_first chapter_id;;
  match chapter with
  | None => ret (Error "Chapter not found", 404)
  | Some c => ret (ChapterJson (Chapter_to_dict (BASE_IMAGE_URL E) c), 200)
  end.

(** Pending changes: one deleted chapter.  The relationship
    [Chapter.articles] cascades the deletion to the articles of the
    chapter, as does the foreign key of the table. *)
Definition remove_chapter (key : Z) (d : database) : database :=
  {| chapters := filter (λ c, Chapter.id c ≠ key) (chapters d);
     articles := filter (λ a, Article.chapter_id a ≠ Some key) (articles d);
     tariffs := tariffs d;
     chapters_id_seq := chapters_id_seq d;
     articles_id_seq := articles_id_seq d;
     accepts_chapter := accepts_chapter d; accepts_article := accepts_article d;
     exc_text := exc_text d |}.

(** [db.delete(chapter)]: the cascade loads the articles of the
    chapter. *)
Definition db_delete_chapter : M unit :=
  λ w, (tt, log (SqlSelect "articles") w).

(** [DELETE /chapters/<int:chapter_id>] *)
Definition delete_chapter (chapter_id : Z) : M response :=
  found <- query_chapter_first chapter_id;;
  match found with
  | None => ret (Error "Chapter not found", 404)
  | Some chapter =>
      _u <- delete_photo (Chapter.photo_path chapter);;
      _u <- db_delete_chapter;;
      raised <- db_commit (remove_chapter (Chapter.id chapter));;
      match raised with
      | Some _ => ret (Unhandled, 500)
      | None => ret (Message "Chapter deleted successfully", 200)
      end
  end.

(** [{c.id: c for c in rows}] *)
Definition dict_by_id {A} `{Ordered A} (rows : list A) : gmap Z A :=
  foldl (λ m r, <[ent_id r := r]> m) ∅ rows.

(** The [for] loop of the two reorder handlers over the objects of the
    session.  [inl item]: [NoResultFound] was raised at [item];
    [inr m]: the loop ended, [m] holds the changed objects. *)
Fixpoint reorder_loop {A} `{Ordered A} (order_data : list order_item) (m : gmap Z A)
    : order_item + gmap Z A :=
  match order_data with
  | [] => inr m
  | item :: rest =>
      match m !! item_id item with
      | Some obj =>
          reorder_loop rest (<[item_id item := ent_set_order (item_order item) obj]> m)
      | None => inl item
      end
  end.

(** [PATCH /chapters/order].  With elements of the documented schema the
    [try] block raises [NoResultFound] in the loop or, in [db.commit()],
    the exception of a store that refuses a row; the latter is caught by
    [except Exception]. *)
Definition update_chapters_order (E : env) (req : request) : M response :=
  match get_json req with
  | JsonNotList => ret (Error "Invalid data format. Expected a list of objects.", 400)
  | JsonList order_data =>
      rows <- query_chapters_in (item_id <$> order_data);;
      let chapter_map := dict_by_id rows in
      match reorder_loop order_data chapter_map with
      | inr chapter_map =>
          raised <- db_commit (λ d, with_chapters (flush chapter_map (chapters d)) d);;
          match raised with
          | Some e =>
              _u <- db_rollback;;
              ret (Error ("An error occurred: " +:+ e), 500)
          | None => ret (Message "Chapters order updated successfully", 200)
          end
      | inl item =>
          _u <- db_rollback;;
          ret (Error ("Chapter with id " +:+ pretty (item_id item) +:+ " not found"), 404)
      end
  end.

(** ** app.py: articles *)

(** [POST /articles] *)
Definition create_article (E : env) (req : request) : M response :=
  let data := form req in
  let file := files req !! "photo" in
  let required_fields := ["title"; "description"; "link"; "chapter_id"] in
  if negb (forallb (λ field, bool_decide (is_Some (data !! field))) required_fields)
  then ret (Error "Missing required fields", 400)
  else
    match py_int E (default "" (data !! "chapter_id")) with
    | None => ret (Unhandled, 500)
    | Some chapter_id =>
        parent <- query_chapter_first chapter_id;;
        match parent with
        | None =>
            ret (Error ("Chapter with id " +:+ pretty chapter_id +:+ " not found"), 404)
        | Some _ =>
            saved <- save_photo E file;;
            let photo_filename := fst saved in
            let error := snd saved in
            if PyStr.truthy error then ret (Error (default "" error), 400)
            else
              max_order <- query_max_article_order chapter_id;;
              let new_order := or_zero max_order + 1 in
              added <- db_add_article (default "" (data !! "title"))
                         (default "" (data !! "description"))
                         (default "" (data !! "link"))
                         new_order chapter_id photo_filename;;
              match added with
              | None => ret (Unhandled, 500)
              | Some new_article =>
                  ret (ArticleJson (Article_to_dict (BASE_IMAGE_URL E) new_article), 201)
              end
        end
    end.

(** [GET /articles/<int:article_id>] *)
Definition get_article (E : env) (article_id : Z) : M response :=
  article <- query_article_first article_id;;
  match article with
  | None => ret (Error "Article not found", 404)
  | Some a => ret (ArticleJson (Article_to_dict (BASE_IMAGE_URL E) a), 200)
  end.

(** One round of the [for key in [...]] loop of [update_article];
    [None] when [int()] raises. *)
Definition set_article_field (E : env) (data : gmap string string)
    (article : option Article.t) (key : string) : option Article.t :=
  a ← article;
  match data !! key with
  | None => Some a
  | Some v =>
      if String.eqb key "title" then Some (Article.set_title v a)
      else if String.eqb key "description" then Some (Article.set_description v a)
      else if String.eqb key "link" then Some (Article.set_link v a)
      else if String.eqb key "order" then (λ n, Article.set_order n a) <$> py_int E v
      else (λ n, Article.set_chapter_id n a) <$> py_int E v
  end.

(** [PUT /articles].  Whether the store accepts a [chapter_id] that names
    no chapter depends on its enforcement of the foreign key, which
    [accepts_article], a test of the row alone, does not cover. *)
Definition update_article (E : env) (req : request) : M response :=
  let data := form req in
  let file := files req !! "photo" in
  let article_id := data !! "id" in
  if negb (PyStr.truthy article_id) then
    ret (Error "Article ID is required in body", 400)
  else
    match db_int E (default "" article_id) with
    | None => ret (Unhandled, 500)
    | Some key =>
        found <- query_article_first key;;
        match found with
        | None => ret (Error "Article not found", 404)
        | Some article =>
            match
              foldl (set_article_field E data) (Some article)
                    ["title"; "description"; "link"; "order"; "chapter_id"]
            with
            | None => ret (Unhandled, 500)
            | Some article =>
                if file_truthy file then
                  _u <- delete_photo (Article.photo_path article);;
                  saved <- save_photo E file;;
                  let photo_filename := fst saved in
                  let error := snd saved in
                  if PyStr.truthy error then ret (Error (default "" error), 400)
                  else
                    let article := Article.set_photo_path photo_filename article in
                    raised <- db_commit (flush_article article);;
                    match raised with
                    | Some _ => ret (Unhandled, 500)
                    | None =>
                        ret (ArticleJson (Article_to_dict (BASE_IMAGE_URL E) article), 200)
                    end
                else
                  raised <- db_commit (flush_article article);;
                  match raised with
                  | Some _ => ret (Unhandled, 500)
                  | None =>
                      ret (ArticleJson (Article_to_dict (BASE_IMAGE_URL E) article), 200)
                  end
            end
        end
    end.

(** Pending changes: one deleted article. *)
Definition remove_article (key : Z) (d : database) : database :=
  with_articles (filter (λ a, Article.id a ≠ key) (articles d)) d.

(** [DELETE /articles/<int:article_id>] *)
Definition delete_article (article_id : Z) : M response :=
  found <- query_article_first article_id;;
  match found with
  | None => ret (Error "Article not found", 404)
  | Some article =>
      _u <- delete_photo (Article.photo_path article);;
      raised <- db_commit (remove_article (Article.id article));;
      match raised with
      | Some _ => ret (Unhandled, 500)
      | None => ret (Message "Article deleted successfully", 200)
      end
  end.

(** [PATCH /articles/order] *)
Definition update_articles_order (E : env) (req : request) : M response :=
  match get_json req with
  | JsonNotList => ret (Error "Invalid data format. Expected a list of objects.", 400)
  | JsonList order_data =>
      rows <- query_articles_in (item_id <$> order_data);;
      let article_map := dict_by_id rows in
      match reorder_loop order_data article_map with
      | inr article_map =>
          raised <- db_commit (λ d, with_articles (flush article_map (articles d)) d);;
          match raised with
          | Some e =>
              _u <- db_rollback;;
              ret (Error ("An error occurred: " +:+ e), 500)
          | None => ret (Message "Articles order updated successfully", 200)
          end
      | inl item =>
          _u <- db_rollback;;
          ret (Error ("Article with id " +:+ pretty (item_id item) +:+ " not found"), 404)
      end
  end.

(** ** app.py: tariffs *)


(** ** Words of the specification *)

(** The order that the body of a bulk reorder supplies for the key [i]:
    that of the last element naming [i], if any. *)
Definition supplied_order (order_data : list order_item) (i : Z) : option Z :=
  item_order <$> last (filter (λ item, item_id item = i) order_data).

(** The rows of a table once every supplied order is written. *)
Definition reordered {A} `{Ordered A} (order_data : list order_item) (rows : list A)
    : list A :=
  (λ r, match supplied_order order_data (ent_id r) with
        | Some v => ent_set_order v r
        | None => r
        end) <$> rows.

(** [m] is the greatest of the orders of a scope ([NULL] apart). *)
Definition is_max_order (m : Z) (orders : list (option Z)) : Prop :=
  Some m ∈ orders ∧ ∀ v, Some v ∈ orders → v ≤ m.


(** Every write of the loop that names the key [i], applied to the
    object [obj] in the order of the body. *)
Definition write_all {A} `{Ordered A} (order_data : list order_item) (i : Z) (obj : A)
    : A :=
  foldl (λ o item,
           if decide (item_id item = i) then ent_set_order (item_order item) o else o)
        obj order_data.

(** The outcome of [save_photo] on a named file of an allowed type. *)
Inductive photo_outcome (E : env) (f : FileStorage) (w : world)
    : option string * option string → world → Prop :=
| photo_stored width height w' :
    on_save f = SaveDone →
    data f = ImageFile width height →
    height ≠ 0 →
    ratio_in_bounds (F64.truediv width height) = true →
    db w' = db w →
    disk w' = <[os_path_join UPLOAD_FOLDER (stored_name E (uuid_calls w) f) := data f]>
                (disk w) →
    photo_outcome E f w (Some (stored_name E (uuid_calls w) f), None) w'
| photo_refused msg w' :
    PyStr.truthy (Some msg) = true →
    (on_save f = SaveDone →
     ∀ width height, data f = ImageFile width height →
       height = 0 ∨ ratio_in_bounds (F64.truediv width height) = false) →
    db w' = db w →
    disk w' = delete (os_path_join UPLOAD_FOLDER (stored_name E (uuid_calls w) f))
                     (disk w) →
    photo_outcome E f w (None, Some msg) w'.

(** The fields [create_article] requires. *)
Definition required_fields : list string := ["title"; "description"; "link"; "chapter_id"].

(** The chapters created by a sequence of [POST /chapters] requests. *)
Fixpoint create_chapters (E : env) (reqs : list request) (w : world)
    : list response * world :=
  match reqs with
  | [] => ([], w)
  | req :: rest =>
      let r := create_chapter E req w in
      let rs := create_chapters E rest r.2 in
      (r.1 :: rs.1, rs.2)
  end.

(** ** Rounding of a binary64 quotient *)

(** The last step of a rounding: a mantissa of 53 digits is kept, the
    mantissa 2^53 is renormalised. *)
Definition finish (q : Z) (e : Z) : spec_float :=
  if q <? 2 ^ 53 then S754_finite false (Z.to_pos q) e
  else S754_finite false (Z.to_pos (2 ^ 52)) (e + 1).

(** The location of a quotient of 54 digits once its last bit has become
    the round bit. *)
Definition halved_loc (q : Z) (l : location) : location :=
  loc_of_shr_record
    {| shr_m := q / 2; shr_r := Z.odd q;
       shr_s := match l with loc_Exact => false | _ => true end |}.

(** Where the exact quotient lies between [q] and [q + 1], from the
    remainder [r] of the division by the even number [m2]. *)
Definition quotient_loc (m2 r : Z) : location :=
  if r =? 0 then loc_Exact else loc_Inexact (2 * r ?= m2).

(** The mantissas of [lower_bound] and [upper_bound], whose exponent is
    -52. *)
Definition Lm : Z := 7606079370670170.
Definition Um : Z := 8406719304424926.

(** [width / height] lies in [16/9 × 0.95, 16/9 × 1.05], over the
    rationals. *)
Definition within_tolerance (width height : Z) : Prop :=
  ((16 # 9) * (95 # 100) <= inject_Z width / inject_Z height)%Q
  ∧ (inject_Z width / inject_Z height <= (16 # 9) * (105 # 100))%Q.

(** The keys of the two tables are distinct and below the next values of
    their sequences, as a primary key with autoincrement keeps them. *)
Definition store_wf (d : database) : Prop :=
  NoDup (Chapter.id <$> chapters d)
  ∧ (∀ c, c ∈ chapters d → Chapter.id c < chapters_id_seq d)
  ∧ NoDup (Article.id <$> articles d)
  ∧ (∀ a, a ∈ articles d → Article.id a < articles_id_seq d).

(** The text [s] holds no dot. *)
Fixpoint dotless (s : string) : bool :=
  match s with
  | EmptyString => true
  | String c r => negb (Ascii.eqb c "."%char) && dotless r
  end.

(** The object of [update_chapter] once the supplied [title] and [order]
    are set; [None] when [int()] rejects the order. *)
Definition chapter_fields (E : env) (data : gmap string string) (chapter : Chapter.t)
    : option Chapter.t :=
  match data !! "order" with
  | Some v =>
      (λ n, Chapter.set_order n
              (match data !! "title" with
               | Some t => Chapter.set_title t chapter
               | None => chapter
               end)) <$> py_int E v
  | None => Some (match data !! "title" with
                  | Some t => Chapter.set_title t chapter
                  | None => chapter
                  end)
  end.

(** The object of [update_article] once the supplied fields are set;
    [None] when [int()] rejects one of them. *)
Definition article_fields (E : env) (data : gmap string string) (article : Article.t)
    : option Article.t :=
  foldl (set_article_field E data) (Some article)
        ["title"; "description"; "link"; "order"; "chapter_id"].

(** Every article that has a [chapter_id] has that of a chapter of the
    store: what the foreign key [articles.chapter_id] asks for. *)
Definition refs_ok (d : database) : Prop :=
  ∀ a k, a ∈ articles d → Article.chapter_id a = Some k →
         k ∈ Chapter.id <$> chapters d.

(** ** Sample data *)

Module Sample.

(** [int()] and the store's coercion on plain decimal numerals. *)
Definition digit (c : ascii) : option Z :=
  let n := Z.of_nat (nat_of_ascii c) in
  if (48 <=? n) && (n <=? 57) then Some (n - 48) else None.

Fixpoint decimal (acc : Z) (s : string) : option Z :=
  match s with
  | EmptyString => Some acc
  | String c r => d ← digit c; decimal (10 * acc + d) r
  end.

Definition int (s : string) : option Z :=
  match s with
  | EmptyString => None
  | _ => decimal 0 s
  end.

Definition E : env :=
  {| BASE_IMAGE_URL := "http://127.0.0.1:5000/uploads/";
     ADMIN_TELEGRAM_IDS := ["1001"];
     py_int := int;
     db_int := int;
     secure_filename := λ s, s;
     format_2f := λ _, "";
     uuid4 := λ n, "uuid-" +:+ pretty n |}.

Definition intro : Chapter.t := Chapter.mk 1 (Some "old.png") (Some "Intro") (Some 1).
Definition basics : Chapter.t := Chapter.mk 2 None (Some "Basics") (Some 2).

Definition first_steps : Article.t :=
  Article.mk 1 None (Some "First steps") (Some "Text") (Some "https://e.org/1")
             (Some 1) (Some 1).
Definition next_steps : Article.t :=
  Article.mk 2 None (Some "Next steps") (Some "Text") (Some "https://e.org/2")
             (Some 2) (Some 1).

Definition monthly : Tariff.t := Tariff.mk 1 "Monthly" 30 9900 "USD" (Some true).
Definition retired : Tariff.t := Tariff.mk 2 "Retired" 30 4900 "USD" (Some false).

(** A store whose integer columns are 32 bits wide and whose texts are
    bounded as the models declare them. *)
Definition int32 (v : option Z) : bool :=
  match v with
  | Some n => (-2147483648 <=? n) && (2147483647 >=? n)
  | None => true
  end.

Definition int64 (v : option Z) : bool :=
  match v with
  | Some n => (-9223372036854775808 <=? n) && (9223372036854775807 >=? n)
  | None => true
  end.

Definition varchar (n : nat) (v : option string) : bool :=
  match v with
  | Some s => (String.length s <=? n)%nat
  | None => true
  end.

Definition chapter_fits (c : Chapter.t) : bool :=
  varchar 500 (Chapter.photo_path c) && varchar 250 (Chapter.title c)
  && int32 (Chapter.order c).

Definition article_fits (a : Article.t) : bool :=
  varchar 500 (Article.photo_path a) && varchar 250 (Article.title a)
  && varchar 500 (Article.link a) && int32 (Article.order a)
  && int64 (Article.chapter_id a).

Definition store : database :=
  {| chapters := [intro; basics]; articles := [first_steps; next_steps];
     tariffs := [monthly; retired];
     chapters_id_seq := 3; articles_id_seq := 3;
     accepts_chapter := chapter_fits; accepts_article := article_fits;
     exc_text := λ _ _, "value out of range" |}.

Definition w : world :=
  {| db := store; disk := {[ "uploads/old.png" := ImageFile 1600 900 ]};
     uuid_calls := 0; ops := [] |}.

Definition empty_store : database :=
  {| chapters := []; articles := []; tariffs := [];
     chapters_id_seq := 1; articles_id_seq := 1;
     accepts_chapter := chapter_fits; accepts_article := article_fits;
     exc_text := λ _ _, "value out of range" |}.

Definition w_empty : world :=
  {| db := empty_store; disk := ∅; uuid_calls := 0; ops := [] |}.

Definition admin : gmap string string := {[ "X-Telegram-ID" := "1001" ]}.

Definition json_request (b : json_body) : request :=
  {| headers := admin; form := ∅; files := ∅; get_json := b |}.

Definition form_request (f : gmap string string) (photo : option FileStorage) : request :=
  {| headers := admin; form := f;
     files := match photo with Some p => {[ "photo" := p ]} | None => ∅ end;
     get_json := JsonNotList |}.

Definition swap : list order_item :=
  [ {| item_id := 1; item_order := 2 |}; {| item_id := 2; item_order := 1 |} ].



Definition wide : FileStorage :=
  {| filename := "cover.PNG"; data := ImageFile 1920 1080; on_save := SaveDone |}.

Definition square : FileStorage :=
  {| filename := "cover.png"; data := ImageFile 800 800; on_save := SaveDone |}.

Definition text_file : FileStorage :=
  {| filename := "notes.txt"; data := BrokenFile "cannot identify image file";
     on_save := SaveDone |}.

End Sample.

(** * Properties *)

(** ** The reorder loop *)

Section Reorder.
Context {A : Type} `{Ordered A}.
Lemma reorder_loop_fail (order_data : list order_item) (m : gmap Z A) item :
  reorder_loop order_data m = inl item →
  item ∈ order_data ∧ m !! item_id item = None.
Proof.
  revert m. induction order_data as [|it rest IH]; intros m; simpl; [done|].
  destruct (m !! item_id it) as [obj|] eqn:Hm.
  - intros Hr. apply IH in Hr as [Hin Hnone]. split; [by right|].
    destruct (decide (item_id it = item_id item)) as [e|ne].
    + rewrite e, lookup_insert_eq in Hnone. done.
    + by rewrite lookup_insert_ne in Hnone.
  - intros [= <-]. split; [by left|done].
Qed.

Lemma reorder_loop_lookup (order_data : list order_item) (m m' : gmap Z A) i :
  reorder_loop order_data m = inr m' →
  m' !! i = write_all order_data i <$> m !! i.
Proof.
  revert m. induction order_data as [|it rest IH]; intros m; simpl.
  - by intros [= <-]; destruct (m !! i).
  - destruct (m !! item_id it) as [obj|] eqn:Hm; [|done].
    intros Hr. rewrite (IH _ Hr). unfold write_all at 2. simpl.
    destruct (decide (item_id it = i)) as [<-|ne].
    + by rewrite lookup_insert_eq, Hm.
    + rewrite lookup_insert_ne by done. by destruct (m !! i).
Qed.

Lemma reorder_loop_total (order_data : list order_item) (m : gmap Z A) :
  (∀ item, item ∈ order_data → is_Some (m !! item_id item)) →
  ∃ m', reorder_loop order_data m = inr m'.
Proof.
  revert m. induction order_data as [|it rest IH]; intros m Hall; simpl; [eauto|].
  destruct (Hall it) as [obj Hobj]; [by left|]. rewrite Hobj.
  apply IH. intros item Hin.
  destruct (decide (item_id it = item_id item)) as [e|ne].
  - rewrite e, lookup_insert_eq. eauto.
  - rewrite lookup_insert_ne by done. apply Hall. by right.
Qed.

Lemma dict_by_id_app (rows : list A) (m : gmap Z A) i :
  foldl (λ m r, <[ent_id r := r]> m) m rows !! i =
  match last (filter (λ r, ent_id r = i) rows) with
  | Some r => Some r
  | None => m !! i
  end.
Proof.
  revert m. induction rows as [|r rows IH]; intros m; simpl; [done|].
  rewrite IH. rewrite filter_cons. destruct (decide (ent_id r = i)) as [e|ne].
  - subst i. destruct (filter _ rows) as [|r' l'] eqn:Hf; simpl.
    + by rewrite lookup_insert_eq.
    + destruct (last (r' :: l')) eqn:E; [done|].
      by apply last_None in E.
  - rewrite lookup_insert_ne by done. done.
Qed.

Lemma dict_by_id_lookup (rows : list A) i :
  dict_by_id rows !! i = last (filter (λ r, ent_id r = i) rows).
Proof.
  unfold dict_by_id. rewrite dict_by_id_app, lookup_empty. by destruct (last _).
Qed.

Lemma dict_by_id_None (rows : list A) i :
  dict_by_id rows !! i = None ↔ ∀ r, r ∈ rows → ent_id r ≠ i.
Proof.
  rewrite dict_by_id_lookup, last_None. split.
  - intros Hf r Hr e. assert (r ∈ filter (λ r, ent_id r = i) rows) as Hin
      by (apply list_elem_of_filter; done).
    rewrite Hf in Hin. by apply elem_of_nil in Hin.
  - intros Hall. destruct (filter _ rows) as [|r l] eqn:Hf; [done|].
    assert (r ∈ filter (λ r, ent_id r = i) rows) as Hin by (rewrite Hf; left).
    apply list_elem_of_filter in Hin as [e Hin]. by destruct (Hall r Hin).
Qed.

Lemma filter_id_fresh (rows : list A) i :
  i ∉ ent_id <$> rows → filter (λ r, ent_id r = i) rows = [].
Proof.
  intros Hni. destruct (filter _ rows) as [|r l] eqn:Hf; [done|].
  assert (r ∈ filter (λ r, ent_id r = i) rows) as Hin by (rewrite Hf; left).
  apply list_elem_of_filter in Hin as [e Hin]. destruct Hni.
  rewrite <- e. by apply list_elem_of_fmap_2.
Qed.

Lemma dict_by_id_pk (rows : list A) r :
  NoDup (ent_id <$> rows) → r ∈ rows → dict_by_id rows !! ent_id r = Some r.
Proof.
  rewrite dict_by_id_lookup. induction rows as [|x rows IH]; intros Hnd Hin.
  - by apply elem_of_nil in Hin.
  - rewrite fmap_cons in Hnd. apply NoDup_cons in Hnd as [Hx Hnd].
    rewrite filter_cons. apply elem_of_cons in Hin as [->|Hin].
    + rewrite decide_True by done. by rewrite filter_id_fresh.
    + rewrite decide_False; [by apply IH|].
      intros e. apply Hx. rewrite e. by apply list_elem_of_fmap_2.
Qed.

Lemma supplied_order_snoc (order_data : list order_item) item i :
  supplied_order (order_data ++ [item]) i =
  if decide (item_id item = i) then Some (item_order item)
  else supplied_order order_data i.
Proof.
  unfold supplied_order. rewrite filter_app, filter_cons, filter_nil.
  destruct (decide (item_id item = i)).
  - by rewrite last_snoc.
  - by rewrite app_nil_r.
Qed.

Lemma write_all_supplied (order_data : list order_item) i (obj : A) :
  write_all order_data i obj =
  match supplied_order order_data i with
  | Some v => ent_set_order v obj
  | None => obj
  end.
Proof.
  induction order_data as [|item l IH] using rev_ind; [done|].
  unfold write_all in *. rewrite foldl_app, supplied_order_snoc. simpl.
  destruct (decide (item_id item = i)); [|done].
  rewrite IH. destruct (supplied_order l i); [|done].
  apply ent_set_order_twice.
Qed.

Lemma supplied_order_None (order_data : list order_item) i :
  i ∉ item_id <$> order_data → supplied_order order_data i = None.
Proof.
  intros Hni. unfold supplied_order.
  destruct (filter _ order_data) as [|it l] eqn:Hf; [done|].
  assert (it ∈ filter (λ item, item_id item = i) order_data) as Hin by (rewrite Hf; left).
  apply list_elem_of_filter in Hin as [e Hin]. destruct Hni.
  rewrite <- e. by apply list_elem_of_fmap_2.
Qed.

Lemma NoDup_fmap_filter (P : A → Prop) `{∀ x, Decision (P x)} (rows : list A) :
  NoDup (ent_id <$> rows) → NoDup (ent_id <$> filter P rows).
Proof.
  intros Hnd. eapply sublist_NoDup; [exact Hnd|].
  apply fmap_sublist, sublist_filter.
Qed.

(** The loop fails exactly when some element names no row. *)
Lemma reorder_fails_iff (order_data : list order_item) (rows : list A) :
  (∃ item, reorder_loop order_data
             (dict_by_id (filter (λ r, ent_id r ∈ item_id <$> order_data) rows)) = inl item)
  ↔ ∃ item, item ∈ order_data ∧ ∀ r, r ∈ rows → ent_id r ≠ item_id item.
Proof.
  split.
  - intros [item Hr]. exists item. apply reorder_loop_fail in Hr as [Hin Hnone].
    split; [done|]. intros r Hr e.
    rewrite dict_by_id_None in Hnone. apply (Hnone r); [|done].
    apply list_elem_of_filter. split; [|done]. rewrite e. by apply list_elem_of_fmap_2.
  - intros [item [Hin Hno]].
    destruct (reorder_loop order_data _) as [it|m'] eqn:Hr; [eauto|].
    exfalso.
    pose proof (reorder_loop_lookup _ _ _ (item_id item) Hr) as Hl.
    assert (dict_by_id (filter (λ r, ent_id r ∈ item_id <$> order_data) rows)
              !! item_id item = None) as Hd.
    { apply dict_by_id_None. intros r Hr' e.
      apply list_elem_of_filter in Hr' as [_ Hr']. by apply (Hno r). }
    rewrite Hd in Hl. simpl in Hl.
    clear Hd Hno. revert Hin Hl Hr. generalize (dict_by_id (filter (λ r, ent_id r ∈ item_id <$> order_data) rows)).
    clear rows. intros m0 Hin Hl Hr.
    assert (∀ m m', reorder_loop order_data m = inr m' →
              ∀ it, it ∈ order_data → is_Some (m' !! item_id it)) as Hgen.
    { clear. induction order_data as [|x l IH]; intros m m' Hr it Hin.
      - by apply elem_of_nil in Hin.
      - simpl in Hr. destruct (m !! item_id x) as [obj|] eqn:Hm; [|done].
        apply elem_of_cons in Hin as [->|Hin]; [|by eapply IH].
        rewrite (reorder_loop_lookup _ _ _ (item_id x) Hr), lookup_insert_eq. eauto. }
    destruct (Hgen _ _ Hr item Hin) as [? Hs]. congruence.
Qed.

(** When every element names a row, the loop ends, and writing the
    changed objects back gives the table with every supplied order. *)
Lemma reorder_succeeds (order_data : list order_item) (rows : list A) :
  NoDup (ent_id <$> rows) →
  (∀ item, item ∈ order_data → ∃ r, r ∈ rows ∧ ent_id r = item_id item) →
  ∃ m', reorder_loop order_data
          (dict_by_id (filter (λ r, ent_id r ∈ item_id <$> order_data) rows)) = inr m'
        ∧ flush m' rows = reordered order_data rows.
Proof.
  intros Hpk Hall.
  set (sel := filter (λ r, ent_id r ∈ item_id <$> order_data) rows).
  assert (NoDup (ent_id <$> sel)) as Hpk' by by apply NoDup_fmap_filter.
  destruct (reorder_loop_total order_data (dict_by_id sel)) as [m' Hm'].
  { intros item Hin. destruct (Hall item Hin) as (r & Hr & e).
    rewrite <- e, dict_by_id_pk; [eauto|done|].
    apply list_elem_of_filter. split; [|done]. rewrite e. by apply list_elem_of_fmap_2. }
  exists m'. split; [done|].
  unfold flush, reordered. apply list_fmap_ext. intros k r Hk.
  apply list_elem_of_lookup_2 in Hk.
  rewrite (reorder_loop_lookup _ _ _ (ent_id r) Hm').
  destruct (decide (ent_id r ∈ item_id <$> order_data)) as [Hin|Hni].
  - rewrite dict_by_id_pk; [|done|by apply list_elem_of_filter].
    simpl. apply write_all_supplied.
  - rewrite supplied_order_None by done.
    replace (dict_by_id sel !! ent_id r) with (@None A); [done|].
    symmetry. apply dict_by_id_None. intros r' Hr' e.
    apply list_elem_of_filter in Hr' as [Hr' _]. by rewrite e in Hr'.
Qed.

End Reorder.
(** ** Commits *)

Lemma written_elem {A} `{EqDecision A} (old new : list A) r :
  r ∈ written old new ↔ r ∈ new ∧ r ∉ old.
Proof. unfold written. rewrite list_elem_of_filter. tauto. Qed.

Lemma written_nil {A} `{EqDecision A} (old new : list A) :
  (∀ r, r ∈ new → r ∈ old) → written old new = [].
Proof.
  intros Hsub. destruct (written old new) as [|r l] eqn:Hw; [done|].
  assert (r ∈ written old new) as Hr by (rewrite Hw; left).
  apply written_elem in Hr as [Hn Ho]. by destruct (Ho (Hsub r Hn)).
Qed.

Lemma forallb_written {A} `{EqDecision A} (f : A → bool) (old new : list A) :
  forallb f (written old new) = true ↔ ∀ r, r ∈ new → r ∉ old → f r = true.
Proof.
  rewrite forallb_forall. split.
  - intros Hall r Hn Ho. apply Hall, list_elem_of_In, written_elem. done.
  - intros Hall r Hr. apply list_elem_of_In, written_elem in Hr as [Hn Ho]. by apply Hall.
Qed.

Lemma forallb_written_false {A} `{EqDecision A} (f : A → bool) (old new : list A) :
  forallb f (written old new) = false ↔ (∃ r, r ∈ new ∧ (r ∉ old) ∧ f r = false).
Proof.
  split.
  - intros Hf. induction (written old new) as [|r l IH] eqn:Hw in Hf |- *.
    + done.
    + assert (∀ x, x ∈ r :: l → x ∈ new ∧ x ∉ old) as Hsub.
      { intros x Hx. rewrite <- Hw in Hx. by apply written_elem. }
      clear Hw IH. revert Hf Hsub. generalize (r :: l). clear r l.
      intros l. induction l as [|x l IH]; [done|]. simpl.
      destruct (f x) eqn:Hx; simpl.
      * intros Hf Hsub. apply IH; [done|]. intros y Hy. apply Hsub. by right.
      * intros _ Hsub. exists x. destruct (Hsub x ltac:(left)). done.
  - intros (r & Hn & Ho & Hr). destruct (forallb f (written old new)) eqn:Hall; [|done].
    rewrite (proj1 (forallb_written f old new) Hall r Hn Ho) in Hr. done.
Qed.

Lemma store_accepts_chapters (d : database) (rows : list Chapter.t) :
  store_accepts d (with_chapters rows d)
  = forallb (accepts_chapter d) (written (chapters d) rows).
Proof.
  unfold store_accepts. cbn [chapters articles with_chapters].
  rewrite (written_nil (articles d) (articles d)) by done. apply andb_true_r.
Qed.

Lemma store_accepts_articles (d : database) (rows : list Article.t) :
  store_accepts d (with_articles rows d)
  = forallb (accepts_article d) (written (articles d) rows).
Proof.
  unfold store_accepts. cbn [chapters articles with_articles].
  by rewrite (written_nil (chapters d) (chapters d)) by done.
Qed.

Lemma store_accepts_same (d : database) : store_accepts d d = true.
Proof.
  unfold store_accepts.
  by rewrite (written_nil (chapters d) (chapters d)), (written_nil (articles d) (articles d)).
Qed.

(** ** Bulk reorder *)

Lemma with_chapters_same (d : database) : with_chapters (chapters d) d = d.
Proof. by destruct d. Qed.

Lemma with_articles_same (d : database) : with_articles (articles d) d = d.
Proof. by destruct d. Qed.

Lemma flush_empty {A} `{Ordered A} (rows : list A) : flush ∅ rows = rows.
Proof.
  unfold flush. rewrite <- (list_fmap_id rows) at 2.
  apply list_fmap_ext. intros i r _. by rewrite lookup_empty.
Qed.

Lemma filter_in_nil {A} (f : A → Z) (rows : list A) :
  filter (λ r, f r ∈ @nil Z) rows = [].
Proof.
  induction rows as [|r rows IH]; [done|].
  rewrite filter_cons, decide_False; [done|]. apply not_elem_of_nil.
Qed.


Lemma update_chapters_order_unfold (E : env) (req : request) (w : world) order_data :
  get_json req = JsonList order_data →
  update_chapters_order E req w =
  match reorder_loop order_data
          (dict_by_id (filter (λ c, Chapter.id c ∈ item_id <$> order_data)
                              (chapters (db w)))) with
  | inr m =>
      let rows := flush m (chapters (db w)) in
      if forallb (accepts_chapter (db w)) (written (chapters (db w)) rows) then
        ((Message "Chapters order updated successfully", 200),
         log SqlCommit (with_db (with_chapters rows (db w)) (log (SqlSelect "chapters") w)))
      else
        ((Error ("An error occurred: "
                 +:+ exc_text (db w) (written (chapters (db w)) rows) []), 500),
         log SqlRollback (log (SqlSelect "chapters") w))
  | inl item =>
      ((Error ("Chapter with id " +:+ pretty (item_id item) +:+ " not found"), 404),
       log SqlRollback (log (SqlSelect "chapters") w))
  end.
Proof.
  intros Hj. unfold update_chapters_order. rewrite Hj.
  unfold bind, query_chapters_in. cbn [fst snd].
  destruct (reorder_loop _ _) as [item|m]; [done|].
  unfold db_commit, db_rollback, ret. cbn [db log with_db]. cbv zeta.
  rewrite store_accepts_chapters. cbn [chapters articles with_chapters].
  rewrite (written_nil (articles (db w)) (articles (db w))) by done.
  by destruct (forallb _ _).
Qed.

Lemma update_articles_order_unfold (E : env) (req : request) (w : world) order_data :
  get_json req = JsonList order_data →
  update_articles_order E req w =
  match reorder_loop order_data
          (dict_by_id (filter (λ a, Article.id a ∈ item_id <$> order_data)
                              (articles (db w)))) with
  | inr m =>
      let rows := flush m (articles (db w)) in
      if forallb (accepts_article (db w)) (written (articles (db w)) rows) then
        ((Message "Articles order updated successfully", 200),
         log SqlCommit (with_db (with_articles rows (db w)) (log (SqlSelect "articles") w)))
      else
        ((Error ("An error occurred: "
                 +:+ exc_text (db w) [] (written (articles (db w)) rows)), 500),
         log SqlRollback (log (SqlSelect "articles") w))
  | inl item =>
      ((Error ("Article with id " +:+ pretty (item_id item) +:+ " not found"), 404),
       log SqlRollback (log (SqlSelect "articles") w))
  end.
Proof.
  intros Hj. unfold update_articles_order. rewrite Hj.
  unfold bind, query_articles_in. cbn [fst snd].
  destruct (reorder_loop _ _) as [item|m]; [done|].
  unfold db_commit, db_rollback, ret. cbn [db log with_db]. cbv zeta.
  rewrite store_accepts_articles. cbn [chapters articles with_articles].
  rewrite (written_nil (chapters (db w)) (chapters (db w))) by done.
  by destruct (forallb _ _).
Qed.

Lemma supplied_order_distinct (order_data : list order_item) item :
  NoDup (item_id <$> order_data) → item ∈ order_data →
  supplied_order order_data (item_id item) = Some (item_order item).
Proof.
  intros Hnd Hin. unfold supplied_order.
  induction order_data as [|x l IH]; [by apply elem_of_nil in Hin|].
  rewrite fmap_cons in Hnd. apply NoDup_cons in Hnd as [Hx Hnd].
  rewrite filter_cons. apply elem_of_cons in Hin as [->|Hin].
  - rewrite decide_True by done.
    replace (filter (λ it, item_id it = item_id x) l) with (@nil order_item); [done|].
    symmetry. destruct (filter _ l) as [|y l'] eqn:Hf; [done|].
    assert (y ∈ filter (λ it, item_id it = item_id x) l) as Hy by (rewrite Hf; left).
    apply list_elem_of_filter in Hy as [e Hy]. destruct Hx. rewrite <- e.
    by apply list_elem_of_fmap_2.
  - rewrite decide_False; [by apply IH|].
    intros e. apply Hx. rewrite e. by apply list_elem_of_fmap_2.
Qed.






(** C10.  A bulk reorder with the empty list answers with the success
    message and leaves the store and the upload directory as they were;
    that message is the one every successful reorder answers with.  A
    body that is not a list is answered with a 400 error and the state,
    recorded operations included, is untouched: no lookup was made. *)
Theorem bulk_reorder_empty_and_not_list (E : env) (req : request) (w : world) :
  (get_json req = JsonList [] →
     let rc := update_chapters_order E req w in
     let ra := update_articles_order E req w in
     rc.1 = (Message "Chapters order updated successfully", 200)
     ∧ db rc.2 = db w ∧ disk rc.2 = disk w
     ∧ ra.1 = (Message "Articles order updated successfully", 200)
     ∧ db ra.2 = db w ∧ disk ra.2 = disk w)
  ∧ (∀ order_data,
       get_json req = JsonList order_data →
       (status (update_chapters_order E req w).1 = 200 →
        (update_chapters_order E req w).1
        = (Message "Chapters order updated successfully", 200))
       ∧ (status (update_articles_order E req w).1 = 200 →
          (update_articles_order E req w).1
          = (Message "Articles order updated successfully", 200)))
  ∧ (get_json req = JsonNotList →
       update_chapters_order E req w
       = ((Error "Invalid data format. Expected a list of objects.", 400), w)
       ∧ update_articles_order E req w
         = ((Error "Invalid data format. Expected a list of objects.", 400), w)).
Proof.
  split; [|split].
  - intros Hj rc ra. subst rc ra.
    rewrite (update_chapters_order_unfold E req w [] Hj).
    rewrite (update_articles_order_unfold E req w [] Hj).
    cbn [fmap list_fmap]. rewrite !filter_in_nil. unfold dict_by_id.
    cbn [foldl reorder_loop]. cbv zeta.
    rewrite !flush_empty, with_chapters_same, with_articles_same.
    rewrite (written_nil (chapters (db w)) (chapters (db w))) by done.
    rewrite (written_nil (articles (db w)) (articles (db w))) by done.
    done.
  - intros order_data Hj.
    rewrite (update_chapters_order_unfold E req w order_data Hj).
    rewrite (update_articles_order_unfold E req w order_data Hj).
    cbv zeta. split.
    + destruct (reorder_loop _ _); [done|]. by destruct (forallb _ _).
    + destruct (reorder_loop _ _); [done|]. by destruct (forallb _ _).
  - intros Hj. unfold update_chapters_order, update_articles_order. by rewrite Hj.
Qed.

Lemma bulk_reorder_empty_and_not_list_witness :
  (update_chapters_order Sample.E (Sample.json_request (JsonList [])) Sample.w).1
  = (Message "Chapters order updated successfully", 200)
  ∧ update_articles_order Sample.E (Sample.json_request JsonNotList) Sample.w
    = ((Error "Invalid data format. Expected a list of objects.", 400), Sample.w).
Proof.
  split.
  - destruct (bulk_reorder_empty_and_not_list Sample.E
                (Sample.json_request (JsonList [])) Sample.w) as (Hempty & _).
    by destruct (Hempty eq_refl) as (Hmsg & _).
  - destruct (bulk_reorder_empty_and_not_list Sample.E
                (Sample.json_request JsonNotList) Sample.w) as (_ & _ & Hnot).
    by destruct (Hnot eq_refl) as (_ & Ha).
Defined.

(** ** Tariffs *)



(** ** Photos *)

Lemma save_photo_absent (E : env) (file : option FileStorage) (w : world) :
  file_truthy file = false → save_photo E file w = ((None, None), w).
Proof.
  destruct file as [f|]; [|done]. simpl. unfold save_photo.
  by destruct (String.eqb (filename f) "").
Qed.

Lemma save_photo_bad_type (E : env) (f : FileStorage) (w : world) :
  file_truthy (Some f) = true → allowed_file (filename f) = false →
  save_photo E (Some f) w
  = ((None, Some "Invalid file type. Allowed types: png, jpg, jpeg, gif"), w).
Proof.
  simpl. unfold save_photo. destruct (String.eqb (filename f) ""); [done|].
  by intros _ ->.
Qed.

Ltac run_ops :=
  unfold bind, ret, uuid_uuid4, save_photo_try, file_save, image_open, os_path_exists,
    os_remove;
  cbv beta iota zeta;
  cbn [disk db uuid_calls ops log with_db with_disk fst snd negb].

Lemma exists_after_write (m : gmap string file_data) (p : string) (x : file_data) :
  bool_decide (is_Some (<[p := x]> m !! p)) = true.
Proof. rewrite lookup_insert_eq. by apply bool_decide_eq_true_2. Qed.

Lemma save_photo_allowed (E : env) (f : FileStorage) (w : world) :
  file_truthy (Some f) = true → allowed_file (filename f) = true →
  photo_outcome E f w (save_photo E (Some f) w).1 (save_photo E (Some f) w).2.
Proof.
  cbn [file_truthy]. unfold save_photo.
  destruct (String.eqb (filename f) ""); [done|].
  intros _ ->. run_ops.
  fold (stored_name E (uuid_calls w) f).
  set (path := os_path_join UPLOAD_FOLDER (stored_name E (uuid_calls w) f)).
  destruct (on_save f) as [|leaves err] eqn:Hs; run_ops.
  - rewrite lookup_insert_eq.
    destruct (data f) as [width height|err] eqn:Hd; run_ops.
    + destruct (height =? 0) eqn:Hh; run_ops.
      * rewrite exists_after_write. run_ops.
        apply photo_refused; run_ops; try assumption; try reflexivity.
        -- intros _ ? ? Hd'. rewrite Hd in Hd'. injection Hd' as <- <-.
           left. by apply Z.eqb_eq.
        -- by rewrite delete_insert_eq.
      * destruct (ratio_in_bounds (F64.truediv width height)) eqn:Hr; run_ops.
        -- apply (photo_stored E f w width height); try assumption; try reflexivity.
           ++ by apply Z.eqb_neq.
           ++ run_ops. by rewrite Hd.
        -- apply photo_refused; run_ops; try assumption; try reflexivity.
           ++ intros _ ? ? Hd'. rewrite Hd in Hd'. injection Hd' as <- <-. by right.
           ++ by rewrite delete_insert_eq.
    + rewrite exists_after_write. run_ops.
      apply photo_refused; run_ops; try assumption; try reflexivity.
      * intros _ ? ? Hd'. by rewrite Hd in Hd'.
      * by rewrite delete_insert_eq.
  - assert (on_save f = SaveDone →
            ∀ width height, data f = ImageFile width height →
              height = 0 ∨ ratio_in_bounds (F64.truediv width height) = false) as Hno
      by (intros Hs'; by rewrite Hs in Hs').
    destruct leaves; run_ops.
    + rewrite exists_after_write. run_ops. apply photo_refused; run_ops; try assumption; try reflexivity.
      by rewrite delete_insert_eq.
    + destruct (disk w !! path) as [x|] eqn:Hp.
      * rewrite bool_decide_eq_true_2 by eauto. run_ops. by apply photo_refused.
      * rewrite bool_decide_eq_false_2 by (by intros [? ?]). run_ops.
        apply photo_refused; run_ops; try assumption; try reflexivity. by rewrite delete_id.
Qed.

Lemma save_photo_db (E : env) (file : option FileStorage) (w : world) :
  db (save_photo E file w).2 = db w.
Proof.
  destruct (file_truthy file) eqn:Ht.
  - destruct file as [f|]; [|done].
    destruct (allowed_file (filename f)) eqn:Ha.
    + by destruct (save_photo_allowed E f w Ht Ha).
    + by rewrite save_photo_bad_type.
  - by rewrite save_photo_absent.
Qed.

(** ** Append-order assignment *)

Lemma sql_max_is_max (l : list (option Z)) (m : Z) :
  sql_max l = Some m ↔ is_max_order m l.
Proof.
  unfold is_max_order. revert m. induction l as [|o l IH]; intros m; simpl.
  - split; [done|]. intros [Hin _]. by apply elem_of_nil in Hin.
  - destruct o as [v|]; destruct (sql_max l) as [m'|] eqn:Hl.
    + pose proof (proj1 (IH m') eq_refl) as [Hin Hle]. split.
      * intros [= <-]. split.
        -- destruct (Z.max_spec v m') as [[_ ->]|[_ ->]]; [by right|left].
        -- intros v' Hv'. apply elem_of_cons in Hv' as [[= ->]|Hv']; [lia|].
           specialize (Hle v' Hv'). lia.
      * intros [Hm Hub]. f_equal.
        pose proof (Hub v ltac:(left)). pose proof (Hub m' ltac:(by right)).
        apply elem_of_cons in Hm as [[= ->]|Hm]; [lia|].
        specialize (Hle m Hm). lia.
    + split.
      * intros [= <-]. split; [left|].
        intros v' Hv'. apply elem_of_cons in Hv' as [[= ->]|Hv']; [lia|].
        assert (sql_max l = Some v') as Hc; [|congruence].
        exfalso. clear IH. induction l as [|o l IHl]; [by apply elem_of_nil in Hv'|].
        simpl in Hl. destruct o; destruct (sql_max l); try done.
        apply elem_of_cons in Hv' as [?|Hv']; [done|]. by apply IHl.
      * intros [Hm Hub]. apply elem_of_cons in Hm as [[= ->]|Hm]; [done|].
        exfalso. clear IH Hub. induction l as [|o l IHl]; [by apply elem_of_nil in Hm|].
        simpl in Hl. destruct o; destruct (sql_max l); try done.
        apply elem_of_cons in Hm as [?|Hm]; [done|]. by apply IHl.
    + rewrite IH. split.
      * intros [Hin Hub]. split; [by right|].
        intros v' Hv'. apply elem_of_cons in Hv' as [?|Hv']; [done|]. by apply Hub.
      * intros [Hin Hub]. split.
        -- by apply elem_of_cons in Hin as [?|Hin].
        -- intros v' Hv'. apply Hub. by right.
    + split; [done|]. intros [Hin Hub].
      apply elem_of_cons in Hin as [?|Hin]; [done|].
      assert (is_max_order m l) as Hm.
      { split; [done|]. intros v' Hv'. apply Hub. by right. }
      apply IH in Hm. done.
Qed.

Lemma or_zero_plus_one (o : option Z) :
  or_zero o + 1 = match o with Some m => m + 1 | None => 1 end.
Proof.
  destruct o as [m|]; [|done]. simpl.
  destruct (m =? 0) eqn:Hm; [|done]. apply Z.eqb_eq in Hm. by subst.
Qed.

Lemma create_chapter_no_title (E : env) (req : request) (w : world) :
  PyStr.truthy (form req !! "title") = false →
  create_chapter E req w = ((Error "Title is required", 400), w).
Proof. intros Ht. unfold create_chapter. by rewrite Ht. Qed.

Lemma create_chapter_unfold (E : env) (req : request) (w : world) :
  PyStr.truthy (form req !! "title") = true →
  create_chapter E req w =
  let s := save_photo E (files req !! "photo") w in
  if PyStr.truthy s.1.2 then ((Error (default "" s.1.2), 400), s.2)
  else
    let c := new_chapter_row (default "" (form req !! "title"))
               (or_zero (sql_max (Chapter.order <$> chapters (db w))) + 1)
               s.1.1 (db w) in
    if accepts_chapter (db w) c then
      ((ChapterJson (Chapter_to_dict (BASE_IMAGE_URL E) c), 201),
       log (SqlSelect "chapters")
         (log SqlCommit
            (with_db (insert_chapter c (db w)) (log (SqlSelect "chapters") s.2))))
    else ((Unhandled, 500), log (SqlSelect "chapters") s.2).
Proof.
  intros Ht. unfold create_chapter. rewrite Ht. cbn [negb].
  unfold bind at 1. pose proof (save_photo_db E (files req !! "photo") w) as Hdb.
  destruct (save_photo E (files req !! "photo") w) as [[name err] w1]. cbn [fst snd] in *.
  destruct (PyStr.truthy err); [done|].
  unfold bind, query_max_chapter_order, db_add_chapter. cbn [fst snd db log]. cbv zeta.
  rewrite Hdb. by destruct (accepts_chapter _ _).
Qed.

Lemma required_fields_present (data : gmap string string) :
  forallb (λ field, bool_decide (is_Some (data !! field))) required_fields = true
  ↔ ∀ field, field ∈ required_fields → is_Some (data !! field).
Proof.
  rewrite forallb_forall. split.
  - intros Hall field Hin. apply list_elem_of_In in Hin.
    eapply bool_decide_eq_true_1, Hall, Hin.
  - intros Hall field Hin. apply list_elem_of_In in Hin.
    by apply bool_decide_eq_true_2, Hall.
Qed.

Lemma find_chapter_None (rows : list Chapter.t) (key : Z) :
  List.find (λ c, Chapter.id c =? key) rows = None
  ↔ ∀ c, c ∈ rows → Chapter.id c ≠ key.
Proof.
  split.
  - intros Hf c Hin e. apply list_elem_of_In in Hin.
    pose proof (find_none _ _ Hf c Hin) as Hn. simpl in Hn.
    apply Z.eqb_neq in Hn. done.
  - intros Hall. destruct (List.find _ rows) as [c|] eqn:Hf; [|done].
    apply find_some in Hf as [Hin He]. apply Z.eqb_eq in He.
    apply list_elem_of_In in Hin. by destruct (Hall c Hin).
Qed.

Lemma create_article_missing_field (E : env) (req : request) (w : world) :
  ¬ (∀ field, field ∈ required_fields → is_Some (form req !! field)) →
  create_article E req w = ((Error "Missing required fields", 400), w).
Proof.
  intros Hm. unfold create_article.
  destruct (forallb _ _) eqn:Hall; [|done].
  fold required_fields in Hall.
  by pose proof (proj1 (required_fields_present _) Hall).
Qed.

Lemma create_article_no_chapter (E : env) (req : request) (w : world) (chapter_id : Z) :
  (∀ field, field ∈ required_fields → is_Some (form req !! field)) →
  py_int E (default "" (form req !! "chapter_id")) = Some chapter_id →
  (∀ c, c ∈ chapters (db w) → Chapter.id c ≠ chapter_id) →
  create_article E req w
  = ((Error ("Chapter with id " +:+ pretty chapter_id +:+ " not found"), 404),
     log (SqlSelect "chapters") w).
Proof.
  intros Hreq Hint Hno. unfold create_article.
  apply (proj2 (required_fields_present _)) in Hreq. unfold required_fields in Hreq.
  rewrite Hreq, Hint. simpl.
  unfold bind, query_chapter_first. simpl.
  apply (proj2 (find_chapter_None _ _)) in Hno. by rewrite Hno.
Qed.

Lemma create_article_unfold (E : env) (req : request) (w : world) (chapter_id : Z) c :
  (∀ field, field ∈ required_fields → is_Some (form req !! field)) →
  py_int E (default "" (form req !! "chapter_id")) = Some chapter_id →
  List.find (λ c, Chapter.id c =? chapter_id) (chapters (db w)) = Some c →
  create_article E req w =
  let s := save_photo E (files req !! "photo") (log (SqlSelect "chapters") w) in
  if PyStr.truthy s.1.2 then ((Error (default "" s.1.2), 400), s.2)
  else
    let a := new_article_row (default "" (form req !! "title"))
               (default "" (form req !! "description"))
               (default "" (form req !! "link"))
               (or_zero (sql_max (Article.order <$>
                   filter (λ a, Article.chapter_id a = Some chapter_id)
                          (articles (db w)))) + 1)
               chapter_id s.1.1 (db w) in
    if accepts_article (db w) a then
      ((ArticleJson (Article_to_dict (BASE_IMAGE_URL E) a), 201),
       log (SqlSelect "articles")
         (log SqlCommit
            (with_db (insert_article a (db w)) (log (SqlSelect "articles") s.2))))
    else ((Unhandled, 500), log (SqlSelect "articles") s.2).
Proof.
  intros Hreq Hint Hf. unfold create_article.
  apply (proj2 (required_fields_present _)) in Hreq. unfold required_fields in Hreq.
  rewrite Hreq, Hint. simpl.
  unfold bind at 1. unfold query_chapter_first at 1. rewrite Hf.
  unfold bind at 1.
  pose proof (save_photo_db E (files req !! "photo") (log (SqlSelect "chapters") w)) as Hdb.
  destruct (save_photo E (files req !! "photo") (log (SqlSelect "chapters") w))
    as [[name err] w1]. cbn [fst snd db log] in *.
  destruct (PyStr.truthy err); [done|].
  unfold bind, query_max_article_order, db_add_article. cbn [fst snd db log]. cbv zeta.
  rewrite Hdb. by destruct (accepts_article _ _).
Qed.

(** C3.  A successful [POST /chapters] appends one chapter whose order is
    the greatest order of the existing chapters plus 1, and 1 when there
    is no chapter.  A successful [POST /articles] appends one article
    whose order is the greatest order among the articles of the same
    [chapter_id] plus 1, and 1 when that chapter has no article.  The
    handlers read no order from the request.  And the creates do
    succeed: a titled [POST /chapters] whose photo is not refused, and a
    [POST /articles] with the four required fields under an existing
    chapter whose photo is not refused, are answered 201 whenever the
    store accepts the row that carries this order. *)
Theorem append_order_assignment (E : env) (req : request) (w : world) :
  (status (create_chapter E req w).1 = 201 →
   ∃ c, chapters (db (create_chapter E req w).2) = chapters (db w) ++ [c]
        ∧ (create_chapter E req w).1
          = (ChapterJson (Chapter_to_dict (BASE_IMAGE_URL E) c), 201)
        ∧ (∀ m, is_max_order m (Chapter.order <$> chapters (db w)) →
                Chapter.order c = Some (m + 1))
        ∧ (chapters (db w) = [] → Chapter.order c = Some 1))
  ∧ (status (create_article E req w).1 = 201 →
     ∃ a chapter_id,
       py_int E (default "" (form req !! "chapter_id")) = Some chapter_id
       ∧ Article.chapter_id a = Some chapter_id
       ∧ articles (db (create_article E req w).2) = articles (db w) ++ [a]
       ∧ (create_article E req w).1
         = (ArticleJson (Article_to_dict (BASE_IMAGE_URL E) a), 201)
       ∧ let scope := filter (λ a, Article.chapter_id a = Some chapter_id)
                             (articles (db w)) in
         (∀ m, is_max_order m (Article.order <$> scope) →
               Article.order a = Some (m + 1))
         ∧ (scope = [] → Article.order a = Some 1))
  ∧ (PyStr.truthy (form req !! "title") = true →
     let s := save_photo E (files req !! "photo") w in
     PyStr.truthy s.1.2 = false →
     accepts_chapter (db w)
       (new_chapter_row (default "" (form req !! "title"))
          (or_zero (sql_max (Chapter.order <$> chapters (db w))) + 1) s.1.1 (db w))
     = true →
     status (create_chapter E req w).1 = 201)
  ∧ (∀ chapter_id c,
       (∀ field, field ∈ required_fields → is_Some (form req !! field)) →
       py_int E (default "" (form req !! "chapter_id")) = Some chapter_id →
       c ∈ chapters (db w) → Chapter.id c = chapter_id →
       let s := save_photo E (files req !! "photo") (log (SqlSelect "chapters") w) in
       PyStr.truthy s.1.2 = false →
       accepts_article (db w)
         (new_article_row (default "" (form req !! "title"))
            (default "" (form req !! "description")) (default "" (form req !! "link"))
            (or_zero (sql_max (Article.order <$>
                filter (λ a, Article.chapter_id a = Some chapter_id)
                       (articles (db w)))) + 1)
            chapter_id s.1.1 (db w))
       = true →
       status (create_article E req w).1 = 201).
Proof.
  unfold status. split; [|split; [|split]].
  - destruct (PyStr.truthy (form req !! "title")) eqn:Ht.
    + rewrite (create_chapter_unfold E req w Ht). cbv zeta.
      destruct (PyStr.truthy (save_photo E (files req !! "photo") w).1.2); [done|].
      destruct (accepts_chapter _ _); [|done].
      cbn [fst snd db log with_db]. intros _.
      eexists. split; [reflexivity|]. split; [reflexivity|]. cbn. split.
      * intros m Hm. apply sql_max_is_max in Hm. by rewrite or_zero_plus_one, Hm.
      * by intros ->.
    + by rewrite (create_chapter_no_title E req w Ht).
  - destruct (forallb (λ field, bool_decide (is_Some (form req !! field)))
                required_fields) eqn:Hall.
    2:{ rewrite create_article_missing_field; [done|]. intros Hreq.
        apply (proj2 (required_fields_present _)) in Hreq. congruence. }
    pose proof (proj1 (required_fields_present _) Hall) as Hreq. clear Hall.
    destruct (py_int E (default "" (form req !! "chapter_id"))) as [chapter_id|] eqn:Hint.
    2:{ unfold create_article. apply (proj2 (required_fields_present _)) in Hreq.
        unfold required_fields in Hreq. by rewrite Hreq, Hint. }
    destruct (List.find (λ c, Chapter.id c =? chapter_id) (chapters (db w)))
      as [c|] eqn:Hf.
    2:{ pose proof (proj1 (find_chapter_None _ _) Hf) as Hno.
        by rewrite (create_article_no_chapter E req w chapter_id). }
    rewrite (create_article_unfold E req w chapter_id c Hreq Hint Hf). cbv zeta.
    destruct (PyStr.truthy
                (save_photo E (files req !! "photo") (log (SqlSelect "chapters") w)).1.2);
      [done|].
    destruct (accepts_article _ _); [|done].
    cbn [fst snd]. intros _.
    match goal with |- context [insert_article ?a _] => exists a, chapter_id end.
    split; [done|]. split; [reflexivity|].
    split; [by simpl|]. split; [reflexivity|]. simpl. split.
    * intros m Hm. apply sql_max_is_max in Hm. by rewrite or_zero_plus_one, Hm.
    * by intros ->.
  - intros Ht. cbv zeta. intros Hs Hok.
    rewrite (create_chapter_unfold E req w Ht). cbv zeta. by rewrite Hs, Hok.
  - intros chapter_id c Hreq Hint Hc Hid. cbv zeta. intros Hs Hok.
    destruct (List.find (λ c, Chapter.id c =? chapter_id) (chapters (db w)))
      as [c0|] eqn:Hf.
    2:{ by destruct (proj1 (find_chapter_None _ _) Hf c Hc). }
    rewrite (create_article_unfold E req w chapter_id c0 Hreq Hint Hf). cbv zeta.
    by rewrite Hs, Hok.
Qed.

Lemma append_order_assignment_witness :
  let req := Sample.form_request {[ "title" := "Advanced" ]} None in
  let areq := Sample.form_request
                {[ "title" := "More steps"; "description" := "Text";
                   "link" := "https://e.org/3"; "chapter_id" := "1" ]} None in
  (∃ c, chapters (db (create_chapter Sample.E req Sample.w).2)
        = chapters (db Sample.w) ++ [c]
        ∧ Chapter.order c = Some 3)
  ∧ (∃ a, articles (db (create_article Sample.E areq Sample.w).2)
          = articles (db Sample.w) ++ [a]
          ∧ Article.chapter_id a = Some 1 ∧ Article.order a = Some 3).
Proof.
  intros req areq. split.
  - destruct (append_order_assignment Sample.E req Sample.w) as (Hc & _ & Hok & _).
    destruct (Hc (Hok eq_refl eq_refl eq_refl)) as (c & Hrows & _ & Hmax & _).
    exists c. split; [exact Hrows|].
    apply (Hmax 2). split.
    + right. left.
    + intros v Hv. apply elem_of_cons in Hv as [[= ->]|Hv]; [lia|].
      apply elem_of_cons in Hv as [[= ->]|Hv]; [lia|]. by apply elem_of_nil in Hv.
  - destruct (append_order_assignment Sample.E areq Sample.w) as (_ & Ha & _ & Hok).
    assert (status (create_article Sample.E areq Sample.w).1 = 201) as H201.
    { apply (Hok 1 Sample.intro).
      - intros field Hin. apply (bool_decide_unpack _). revert field Hin.
        apply Forall_forall. repeat constructor.
      - reflexivity.
      - left.
      - reflexivity.
      - reflexivity.
      - reflexivity. }
    destruct (Ha H201) as (a & k & Hk & Hcid & Hrows & _ & Hmax & _).
    assert (k = 1) as -> by (vm_compute in Hk; congruence).
    exists a. split; [exact Hrows|]. split; [exact Hcid|].
    apply (Hmax 2). split.
    + right. left.
    + intros v Hv. apply elem_of_cons in Hv as [[= ->]|Hv]; [lia|].
      apply elem_of_cons in Hv as [[= ->]|Hv]; [lia|]. by apply elem_of_nil in Hv.
Defined.

(** ** Sequences of creates *)

Lemma sql_max_snoc (l : list (option Z)) (v : Z) :
  sql_max (l ++ [Some v])
  = Some (match sql_max l with Some m => Z.max m v | None => v end).
Proof.
  induction l as [|o l IH]; [done|]. simpl. rewrite IH.
  destruct o as [x|]; destruct (sql_max l) as [m|]; simpl; f_equal; lia.
Qed.

Lemma sql_max_seqZ (n : nat) :
  or_zero (sql_max (Some <$> seqZ 1 (Z.of_nat n))) = Z.of_nat n.
Proof.
  assert (sql_max (Some <$> seqZ 1 (Z.of_nat n))
          = if decide (n = 0%nat) then None else Some (Z.of_nat n)) as ->.
  { induction n as [|n IH]; [done|].
    rewrite seqZ_S, fmap_app. simpl. rewrite sql_max_snoc, IH.
    destruct (decide (n = 0%nat)); simpl; f_equal; lia. }
  destruct (decide (n = 0%nat)) as [->|Hn]; [done|]. simpl.
  destruct (Z.of_nat n =? 0) eqn:Hz; [|done]. apply Z.eqb_eq in Hz. lia.
Qed.

Lemma create_chapter_orders (E : env) (req : request) (w : world) (n : nat) :
  Chapter.order <$> chapters (db w) = Some <$> seqZ 1 (Z.of_nat n) →
  status (create_chapter E req w).1 = 201 →
  Chapter.order <$> chapters (db (create_chapter E req w).2)
  = Some <$> seqZ 1 (Z.of_nat (S n))
  ∧ ∃ d, (create_chapter E req w).1 = (ChapterJson d, 201)
         ∧ cd_order d = Some (Z.of_nat (S n)).
Proof.
  intros Hord. unfold status.
  destruct (PyStr.truthy (form req !! "title")) eqn:Ht.
  2:{ by rewrite (create_chapter_no_title E req w Ht). }
  rewrite (create_chapter_unfold E req w Ht). cbv zeta.
  destruct (PyStr.truthy (save_photo E (files req !! "photo") w).1.2); [done|].
  destruct (accepts_chapter _ _); [|done].
  cbn [fst snd]. intros _. rewrite Hord, sql_max_seqZ. split.
  - simpl. rewrite fmap_app, Hord, seqZ_S, fmap_app. simpl.
    do 3 f_equal. lia.
  - eexists. split; [reflexivity|]. simpl. f_equal. lia.
Qed.

Lemma create_chapter_keeps (E : env) (req : request) (w : world) :
  status (create_chapter E req w).1 ≠ 201 →
  db (create_chapter E req w).2 = db w.
Proof.
  unfold status.
  destruct (PyStr.truthy (form req !! "title")) eqn:Ht.
  2:{ by rewrite (create_chapter_no_title E req w Ht). }
  rewrite (create_chapter_unfold E req w Ht). cbv zeta.
  destruct (PyStr.truthy (save_photo E (files req !! "photo") w).1.2).
  - intros _. cbn [fst snd]. apply save_photo_db.
  - destruct (accepts_chapter _ _); [by cbn [fst snd]|].
    intros _. cbn [fst snd db log]. apply save_photo_db.
Qed.

Lemma create_chapters_orders (E : env) (reqs : list request) (w : world) (n : nat) :
  Chapter.order <$> chapters (db w) = Some <$> seqZ 1 (Z.of_nat n) →
  Forall (λ r, status r = 201) (create_chapters E reqs w).1 →
  Chapter.order <$> chapters (db (create_chapters E reqs w).2)
  = Some <$> seqZ 1 (Z.of_nat (n + length reqs))
  ∧ Forall2 (λ r k, ∃ d, r = (ChapterJson d, 201) ∧ cd_order d = Some k)
            (create_chapters E reqs w).1
            (seqZ (Z.of_nat n + 1) (Z.of_nat (length reqs))).
Proof.
  revert w n. induction reqs as [|req rest IH]; intros w n Hord Hall; simpl in *.
  - rewrite Nat.add_0_r. split; [done|]. constructor.
  - apply Forall_cons in Hall as [Hone Hrest].
    destruct (create_chapter_orders E req w n Hord Hone) as (Hord' & d & Hresp & Hd).
    destruct (IH _ (S n) Hord' Hrest) as (Hfin & Hresps).
    split.
    + rewrite Hfin. do 3 f_equal. lia.
    + rewrite seqZ_cons by lia. constructor.
      * exists d. split; [done|]. rewrite Hd. f_equal. lia.
      * replace (Z.succ (Z.of_nat n + 1)) with (Z.of_nat (S n) + 1) by lia.
        replace (Z.pred (Z.of_nat (S (length rest)))) with (Z.of_nat (length rest)) by lia.
        done.
Qed.

(** C4.  Starting from a store without chapters, after N [POST /chapters]
    requests that all succeed the orders of the chapters are 1, ..., N
    in creation order, and the k-th reply carries the order k. *)
Theorem chapter_orders_count_up (E : env) (reqs : list request) (w : world) :
  chapters (db w) = [] →
  Forall (λ r, status r = 201) (create_chapters E reqs w).1 →
  Chapter.order <$> chapters (db (create_chapters E reqs w).2)
  = Some <$> seqZ 1 (Z.of_nat (length reqs))
  ∧ Forall2 (λ r k, ∃ d, r = (ChapterJson d, 201) ∧ cd_order d = Some k)
            (create_chapters E reqs w).1
            (seqZ 1 (Z.of_nat (length reqs))).
Proof.
  intros Hempty Hall.
  apply (create_chapters_orders E reqs w 0); [|done]. by rewrite Hempty.
Qed.

Lemma chapter_orders_count_up_witness :
  let reqs := [ Sample.form_request {[ "title" := "One" ]} None;
                Sample.form_request {[ "title" := "Two" ]} (Some Sample.wide);
                Sample.form_request {[ "title" := "Three" ]} None ] in
  Chapter.order <$> chapters (db (create_chapters Sample.E reqs Sample.w_empty).2)
  = [Some 1; Some 2; Some 3].
Proof.
  intros reqs.
  destruct (chapter_orders_count_up Sample.E reqs Sample.w_empty eq_refl) as (H & _).
  - repeat constructor.
  - exact H.
Defined.

(** ** Required fields of a create *)

(** Without a title nothing is created. *)
Lemma create_chapter_requires_title (E : env) (req : request) (w : world) :
  PyStr.truthy (form req !! "title") = false →
  (create_chapter E req w).1 = (Error "Title is required", 400)
  ∧ (create_chapter E req w).2 = w.
Proof. intros Ht. by rewrite (create_chapter_no_title E req w Ht). Qed.

(** A titled request without a photo creates a chapter whose
    [photo_path] is [NULL], when the store accepts the row. *)
Lemma create_chapter_photo_optional (E : env) (req : request) (w : world) :
  PyStr.truthy (form req !! "title") = true →
  file_truthy (files req !! "photo") = false →
  accepts_chapter (db w)
    (new_chapter_row (default "" (form req !! "title"))
       (or_zero (sql_max (Chapter.order <$> chapters (db w))) + 1) None (db w)) = true →
  status (create_chapter E req w).1 = 201
  ∧ ∃ c, chapters (db (create_chapter E req w).2) = chapters (db w) ++ [c]
         ∧ Chapter.photo_path c = None.
Proof.
  intros Ht Hf Hok. rewrite (create_chapter_unfold E req w Ht).
  rewrite (save_photo_absent E _ w Hf). cbv zeta. cbn [fst snd PyStr.truthy].
  rewrite Hok. cbn [fst snd db log with_db]. split; [done|]. eauto.
Qed.

(** C6.  The claim requires a photo for [POST /chapters]; the code does
    not: on the empty store, the request with the title "Intro" and no
    photo is answered 201 and a chapter without photo is stored. *)
Theorem create_chapter_without_photo :
  let req := Sample.form_request {[ "title" := "Intro" ]} None in
  let r := create_chapter Sample.E req Sample.w_empty in
  files req !! "photo" = None
  ∧ r.1 = (ChapterJson {| cd_id := 1; cd_title := Some "Intro";
                          cd_photo_url := None; cd_order := Some 1 |}, 201)
  ∧ chapters (db r.2) = [Chapter.mk 1 None (Some "Intro") (Some 1)].
Proof. vm_compute. done. Qed.

(** ** A create under a chapter that does not exist *)




(** ** Replacing a photo *)

Lemma delete_photo_db (photo : option string) (w : world) :
  db (delete_photo photo w).2 = db w.
Proof.
  unfold delete_photo. destruct (PyStr.truthy photo); [|done]. simpl.
  unfold bind, os_path_exists, os_remove, ret. simpl.
  by destruct (bool_decide _).
Qed.

Lemma delete_photo_gone (photo : string) (w : world) :
  photo ≠ "" →
  disk (delete_photo (Some photo) w).2 !! os_path_join UPLOAD_FOLDER photo = None.
Proof.
  intros Hne. unfold delete_photo. simpl.
  destruct (String.eqb photo "") eqn:He; [by apply String.eqb_eq in He|]. simpl.
  unfold bind, os_path_exists, os_remove, ret. simpl.
  destruct (disk w !! os_path_join UPLOAD_FOLDER photo) as [x|] eqn:Hl; simpl.
  - apply lookup_delete_eq.
  - done.
Qed.

Lemma save_photo_error_keeps_absent (E : env) (file : option FileStorage) (w : world)
    (p : string) :
  PyStr.truthy (save_photo E file w).1.2 = true →
  disk w !! p = None →
  disk (save_photo E file w).2 !! p = None.
Proof.
  destruct (file_truthy file) eqn:Ht.
  - destruct file as [f|]; [|done].
    destruct (allowed_file (filename f)) eqn:Ha.
    + destruct (save_photo_allowed E f w Ht Ha) as [| msg w' _ _ _ Hdisk]; [done|].
      intros _ Hp. rewrite Hdisk.
      destruct (decide (os_path_join UPLOAD_FOLDER (stored_name E (uuid_calls w) f) = p))
        as [->|Hne].
      * apply lookup_delete_eq.
      * by rewrite lookup_delete_ne.
    + by rewrite save_photo_bad_type.
  - by rewrite save_photo_absent.
Qed.

Lemma update_chapter_unfold (E : env) (req : request) (w : world) key chapter chapter' :
  PyStr.truthy (form req !! "id") = true →
  db_int E (default "" (form req !! "id")) = Some key →
  List.find (λ c, Chapter.id c =? key) (chapters (db w)) = Some chapter →
  match form req !! "order" with
  | Some v =>
      (λ n, Chapter.set_order n
              (match form req !! "title" with
               | Some t => Chapter.set_title t chapter
               | None => chapter
               end)) <$> py_int E v
  | None => Some (match form req !! "title" with
                  | Some t => Chapter.set_title t chapter
                  | None => chapter
                  end)
  end = Some chapter' →
  update_chapter E req w =
  let w0 := log (SqlSelect "chapters") w in
  if file_truthy (files req !! "photo") then
    let s := save_photo E (files req !! "photo")
               (delete_photo (Chapter.photo_path chapter') w0).2 in
    if PyStr.truthy s.1.2 then ((Error (default "" s.1.2), 400), s.2)
    else
      let c := Chapter.set_photo_path s.1.1 chapter' in
      if store_accepts (db w) (flush_chapter c (db w)) then
        ((ChapterJson (Chapter_to_dict (BASE_IMAGE_URL E) c), 200),
         log SqlCommit (with_db (flush_chapter c (db w)) s.2))
      else ((Unhandled, 500), s.2)
  else
    if store_accepts (db w) (flush_chapter chapter' (db w)) then
      ((ChapterJson (Chapter_to_dict (BASE_IMAGE_URL E) chapter'), 200),
       log SqlCommit (with_db (flush_chapter chapter' (db w)) w0))
    else ((Unhandled, 500), w0).
Proof.
  intros Hid Hkey Hfind Hset. unfold update_chapter.
  rewrite Hid, Hkey. simpl.
  unfold bind at 1. unfold query_chapter_first at 1. rewrite Hfind, Hset.
  destruct (file_truthy (files req !! "photo")).
  2:{ unfold bind, db_commit, ret. cbn [fst snd db log with_db]. cbv zeta.
      by destruct (store_accepts _ _). }
  unfold bind at 1.
  pose proof (delete_photo_db (Chapter.photo_path chapter') (log (SqlSelect "chapters") w))
    as Hdb1.
  destruct (delete_photo (Chapter.photo_path chapter') (log (SqlSelect "chapters") w))
    as [[] w1]. cbn [fst snd db log] in *.
  unfold bind at 1.
  pose proof (save_photo_db E (files req !! "photo") w1) as Hdb2.
  destruct (save_photo E (files req !! "photo") w1) as [[name err] w2]. cbn [fst snd] in *.
  destruct (PyStr.truthy err); [done|].
  unfold bind, db_commit, ret. cbn [fst snd]. cbv zeta. rewrite Hdb2, Hdb1.
  by destruct (store_accepts _ _).
Qed.

(** A refused update commits nothing. *)
Lemma update_chapter_refused_keeps_store (E : env) (req : request) (w : world) :
  status (update_chapter E req w).1 ≠ 200 →
  db (update_chapter E req w).2 = db w.
Proof.
  unfold status.
  destruct (PyStr.truthy (form req !! "id")) eqn:Hid.
  2:{ unfold update_chapter. by rewrite Hid. }
  destruct (db_int E (default "" (form req !! "id"))) as [key|] eqn:Hkey.
  2:{ unfold update_chapter. by rewrite Hid, Hkey. }
  destruct (List.find (λ c, Chapter.id c =? key) (chapters (db w))) as [chapter|] eqn:Hf.
  2:{ unfold update_chapter. rewrite Hid, Hkey. simpl.
      unfold bind, query_chapter_first. by rewrite Hf. }
  destruct (match form req !! "order" with
            | Some v =>
                (λ n, Chapter.set_order n
                        (match form req !! "title" with
                         | Some t => Chapter.set_title t chapter
                         | None => chapter
                         end)) <$> py_int E v
            | None => Some (match form req !! "title" with
                            | Some t => Chapter.set_title t chapter
                            | None => chapter
                            end)
            end) as [chapter'|] eqn:Hset.
  2:{ unfold update_chapter. rewrite Hid, Hkey. simpl.
      unfold bind, query_chapter_first. by rewrite Hf, Hset. }
  rewrite (update_chapter_unfold E req w key chapter chapter' Hid Hkey Hf Hset).
  cbv zeta. destruct (file_truthy (files req !! "photo")).
  2:{ by destruct (store_accepts _ _). }
  match goal with
  | |- context [PyStr.truthy (save_photo ?a ?b ?c).1.2] =>
      destruct (PyStr.truthy (save_photo a b c).1.2)
  end.
  - intros _. cbn [fst snd]. by rewrite save_photo_db, delete_photo_db.
  - destruct (store_accepts _ _); [done|].
    intros _. cbn [fst snd]. by rewrite save_photo_db, delete_photo_db.
Qed.

(** The file of the previous photo is removed before the new one is
    validated: after a refused update the row still names it. *)
Lemma update_chapter_refused_drops_old_photo (E : env) (req : request) (w : world)
    key chapter old :
  PyStr.truthy (form req !! "id") = true →
  db_int E (default "" (form req !! "id")) = Some key →
  List.find (λ c, Chapter.id c =? key) (chapters (db w)) = Some chapter →
  form req !! "order" = None →
  Chapter.photo_path chapter = Some old → old ≠ "" →
  file_truthy (files req !! "photo") = true →
  status (update_chapter E req w).1 = 400 →
  disk (update_chapter E req w).2 !! os_path_join UPLOAD_FOLDER old = None
  ∧ List.find (λ c, Chapter.id c =? key) (chapters (db (update_chapter E req w).2))
    = Some chapter.
Proof.
  intros Hid Hkey Hf Hord Hold Hne Hfile.
  assert (db (update_chapter E req w).2 = db w → status (update_chapter E req w).1 = 400 →
          List.find (λ c, Chapter.id c =? key) (chapters (db (update_chapter E req w).2))
          = Some chapter) as Hkeep by (by intros -> _).
  intros H400. split; [|apply Hkeep; [|done]].
  2:{ apply update_chapter_refused_keeps_store. rewrite H400. done. }
  clear Hkeep. revert H400. unfold status.
  erewrite (update_chapter_unfold E req w key chapter _ Hid Hkey Hf);
    [|by rewrite Hord].
  cbv zeta. rewrite Hfile.
  destruct (PyStr.truthy (save_photo _ _ _).1.2) eqn:Herr.
  2:{ by destruct (store_accepts _ _). }
  intros _. cbn [fst snd].
  apply save_photo_error_keeps_absent; [done|].
  replace (Chapter.photo_path _) with (Some old)
    by (by destruct (form req !! "title"); rewrite <- Hold).
  by apply delete_photo_gone.
Qed.

(** C2.  The claim says that a refused update leaves the previous photo
    untouched; the code removes its file first.  Updating chapter 1,
    whose photo is [old.png], with a square image is answered 400 and
    commits nothing, the row still names [old.png], but the file
    [uploads/old.png] is gone. *)
Theorem update_chapter_bad_photo_removes_old_file :
  let req := Sample.form_request {[ "id" := "1"; "title" := "New" ]}
               (Some Sample.square) in
  let r := update_chapter Sample.E req Sample.w in
  status r.1 = 400
  ∧ db r.2 = db Sample.w
  ∧ Chapter.photo_path <$> chapters (db r.2) = [Some "old.png"; None]
  ∧ disk Sample.w !! "uploads/old.png" = Some (ImageFile 1600 900)
  ∧ disk r.2 !! "uploads/old.png" = None.
Proof. vm_compute. done. Qed.

(** ** The result of [save_photo] *)

(** C9.  [save_photo] never returns both a file name and an error.  For a
    file with a non-empty name it returns exactly one of them; without
    such a file it returns neither and does nothing.  When it returns an
    error for a file of an allowed type, no file is left at the path it
    generated; for a file of another type it has touched nothing. *)
Theorem save_photo_name_xor_error (E : env) (file : option FileStorage) (w : world) :
  let r := save_photo E file w in
  (r.1.1 = None ∨ r.1.2 = None)
  ∧ (file_truthy file = true →
     (is_Some r.1.1 ∧ r.1.2 = None) ∨ (r.1.1 = None ∧ is_Some r.1.2))
  ∧ (file_truthy file = false → r.1 = (None, None) ∧ r.2 = w)
  ∧ (∀ f, file = Some f → is_Some r.1.2 →
       (allowed_file (filename f) = true →
        disk r.2 !! os_path_join UPLOAD_FOLDER (stored_name E (uuid_calls w) f) = None)
       ∧ (allowed_file (filename f) = false → r.2 = w)).
Proof.
  intros r. subst r.
  destruct (file_truthy file) eqn:Ht.
  - destruct file as [f|]; [|done].
    destruct (allowed_file (filename f)) eqn:Ha.
    + destruct (save_photo_allowed E f w Ht Ha) as [? ? w' | msg w' _ _ _ Hdisk]; simpl.
      * split; [by right|]. split; [by left; eauto|]. split; [done|].
        by intros f' _ [? ?].
      * split; [by left|]. split; [by right; eauto|]. split; [done|].
        intros f' [= <-] _. split; [|congruence].
        intros _. rewrite Hdisk. apply lookup_delete_eq.
    + rewrite (save_photo_bad_type E f w Ht Ha). simpl.
      split; [by left|]. split; [by right; eauto|]. split; [done|].
      intros f' [= <-] _. split; [congruence|done].
  - rewrite (save_photo_absent E file w Ht). simpl.
    split; [by left|]. split; [done|]. split; [done|].
    by intros f _ [? ?].
Qed.

Lemma save_photo_name_xor_error_witness :
  let r := save_photo Sample.E (Some Sample.square) Sample.w in
  r.1.1 = None ∧ is_Some r.1.2 ∧ disk r.2 !! "uploads/uuid-0.png" = None.
Proof.
  intros r.
  destruct (save_photo_name_xor_error Sample.E (Some Sample.square) Sample.w)
    as (_ & Hxor & _ & Hgone).
  destruct (Hxor eq_refl) as [[Hname Herr]|[Hname Herr]].
  - by vm_compute in Hname; destruct Hname.
  - split; [exact Hname|]. split; [exact Herr|].
    destruct (Hgone Sample.square eq_refl Herr) as (Hallowed & _).
    exact (Hallowed eq_refl).
Defined.

(** ** Binary64 division of two image dimensions *)

Lemma digits2_pos_bounds (p : positive) :
  2 ^ (Zpos (digits2_pos p) - 1) ≤ Zpos p < 2 ^ Zpos (digits2_pos p).
Proof.
  induction p as [p IH|p IH|]; simpl digits2_pos.
  - rewrite Pos2Z.inj_succ.
    replace (Z.succ (Zpos (digits2_pos p)) - 1) with (Z.succ (Zpos (digits2_pos p) - 1)) by lia.
    rewrite !Z.pow_succ_r by lia. lia.
  - rewrite Pos2Z.inj_succ.
    replace (Z.succ (Zpos (digits2_pos p)) - 1) with (Z.succ (Zpos (digits2_pos p) - 1)) by lia.
    rewrite !Z.pow_succ_r by lia. lia.
  - simpl. lia.
Qed.

Lemma digits2_pos_unique (p : positive) (n : Z) :
  2 ^ (n - 1) ≤ Zpos p < 2 ^ n → Zpos (digits2_pos p) = n.
Proof.
  intros [Hlo Hhi]. pose proof (digits2_pos_bounds p) as [Hlo' Hhi'].
  assert (0 < n) as Hn.
  { destruct (Z.lt_ge_cases 0 n) as [|Hle]; [done|].
    destruct (Z.eq_dec n 0) as [->|Hn0]; [change (2 ^ 0) with 1 in Hhi; lia|].
    rewrite Z.pow_neg_r in Hhi by lia. lia. }
  destruct (Z.lt_trichotomy (Zpos (digits2_pos p)) n) as [Hlt|[Heq|Hgt]]; [|done|].
  - assert (2 ^ Zpos (digits2_pos p) ≤ 2 ^ (n - 1)) by (apply Z.pow_le_mono_r; lia). lia.
  - assert (2 ^ n ≤ 2 ^ (Zpos (digits2_pos p) - 1)) by (apply Z.pow_le_mono_r; lia). lia.
Qed.

Lemma iter_xO_mul (p k : positive) :
  Zpos (Pos.iter xO p k) = Zpos p * 2 ^ Zpos k.
Proof.
  induction k as [|k IH] using Pos.peano_ind.
  - simpl. lia.
  - rewrite Pos.iter_succ, Pos2Z.inj_xO, IH, Pos2Z.inj_succ, Z.pow_succ_r by lia. lia.
Qed.

Lemma binary_round_aux_canonical (m : positive) (e : Z) :
  Zpos (digits2_pos m) = 53 → -1074 ≤ e ≤ 971 →
  binary_round_aux 53 1024 false (Zpos m) e loc_Exact = S754_finite false m e.
Proof.
  intros Hd He. unfold binary_round_aux, shr_fexp. simpl Zdigits2. rewrite Hd.
  unfold fexp, emin.
  replace (Z.max (53 + e - 53) (3 - 1024 - 53) - e) with 0 by lia.
  simpl. rewrite Hd.
  replace (Z.max (53 + e - 53) (3 - 1024 - 53) - e) with 0 by lia.
  simpl. destruct (Z.leb_spec e (1024 - 53)); [done|lia].
Qed.

(** The binary64 value of a positive integer below 2^52. *)
Lemma of_int_pos (p : positive) :
  Zpos p < 2 ^ 52 →
  ∃ m, F64.of_int (Zpos p) = S754_finite false m (Zpos (digits2_pos p) - 53)
       ∧ Zpos m = Zpos p * 2 ^ (53 - Zpos (digits2_pos p))
       ∧ Zpos (digits2_pos m) = 53.
Proof.
  intros Hp. pose proof (digits2_pos_bounds p) as [Hlo Hhi].
  assert (Zpos (digits2_pos p) ≤ 52) as Hd.
  { destruct (Z.le_gt_cases (Zpos (digits2_pos p)) 52) as [|Hgt]; [done|].
    assert (2 ^ 52 ≤ 2 ^ (Zpos (digits2_pos p) - 1)) by (apply Z.pow_le_mono_r; lia). lia. }
  unfold F64.of_int, binary_normalize, binary_round, shl_align, F64.prec, F64.emax.
  unfold fexp at 1, emin.
  replace (Z.max (Zpos (digits2_pos p) + 0 - 53) (3 - 1024 - 53) - 0)
    with (Zpos (digits2_pos p) - 53) by lia.
  destruct (Zpos (digits2_pos p) - 53) as [|k|k] eqn:Hk; try lia.
  exists (Pos.iter xO p k).
  assert (Zpos (Pos.iter xO p k) = Zpos p * 2 ^ (53 - Zpos (digits2_pos p))) as Hm.
  { rewrite iter_xO_mul. f_equal. f_equal. lia. }
  assert (Zpos (digits2_pos (Pos.iter xO p k)) = 53) as Hd53.
  { apply digits2_pos_unique. rewrite Hm.
    replace (2 ^ (53 - 1)) with (2 ^ (Zpos (digits2_pos p) - 1) * 2 ^ (53 - Zpos (digits2_pos p))).
    2:{ rewrite <- Z.pow_add_r by lia. f_equal. lia. }
    replace (2 ^ 53) with (2 ^ Zpos (digits2_pos p) * 2 ^ (53 - Zpos (digits2_pos p))).
    2:{ rewrite <- Z.pow_add_r by lia. f_equal. lia. }
    assert (0 < 2 ^ (53 - Zpos (digits2_pos p))) by (apply Z.pow_pos_nonneg; lia).
    split; [apply Z.mul_le_mono_nonneg_r; lia | apply Z.mul_lt_mono_pos_r; lia]. }
  split; [|done].
  replace (fexp 53 1024 (Zpos (digits2_pos p) + 0)) with (Zpos (digits2_pos p) - 53)
    by (unfold fexp, emin; lia).
  rewrite Hk. apply binary_round_aux_canonical; [done|lia].
Qed.

Ltac pow_consts :=
  change (2 ^ 52) with 4503599627370496 in *;
  change (2 ^ 53) with 9007199254740992 in *;
  change (2 ^ 54) with 18014398509481984 in *.

Lemma shr_1_pos (q : Z) (r s : bool) :
  0 < q →
  shr_1 {| shr_m := q; shr_r := r; shr_s := s |}
  = {| shr_m := q / 2; shr_r := Z.odd q; shr_s := r || s |}.
Proof.
  intros Hq. destruct q as [|p|p]; try lia.
  destruct p as [p|p|]; simpl.
  - f_equal. rewrite Pos2Z.inj_xI. apply (Z.div_unique _ _ _ 1); lia.
  - f_equal. rewrite Pos2Z.inj_xO. apply (Z.div_unique _ _ _ 0); lia.
  - done.
Qed.

Lemma Zdigits2_range (q n : Z) :
  2 ^ (n - 1) ≤ q < 2 ^ n → 0 < q → Zdigits2 q = n.
Proof.
  intros Hr Hq. destruct q as [|p|p]; try lia. simpl. by apply digits2_pos_unique.
Qed.

Lemma shr_fexp_finish (q e : Z) :
  2 ^ 52 ≤ q ≤ 2 ^ 53 → -1074 ≤ e ≤ 960 →
  (let '(mrs, e') := shr_fexp 53 1024 q e loc_Exact in
   match shr_m mrs with
   | Z0 => S754_zero false
   | Zpos m => if e' <=? 1024 - 53 then S754_finite false m e' else S754_infinity false
   | Zneg _ => S754_nan
   end) = finish q e.
Proof.
  intros Hq He. unfold finish.
  destruct (Z.ltb_spec q (2 ^ 53)) as [Hlt|Hge].
  - unfold shr_fexp. rewrite (Zdigits2_range q 53) by lia.
    unfold fexp, emin. replace (Z.max (53 + e - 53) (3 - 1024 - 53) - e) with 0 by lia.
    simpl. destruct q as [|p|p]; try lia. simpl.
    destruct (Z.leb_spec e (1024 - 53)); [done|lia].
  - assert (q = 2 ^ 53) as -> by lia.
    unfold shr_fexp. replace (Zdigits2 (2 ^ 53)) with 54 by done.
    unfold fexp, emin. replace (Z.max (54 + e - 53) (3 - 1024 - 53) - e) with 1 by lia.
    simpl. destruct (Z.leb_spec (e + 1) (1024 - 53)); [done|lia].
Qed.

Lemma loc_of_record_of_loc (q : Z) (l : location) :
  loc_of_shr_record (shr_record_of_loc q l) = l
  ∧ shr_m (shr_record_of_loc q l) = q.
Proof. by destruct l as [|[]]. Qed.

(** Rounding a quotient of 53 digits. *)
Lemma binary_round_aux_53 (q e : Z) (l : location) :
  2 ^ 52 ≤ q < 2 ^ 53 → -1074 ≤ e ≤ 900 →
  binary_round_aux 53 1024 false q e l = finish (round_nearest_even q l) e.
Proof.
  intros Hq He. unfold binary_round_aux.
  unfold shr_fexp at 1. rewrite (Zdigits2_range q 53) by lia.
  unfold fexp at 1, emin. replace (Z.max (53 + e - 53) (3 - 1024 - 53) - e) with 0 by lia.
  unfold shr at 1.
  destruct (loc_of_record_of_loc q l) as [-> ->].
  apply shr_fexp_finish; [|lia].
  destruct l as [|[]]; simpl; try lia. destruct (Z.even q); lia.
Qed.

(** Rounding a quotient of 54 digits: its last bit becomes the round
    bit. *)
Lemma binary_round_aux_54 (q e : Z) (l : location) :
  2 ^ 53 ≤ q < 2 ^ 54 → -1074 ≤ e ≤ 900 →
  binary_round_aux 53 1024 false q e l
  = finish (round_nearest_even (q / 2) (halved_loc q l)) (e + 1).
Proof.
  intros Hq He. unfold binary_round_aux.
  unfold shr_fexp at 1. rewrite (Zdigits2_range q 54) by lia.
  unfold fexp at 1, emin. replace (Z.max (54 + e - 53) (3 - 1024 - 53) - e) with 1 by lia.
  unfold shr at 1. cbn [SpecFloat.iter_pos].
  assert (shr_1 (shr_record_of_loc q l)
          = {| shr_m := q / 2; shr_r := Z.odd q;
               shr_s := match l with loc_Exact => false | _ => true end |}) as ->.
  { destruct l as [|[]]; unfold shr_record_of_loc; by rewrite shr_1_pos by lia. }
  fold (halved_loc q l). cbn [shr_m].
  assert (2 ^ 52 ≤ q / 2 < 2 ^ 53) as Hh.
  { pow_consts.
    split; [apply Z.div_le_lower_bound | apply Z.div_lt_upper_bound]; lia. }
  apply shr_fexp_finish; [|lia].
  destruct (halved_loc q l) as [|[]]; simpl; try lia. destruct (Z.even (q / 2)); lia.
Qed.

Lemma even_cases (n : Z) :
  (Z.even n = true ∧ ∃ c, n = 2 * c) ∨ (Z.even n = false ∧ ∃ c, n = 2 * c + 1).
Proof.
  destruct (Z.even n) eqn:He.
  - left. split; [done|]. by apply Z.even_spec.
  - right. split; [done|]. apply Z.odd_spec. by rewrite <- Z.negb_even, He.
Qed.

Lemma div2_of_parts (q c b : Z) : q = 2 * c + b → 0 ≤ b < 2 → q / 2 = c.
Proof. intros -> Hb. symmetry. apply (Z.div_unique _ _ _ b); lia. Qed.

(** Thresholds of round-to-nearest-even at an even mantissa, for a
    quotient that is not shifted. *)
Lemma round_unshifted_ge (m2 q r T : Z) :
  0 < m2 → 0 ≤ r < m2 → Z.even T = true →
  T ≤ round_nearest_even q (quotient_loc m2 r) ↔ (2 * T - 1) * m2 ≤ 2 * (m2 * q + r).
Proof.
  intros Hm Hr HT. apply Z.even_spec in HT as [t ->].
  unfold quotient_loc, round_nearest_even.
  destruct (Z.eqb_spec r 0) as [->|Hr0].
  - split; nia.
  - destruct (Z.compare_spec (2 * r) m2) as [Heq|Hlt|Hgt].
    + destruct (even_cases q) as [[-> [c ->]]|[-> [c ->]]]; split; nia.
    + split; nia.
    + split; nia.
Qed.

Lemma round_unshifted_le (m2 q r U : Z) :
  0 < m2 → 0 ≤ r < m2 → Z.even U = true →
  round_nearest_even q (quotient_loc m2 r) ≤ U ↔ 2 * (m2 * q + r) ≤ (2 * U + 1) * m2.
Proof.
  intros Hm Hr HU. apply Z.even_spec in HU as [u ->].
  unfold quotient_loc, round_nearest_even.
  destruct (Z.eqb_spec r 0) as [->|Hr0].
  - split; nia.
  - destruct (Z.compare_spec (2 * r) m2) as [Heq|Hlt|Hgt].
    + destruct (even_cases q) as [[-> [c ->]]|[-> [c ->]]]; split; nia.
    + split; nia.
    + split; nia.
Qed.

(** The same thresholds for a quotient that loses its last bit. *)
Lemma round_shifted_ge (m2 q r T : Z) :
  0 < m2 → 0 ≤ r < m2 → 0 < q → Z.even T = true →
  T ≤ round_nearest_even (q / 2) (halved_loc q (quotient_loc m2 r))
  ↔ (2 * T - 1) * m2 ≤ m2 * q + r.
Proof.
  intros Hm Hr Hq HT. apply Z.even_spec in HT as [t ->].
  unfold halved_loc, quotient_loc.
  destruct (even_cases q) as [[He [c Hc]]|[He [c Hc]]].
  - rewrite (div2_of_parts q c 0) by lia.
    rewrite <- Z.negb_even, He. simpl.
    destruct (Z.eqb_spec r 0) as [->|Hr0]; simpl; subst q; split; nia.
  - rewrite (div2_of_parts q c 1) by lia.
    rewrite <- Z.negb_even, He. simpl.
    destruct (Z.eqb_spec r 0) as [->|Hr0]; simpl; subst q.
    + destruct (even_cases c) as [[-> [d ->]]|[-> [d ->]]]; split; nia.
    + split; nia.
Qed.

Lemma round_shifted_le (m2 q r U : Z) :
  0 < m2 → 0 ≤ r < m2 → 0 < q → Z.even U = true →
  round_nearest_even (q / 2) (halved_loc q (quotient_loc m2 r)) ≤ U
  ↔ m2 * q + r ≤ (2 * U + 1) * m2.
Proof.
  intros Hm Hr Hq HU. apply Z.even_spec in HU as [u ->].
  unfold halved_loc, quotient_loc.
  destruct (even_cases q) as [[He [c Hc]]|[He [c Hc]]].
  - rewrite (div2_of_parts q c 0) by lia.
    rewrite <- Z.negb_even, He. simpl.
    destruct (Z.eqb_spec r 0) as [->|Hr0]; simpl; subst q; split; nia.
  - rewrite (div2_of_parts q c 1) by lia.
    rewrite <- Z.negb_even, He. simpl.
    destruct (Z.eqb_spec r 0) as [->|Hr0]; simpl; subst q.
    + destruct (even_cases c) as [[-> [d ->]]|[-> [d ->]]]; split; nia.
    + split; nia.
Qed.

Lemma div_canonical (m1 m2 : positive) (e1 e2 : Z) :
  Zpos (digits2_pos m1) = 53 → Zpos (digits2_pos m2) = 53 →
  -52 ≤ e1 - e2 ≤ 52 → Z.even (Zpos m2) = true →
  F64.div (S754_finite false m1 e1) (S754_finite false m2 e2)
  = binary_round_aux 53 1024 false (Zpos m1 * 2 ^ 53 / Zpos m2) (e1 - e2 - 53)
      (quotient_loc (Zpos m2) ((Zpos m1 * 2 ^ 53) mod Zpos m2)).
Proof.
  intros Hd1 Hd2 He Hev.
  unfold F64.div, F64.prec, F64.emax, SFdiv, SFdiv_core_binary. simpl Zdigits2.
  rewrite Hd1, Hd2.
  replace (Z.min (fexp 53 1024 (53 + e1 - (53 + e2))) (e1 - e2)) with (e1 - e2 - 53)
    by (unfold fexp, emin; lia).
  replace (e1 - e2 - (e1 - e2 - 53)) with 53 by lia.
  rewrite Z.shiftl_mul_pow2 by lia.
  unfold Z.div, Z.modulo.
  destruct (Z.div_eucl (Zpos m1 * 2 ^ 53) (Zpos m2)) as [q r].
  unfold new_location. rewrite Hev. done.
Qed.

Lemma bounds_values :
  lower_bound = S754_finite false (Z.to_pos Lm) (-52)
  ∧ upper_bound = S754_finite false (Z.to_pos Um) (-52).
Proof. by vm_compute. Qed.

Lemma leb_finite (m1 m2 : positive) (e1 e2 : Z) :
  F64.leb (S754_finite false m1 e1) (S754_finite false m2 e2)
  = if e1 <? e2 then true else if e2 <? e1 then false else (Zpos m1 <=? Zpos m2).
Proof.
  unfold F64.leb, SFleb, SFcompare.
  destruct (Z.compare_spec e1 e2) as [->|Hlt|Hgt].
  - rewrite Z.ltb_irrefl. unfold Z.leb, Z.compare, Pos.compare.
    by destruct (Pos.compare_cont Eq m1 m2).
  - by destruct (Z.ltb_spec e1 e2); [|lia].
  - destruct (Z.ltb_spec e1 e2); [lia|]. by destruct (Z.ltb_spec e2 e1); [|lia].
Qed.

Lemma in_bounds_finish (q e : Z) :
  2 ^ 52 ≤ q ≤ 2 ^ 53 →
  ratio_in_bounds (finish q e) = (e =? -52) && (Lm <=? q) && (q <=? Um).
Proof.
  intros Hq. unfold ratio_in_bounds. destruct bounds_values as [-> ->].
  unfold finish. pow_consts. unfold Lm, Um.
  destruct (Z.ltb_spec q 9007199254740992) as [Hlt|Hge]; rewrite !leb_finite.
  - rewrite !Z2Pos.id by lia.
    destruct (Z.ltb_spec (-52) e); destruct (Z.ltb_spec e (-52));
      destruct (Z.eqb_spec e (-52)); try lia; simpl; try done.
  - assert (q = 9007199254740992) as -> by lia.
    destruct (Z.ltb_spec (-52) (e + 1)); destruct (Z.ltb_spec (e + 1) (-52));
      destruct (Z.eqb_spec e (-52)); try lia; simpl; try done.
Qed.

Lemma lower_exact (w h : Z) :
  0 < h < 2 ^ 32 → 0 ≤ w →
  (2 * Lm - 1) * h ≤ w * 2 ^ 53 ↔ 76 * h ≤ 45 * w.
Proof.
  unfold Lm. change (2 ^ 32) with 4294967296. change (2 ^ 53) with 9007199254740992. lia.
Qed.

Lemma upper_exact (w h : Z) :
  0 < h < 2 ^ 32 → 0 ≤ w →
  w * 2 ^ 53 ≤ (2 * Um + 1) * h ↔ 15 * w ≤ 28 * h.
Proof.
  unfold Um. change (2 ^ 32) with 4294967296. change (2 ^ 53) with 9007199254740992. lia.
Qed.

(** The mantissa and exponent of a dimension below 2^32. *)
Lemma of_int_dimension (n : Z) :
  0 < n < 2 ^ 32 →
  ∃ m a, F64.of_int n = S754_finite false m (-a)
         ∧ Zpos m = n * 2 ^ a ∧ 21 ≤ a ≤ 52
         ∧ Zpos (digits2_pos m) = 53 ∧ Z.even (Zpos m) = true
         ∧ 2 ^ 52 ≤ Zpos m < 2 ^ 53.
Proof.
  intros Hn. destruct n as [|p|p]; try lia.
  destruct (of_int_pos p) as (m & Hm & Hv & Hd).
  { change (2 ^ 32) with 4294967296 in Hn. change (2 ^ 52) with 4503599627370496. lia. }
  pose proof (digits2_pos_bounds p) as [Hlo Hhi].
  assert (Zpos (digits2_pos p) ≤ 32) as Hd32.
  { destruct (Z.le_gt_cases (Zpos (digits2_pos p)) 32) as [|Hgt]; [done|].
    assert (2 ^ 32 ≤ 2 ^ (Zpos (digits2_pos p) - 1)) by (apply Z.pow_le_mono_r; lia). lia. }
  exists m, (53 - Zpos (digits2_pos p)).
  split; [rewrite Hm; f_equal; lia|]. split; [done|]. split; [lia|]. split; [done|].
  split.
  - rewrite Hv. replace (53 - Zpos (digits2_pos p)) with (Z.succ (52 - Zpos (digits2_pos p))) by lia.
    rewrite Z.pow_succ_r by lia.
    replace (Zpos p * (2 * 2 ^ (52 - Zpos (digits2_pos p))))
      with (2 * (Zpos p * 2 ^ (52 - Zpos (digits2_pos p)))) by lia.
    apply Z.even_spec. by eexists.
  - pose proof (digits2_pos_bounds m) as Hb. by rewrite Hd in Hb.
Qed.

Lemma pow2_split (a b : Z) :
  0 ≤ a → 0 ≤ b →
  (b = a ∧ 2 ^ b = 2 ^ a)
  ∨ (b = a + 1 ∧ 2 ^ b = 2 * 2 ^ a)
  ∨ (a + 2 ≤ b ∧ ∃ c, 4 ≤ c ∧ 2 ^ b = c * 2 ^ a)
  ∨ (b + 1 ≤ a ∧ ∃ c, 2 ≤ c ∧ 2 ^ a = c * 2 ^ b).
Proof.
  intros Ha Hb.
  destruct (Z.lt_trichotomy b a) as [Hlt|[->|Hgt]].
  - right. right. right. split; [lia|]. exists (2 ^ (a - b)). split.
    + change 2 with (2 ^ 1) at 1. apply Z.pow_le_mono_r; lia.
    + rewrite <- Z.pow_add_r by lia. f_equal. lia.
  - by left.
  - destruct (Z.eq_dec b (a + 1)) as [->|Hne].
    + right. left. split; [done|]. rewrite Z.pow_add_r by lia. lia.
    + right. right. left. split; [lia|]. exists (2 ^ (b - a)). split.
      * change 4 with (2 ^ 2). apply Z.pow_le_mono_r; lia.
      * rewrite <- Z.pow_add_r by lia. f_equal. lia.
Qed.


(** The arithmetic of the two ways a quotient of two dimensions is
    rounded, by the difference [b - a] of the operands' exponents. *)
Lemma ratio_cases_unshifted (w h a b : Z) :
  0 < w → 0 < h → 21 ≤ a ≤ 52 → 21 ≤ b ≤ 52 →
  2 ^ 52 ≤ w * 2 ^ a < 2 ^ 53 → 2 ^ 52 ≤ h * 2 ^ b < 2 ^ 53 →
  w * 2 ^ a < h * 2 ^ b →
  ((2 * Lm - 1) * h ≤ w * 2 ^ 53 ↔ 76 * h ≤ 45 * w) →
  (w * 2 ^ 53 ≤ (2 * Um + 1) * h ↔ 15 * w ≤ 28 * h) →
  (- a - - b - 53 = -52
   ∧ (2 * Lm - 1) * (h * 2 ^ b) ≤ 2 * (w * 2 ^ a * 2 ^ 53))
  ∧ 2 * (w * 2 ^ a * 2 ^ 53) ≤ (2 * Um + 1) * (h * 2 ^ b)
  ↔ 76 * h ≤ 45 * w ∧ 15 * w ≤ 28 * h.
Proof.
  intros Hw Hh Ha Hb Hr1 Hr2 Hlt Hlo Hup.
  assert (0 < 2 ^ a) as HpA by (apply Z.pow_pos_nonneg; lia).
  assert (0 < 2 ^ b) as HpB by (apply Z.pow_pos_nonneg; lia).
  destruct (pow2_split a b) as [[Hk Hp]|[[Hk Hp]|[[Hk (c & Hc & Hp)]|[Hk (c & Hc & Hp)]]]];
    try lia; rewrite Hp in *; clear Hp.
  - generalize dependent (2 ^ a); intros A; intros.
    assert (w < h) by (by apply (Z.mul_lt_mono_pos_r A)). split; [lia|lia].
  - generalize dependent (2 ^ a); intros A; intros.
    replace ((2 * Lm - 1) * (h * (2 * A))) with ((2 * Lm - 1) * h * (2 * A)) by ring.
    replace (2 * (w * A * 2 ^ 53)) with (w * 2 ^ 53 * (2 * A)) by ring.
    replace ((2 * Um + 1) * (h * (2 * A))) with ((2 * Um + 1) * h * (2 * A)) by ring.
    rewrite <- !Z.mul_le_mono_pos_r by lia. rewrite Hlo, Hup. split; [tauto|].
    intros [? ?]. split; [split; [lia|done]|done].
  - generalize dependent (2 ^ a); intros A; intros.
    assert (2 * h < w).
    { apply (Z.mul_lt_mono_pos_r A); [done|].
      assert (4 * (h * A) ≤ h * (c * A)) by nia. pow_consts. clear Hlo Hup Hlt. lia. }
    split; lia.
  - generalize dependent (2 ^ b); intros B; intros.
    assert (w < h).
    { apply (Z.mul_lt_mono_pos_r B); [done|].
      assert (2 * (w * B) ≤ w * (c * B)) by (clear Hlo Hup Hr1 Hr2 Hlt; nia).
      clear Hlo Hup Hr1 Hr2. lia. }
    split; lia.
Qed.

Lemma ratio_cases_shifted (w h a b : Z) :
  0 < w → 0 < h → 21 ≤ a ≤ 52 → 21 ≤ b ≤ 52 →
  2 ^ 52 ≤ w * 2 ^ a < 2 ^ 53 → 2 ^ 52 ≤ h * 2 ^ b < 2 ^ 53 →
  h * 2 ^ b ≤ w * 2 ^ a →
  ((2 * Lm - 1) * h ≤ w * 2 ^ 53 ↔ 76 * h ≤ 45 * w) →
  (w * 2 ^ 53 ≤ (2 * Um + 1) * h ↔ 15 * w ≤ 28 * h) →
  (- a - - b - 53 + 1 = -52
   ∧ (2 * Lm - 1) * (h * 2 ^ b) ≤ w * 2 ^ a * 2 ^ 53)
  ∧ w * 2 ^ a * 2 ^ 53 ≤ (2 * Um + 1) * (h * 2 ^ b)
  ↔ 76 * h ≤ 45 * w ∧ 15 * w ≤ 28 * h.
Proof.
  intros Hw Hh Ha Hb Hr1 Hr2 Hge Hlo Hup.
  assert (0 < 2 ^ a) as HpA by (apply Z.pow_pos_nonneg; lia).
  assert (0 < 2 ^ b) as HpB by (apply Z.pow_pos_nonneg; lia).
  destruct (pow2_split a b) as [[Hk Hp]|[[Hk Hp]|[[Hk (c & Hc & Hp)]|[Hk (c & Hc & Hp)]]]];
    try lia; rewrite Hp in *; clear Hp.
  - generalize dependent (2 ^ a); intros A; intros.
    replace ((2 * Lm - 1) * (h * A)) with ((2 * Lm - 1) * h * A) by ring.
    replace (w * A * 2 ^ 53) with (w * 2 ^ 53 * A) by ring.
    replace ((2 * Um + 1) * (h * A)) with ((2 * Um + 1) * h * A) by ring.
    rewrite <- !Z.mul_le_mono_pos_r by lia. rewrite Hlo, Hup. split; [tauto|].
    intros [? ?]. split; [split; [lia|done]|done].
  - generalize dependent (2 ^ a); intros A; intros.
    assert (2 * h ≤ w).
    { apply (Z.mul_le_mono_pos_r _ _ A); [done|]. lia. }
    split; lia.
  - generalize dependent (2 ^ a); intros A; intros.
    assert (4 * h ≤ w).
    { apply (Z.mul_le_mono_pos_r _ _ A); [done|]. clear Hlo Hup Hr1 Hr2. nia. }
    split; lia.
  - generalize dependent (2 ^ b); intros B; intros.
    assert (w < h).
    { apply (Z.mul_lt_mono_pos_r B); [done|].
      assert (2 * (w * B) ≤ w * (c * B)) by (clear Hlo Hup Hr1 Hr2 Hge; nia).
      pow_consts. lia. }
    split; lia.
Qed.

(** The check of [save_photo] on the sizes an image can have decides the
    exact bounds 76/45 and 28/15. *)
Lemma ratio_in_bounds_exact (w h : Z) :
  0 ≤ w < 2 ^ 32 → 0 < h < 2 ^ 32 →
  ratio_in_bounds (F64.truediv w h) = true ↔ 76 * h ≤ 45 * w ∧ 15 * w ≤ 28 * h.
Proof.
  intros Hw Hh.
  destruct (Z.eq_dec w 0) as [->|Hw0].
  { destruct (of_int_dimension h Hh) as (m2 & b & Hm2 & _).
    unfold F64.truediv. rewrite Hm2.
    unfold ratio_in_bounds. destruct bounds_values as [-> _].
    split; [done|lia]. }
  assert (0 < w < 2 ^ 32) as Hw' by lia.
  destruct (of_int_dimension w Hw') as (m1 & a & Hm1 & HA & Ha & Hd1 & _ & Hr1).
  destruct (of_int_dimension h Hh) as (m2 & b & Hm2 & HB & Hb & Hd2 & Hev & Hr2).
  unfold F64.truediv. rewrite Hm1, Hm2.
  rewrite div_canonical by (done || lia).
  pose proof (Z.div_mod (Zpos m1 * 2 ^ 53) (Zpos m2) ltac:(lia)) as Hdm.
  pose proof (Z.mod_pos_bound (Zpos m1 * 2 ^ 53) (Zpos m2) ltac:(lia)) as Hrem.
  set (q := Zpos m1 * 2 ^ 53 / Zpos m2) in *.
  set (r := (Zpos m1 * 2 ^ 53) mod Zpos m2) in *.
  pose proof (lower_exact w h Hh ltac:(lia)) as Hlo.
  pose proof (upper_exact w h Hh ltac:(lia)) as Hup.
  assert (0 < 2 ^ a) as HpA by (apply Z.pow_pos_nonneg; lia).
  assert (0 < 2 ^ b) as HpB by (apply Z.pow_pos_nonneg; lia).
  assert (2 ^ 52 ≤ q < 2 ^ 54) as Hq.
  { pow_consts. split.
    - apply Z.div_le_lower_bound; nia.
    - apply Z.div_lt_upper_bound; nia. }
  assert (Z.even Lm = true) as HLe by done.
  assert (Z.even Um = true) as HUe by done.
  destruct (Z.lt_ge_cases q (2 ^ 53)) as [Hq53|Hq54].
  - rewrite binary_round_aux_53 by lia.
    rewrite in_bounds_finish.
    2:{ unfold quotient_loc, round_nearest_even.
        destruct (r =? 0); [lia|]. destruct (2 * r ?= Zpos m2); try lia.
        destruct (Z.even q); lia. }
    pose proof (round_unshifted_ge (Zpos m2) q r Lm ltac:(lia) Hrem HLe) as HT.
    pose proof (round_unshifted_le (Zpos m2) q r Um ltac:(lia) Hrem HUe) as HU.
    rewrite <- Hdm in HT, HU.
    rewrite !andb_true_iff, Z.eqb_eq, !Z.leb_le, HT, HU. clear HT HU.
    assert (Zpos m1 < Zpos m2) as Hlt.
    { apply (Z.mul_lt_mono_pos_r (2 ^ 53)); [done|]. rewrite Hdm.
      assert (Zpos m2 * (q + 1) ≤ Zpos m2 * 2 ^ 53)
        by (apply Z.mul_le_mono_nonneg_l; lia).
      lia. }
    rewrite HA, HB in *. clear Hdm Hrem Hq Hq53 q r Hm1 Hm2 Hd1 Hd2 Hev.
    apply ratio_cases_unshifted; (done || lia).
  - rewrite binary_round_aux_54 by lia.
    assert (2 ^ 52 ≤ q / 2 < 2 ^ 53) as Hh2.
    { pow_consts.
      split; [apply Z.div_le_lower_bound | apply Z.div_lt_upper_bound]; lia. }
    rewrite in_bounds_finish.
    2:{ destruct (halved_loc q (quotient_loc (Zpos m2) r)) as [|[]]; simpl; try lia.
        destruct (Z.even (q / 2)); lia. }
    pose proof (round_shifted_ge (Zpos m2) q r Lm ltac:(lia) Hrem ltac:(pow_consts; lia) HLe)
      as HT.
    pose proof (round_shifted_le (Zpos m2) q r Um ltac:(lia) Hrem ltac:(pow_consts; lia) HUe)
      as HU.
    rewrite <- Hdm in HT, HU.
    rewrite !andb_true_iff, Z.eqb_eq, !Z.leb_le, HT, HU. clear HT HU.
    assert (Zpos m2 ≤ Zpos m1) as Hge.
    { apply (Z.mul_le_mono_pos_r _ _ (2 ^ 53)); [done|]. rewrite Hdm.
      assert (Zpos m2 * 2 ^ 53 ≤ Zpos m2 * q)
        by (apply Z.mul_le_mono_nonneg_l; lia).
      lia. }
    rewrite HA, HB in *. clear Hdm Hrem Hq Hq54 Hh2 q r Hm1 Hm2 Hd1 Hd2 Hev.
    apply ratio_cases_shifted; (done || lia).
Qed.

(** ** The aspect-ratio check *)

Lemma within_tolerance_cross (width height : Z) :
  0 < height →
  within_tolerance width height ↔ 76 * height ≤ 45 * width ∧ 15 * width ≤ 28 * height.
Proof.
  intros Hh. destruct height as [|p|p]; try lia.
  unfold within_tolerance, Qle, Qdiv, Qmult, Qinv, inject_Z. simpl.
  rewrite !Pos2Z.inj_mul. lia.
Qed.

Example boundary_accepted :
  ratio_in_bounds (F64.truediv 1120 600) = true
  ∧ ratio_in_bounds (F64.truediv 1121 600) = false
  ∧ ratio_in_bounds (F64.truediv 760 450) = true
  ∧ ratio_in_bounds (F64.truediv 759 450) = false.
Proof. by vm_compute. Qed.

(** C5.  For an upload of an allowed type that is written and decoded,
    with dimensions that fit in 32 bits: when the height is positive,
    [save_photo] accepts it exactly when width/height lies in the closed
    interval [16/9 × 0.95, 16/9 × 1.05] over the rationals, bounds
    included, and the file is then on disk.  When the height is zero or
    the ratio is outside the interval, it returns no name and an error,
    no file is left at the generated path, and [POST /chapters] with
    that photo answers 400 and stores nothing. *)
Theorem save_photo_aspect_ratio (E : env) (f : FileStorage) (w : world)
    (width height : Z) :
  filename f ≠ "" → allowed_file (filename f) = true →
  on_save f = SaveDone → data f = ImageFile width height →
  0 ≤ width < 2 ^ 32 → 0 ≤ height < 2 ^ 32 →
  let r := save_photo E (Some f) w in
  let name := stored_name E (uuid_calls w) f in
  (0 < height →
   (r.1 = (Some name, None) ↔ within_tolerance width height)
   ∧ (within_tolerance width height →
      disk r.2 !! os_path_join UPLOAD_FOLDER name = Some (ImageFile width height)))
  ∧ (height = 0 ∨ ¬ within_tolerance width height →
     r.1.1 = None ∧ PyStr.truthy r.1.2 = true
     ∧ disk r.2 !! os_path_join UPLOAD_FOLDER name = None
     ∧ db r.2 = db w
     ∧ ∀ req, files req !! "photo" = Some f →
              status (create_chapter E req w).1 = 400
              ∧ db (create_chapter E req w).2 = db w).
Proof.
  intros Hname Hallowed Hsave Hdata Hw Hh r name. subst r name.
  assert (file_truthy (Some f) = true) as Ht.
  { simpl. destruct (String.eqb_spec (filename f) ""); done. }
  pose proof (save_photo_allowed E f w Ht Hallowed) as Hout.
  assert (0 < height → ratio_in_bounds (F64.truediv width height) = true
                       ↔ within_tolerance width height) as Hexact.
  { intros Hpos. rewrite within_tolerance_cross by done.
    apply ratio_in_bounds_exact; lia. }
  assert (∀ req, files req !! "photo" = Some f →
            PyStr.truthy (save_photo E (Some f) w).1.2 = true →
            status (create_chapter E req w).1 = 400
            ∧ db (create_chapter E req w).2 = db w) as Hcaller.
  { intros req Hfile Herr.
    destruct (PyStr.truthy (form req !! "title")) eqn:Htitle.
    - rewrite (create_chapter_unfold E req w Htitle). cbv zeta.
      rewrite Hfile, Herr. cbn [fst snd]. split; [done|]. apply save_photo_db.
    - by rewrite (create_chapter_no_title E req w Htitle). }
  destruct (save_photo E (Some f) w) as [res w'] eqn:Hsp. cbn [fst snd] in *.
  split.
  - intros Hpos. specialize (Hexact Hpos).
    inversion Hout as [wd ht w'' _ Hd Hnz Hin Hdb Hdisk | msg w'' _ Hbad Hdb Hdisk]; subst.
    + rewrite Hdata in Hd. injection Hd as <- <-.
      split; [split; [by intros _; apply Hexact | done]|].
      intros _. rewrite Hdisk, Hdata. apply lookup_insert_eq.
    + destruct (Hbad Hsave width height Hdata) as [->|Hout']; [lia|].
      split; [split; [done|]|].
      * intros Hin. apply Hexact in Hin. congruence.
      * intros Hin. apply Hexact in Hin. congruence.
  - intros Hrej.
    assert (ratio_in_bounds (F64.truediv width height) = true → height ≠ 0 → False)
      as Hno.
    { intros Hin Hnz. destruct Hrej as [->|Hnot]; [by destruct Hnz|].
      apply Hnot, Hexact; [lia|done]. }
    inversion Hout as [wd ht w'' _ Hd Hnz Hin Hdb Hdisk | msg w'' Hmsg _ Hdb Hdisk]; subst.
    + rewrite Hdata in Hd. injection Hd as <- <-. by destruct (Hno Hin Hnz).
    + split; [done|]. split; [done|]. split; [rewrite Hdisk; apply lookup_delete_eq|].
      split; [done|]. intros req Hfile. by apply Hcaller.
Qed.

Lemma save_photo_aspect_ratio_witness :
  let exact := {| filename := "edge.jpg"; data := ImageFile 1120 600;
                  on_save := SaveDone |} in
  let beyond := {| filename := "edge.jpg"; data := ImageFile 1121 600;
                   on_save := SaveDone |} in
  (save_photo Sample.E (Some exact) Sample.w).1 = (Some "uuid-0.jpg", None)
  ∧ (save_photo Sample.E (Some beyond) Sample.w).1.1 = None.
Proof.
  intros exact beyond.
  assert (∀ n, 0 ≤ n → n < 4294967296 → 0 ≤ n < 2 ^ 32) as Hdim
    by (intros n H0 H1; split; [exact H0 | exact H1]).
  pose proof (save_photo_aspect_ratio Sample.E exact Sample.w 1120 600
                ltac:(discriminate) eq_refl eq_refl eq_refl
                (Hdim 1120 ltac:(lia) ltac:(lia)) (Hdim 600 ltac:(lia) ltac:(lia)))
    as (Hin & _).
  pose proof (save_photo_aspect_ratio Sample.E beyond Sample.w 1121 600
                ltac:(discriminate) eq_refl eq_refl eq_refl
                (Hdim 1121 ltac:(lia) ltac:(lia)) (Hdim 600 ltac:(lia) ltac:(lia)))
    as (_ & Hout).
  split.
  - destruct (Hin ltac:(lia)) as (Hiff & _). apply Hiff.
    apply within_tolerance_cross; lia.
  - destruct Hout as (Hnone & _); [|exact Hnone].
    right. intros Hbad. apply within_tolerance_cross in Hbad; lia.
Defined.

(** * Further properties of the handlers *)

(** * Further properties of the code *)

(** ** The admin guard *)

Lemma admin_required_open (E : env) (f : request → M response) (req : request)
    (w : world) (tid : string) :
  headers req !! "X-Telegram-ID" = Some tid → tid ≠ "" → tid ∈ ADMIN_TELEGRAM_IDS E →
  admin_required E f req w = f req w.
Proof.
  intros Hh Hne Hin. unfold admin_required. rewrite Hh. simpl.
  destruct (String.eqb_spec tid ""); [done|]. simpl.
  by rewrite bool_decide_eq_true_2.
Qed.

Lemma admin_required_closed (E : env) (f : request → M response) (req : request)
    (w : world) :
  ¬ (∃ tid, headers req !! "X-Telegram-ID" = Some tid ∧ tid ≠ ""
            ∧ tid ∈ ADMIN_TELEGRAM_IDS E) →
  admin_required E f req w = ((Error "Forbidden: Admin access required", 403), w).
Proof.
  intros Hno. unfold admin_required.
  destruct (headers req !! "X-Telegram-ID") as [tid|]; [|done]. simpl.
  destruct (String.eqb_spec tid "") as [->|Hne]; [done|]. simpl.
  rewrite bool_decide_eq_false_2; [done|]. intros Hin. apply Hno. eauto.
Qed.

(** X1.  A guarded handler runs exactly when the request carries a
    non-empty [X-Telegram-ID] that is in the admin list, and the reply
    is then the handler's own; any other request is answered 403 and
    the handler is not run: the state is untouched. *)
Theorem admin_required_gate (E : env) (f : request → M response) (req : request)
    (w : world) :
  ((∃ tid, headers req !! "X-Telegram-ID" = Some tid ∧ tid ≠ ""
           ∧ tid ∈ ADMIN_TELEGRAM_IDS E) →
   admin_required E f req w = f req w)
  ∧ (¬ (∃ tid, headers req !! "X-Telegram-ID" = Some tid ∧ tid ≠ ""
               ∧ tid ∈ ADMIN_TELEGRAM_IDS E) →
     admin_required E f req w = ((Error "Forbidden: Admin access required", 403), w)).
Proof.
  split.
  - intros (tid & Hh & Hne & Hin). by apply (admin_required_open E f req w tid).
  - apply admin_required_closed.
Qed.

Lemma admin_required_gate_witness :
  admin_required Sample.E (update_chapters_order Sample.E)
    (Sample.json_request (JsonList [])) Sample.w
  = update_chapters_order Sample.E (Sample.json_request (JsonList [])) Sample.w
  ∧ admin_required Sample.E (update_chapters_order Sample.E)
      {| headers := {[ "X-Telegram-ID" := "5" ]}; form := ∅; files := ∅;
         get_json := JsonList [] |} Sample.w
    = ((Error "Forbidden: Admin access required", 403), Sample.w).
Proof.
  split.
  - apply (admin_required_gate Sample.E). exists "1001".
    split; [done|]. split; [done|]. left.
  - apply (admin_required_gate Sample.E). intros (tid & Hh & _ & Hin).
    injection Hh as <-. apply elem_of_cons in Hin as [?|Hin]; [done|].
    by apply elem_of_nil in Hin.
Defined.

(** X2.  When [ADMIN_TELEGRAM_IDS] is not set, the admin list is the list
    of the empty string alone, and no request passes the guard, not even
    one that sends an empty identifier. *)
Theorem admin_required_unset (E : env) (f : request → M response) (req : request)
    (w : world) :
  ADMIN_TELEGRAM_IDS E = admin_ids None →
  admin_required E f req w = ((Error "Forbidden: Admin access required", 403), w).
Proof.
  intros Hids. apply admin_required_closed. intros (tid & _ & Hne & Hin).
  rewrite Hids in Hin. apply elem_of_cons in Hin as [?|Hin]; [done|].
  by apply elem_of_nil in Hin.
Qed.

Lemma admin_required_unset_witness :
  let E := {| BASE_IMAGE_URL := BASE_IMAGE_URL Sample.E;
              ADMIN_TELEGRAM_IDS := admin_ids None;
              py_int := py_int Sample.E; db_int := db_int Sample.E;
              secure_filename := secure_filename Sample.E;
              format_2f := format_2f Sample.E; uuid4 := uuid4 Sample.E |} in
  admin_required E (create_chapter E)
    {| headers := {[ "X-Telegram-ID" := "" ]}; form := {[ "title" := "T" ]};
       files := ∅; get_json := JsonNotList |} Sample.w
  = ((Error "Forbidden: Admin access required", 403), Sample.w).
Proof. intros E. exact (admin_required_unset E _ _ _ eq_refl). Defined.

(** ** File names *)

Lemma rsplit_dot_dotless (s : string) : dotless s = true → PyStr.rsplit_dot s = None.
Proof.
  induction s as [|c r IH]; [done|]. simpl.
  destruct (Ascii.eqb c "."); [done|]. simpl. intros Hr. by rewrite IH.
Qed.

Lemma rsplit_dot_app (stem ext : string) :
  dotless ext = true → PyStr.rsplit_dot (stem +:+ "." +:+ ext) = Some ext.
Proof.
  intros Hext. induction stem as [|c r IH]; simpl.
  - by rewrite rsplit_dot_dotless.
  - simpl in IH. by rewrite IH.
Qed.

Lemma rsplit_dot_Some (s ext : string) :
  PyStr.rsplit_dot s = Some ext →
  dotless ext = true ∧ ∃ stem, s = stem +:+ "." +:+ ext.
Proof.
  revert ext. induction s as [|c r IH]; intros ext; [done|]. simpl.
  destruct (PyStr.rsplit_dot r) as [e|] eqn:Hr.
  - intros [= <-]. destruct (IH e eq_refl) as (Hd & stem & ->).
    split; [done|]. by exists (String c stem).
  - destruct (Ascii.eqb_spec c ".") as [->|Hne]; [|done].
    intros [= <-]. split; [|by exists ""].
    clear IH. induction r as [|c r IH]; [done|]. simpl in *.
    destruct (PyStr.rsplit_dot r); [done|].
    destruct (Ascii.eqb c "."); [done|]. simpl. by apply IH.
Qed.

(** X3.  [allowed_file] looks at the text after the last dot only, without
    regard to case: a name is allowed exactly when it is some stem, a
    dot, and a dot-free extension whose lower-case form is png, jpg, jpeg
    or gif.  In particular a name without a dot is refused. *)
Theorem allowed_file_last_extension (name : string) :
  allowed_file name = true
  ↔ ∃ stem ext, name = stem +:+ "." +:+ ext ∧ dotless ext = true
                ∧ PyStr.lower ext ∈ ALLOWED_EXTENSIONS.
Proof.
  unfold allowed_file. split.
  - destruct (PyStr.rsplit_dot name) as [ext|] eqn:Hr; [|done].
    intros Hin. apply bool_decide_eq_true_1 in Hin.
    destruct (rsplit_dot_Some name ext Hr) as (Hd & stem & ->). eauto.
  - intros (stem & ext & -> & Hd & Hin).
    rewrite rsplit_dot_app by done. by apply bool_decide_eq_true_2.
Qed.

(** ** Photos on disk *)

Lemma delete_photo_disk (photo : option string) (w : world) :
  disk (delete_photo photo w).2
  = if PyStr.truthy photo
    then delete (os_path_join UPLOAD_FOLDER (default "" photo)) (disk w)
    else disk w.
Proof.
  unfold delete_photo. destruct (PyStr.truthy photo); [|done]. simpl.
  unfold bind, os_path_exists, os_remove, ret. simpl.
  destruct (disk w !! os_path_join UPLOAD_FOLDER (default "" photo)) as [x|] eqn:Hl.
  - by rewrite bool_decide_eq_true_2 by eauto.
  - rewrite bool_decide_eq_false_2 by (by intros [? ?]). simpl. by rewrite delete_id.
Qed.

Lemma delete_photo_noop (photo : option string) (w : world) :
  PyStr.truthy photo = false
  ∨ disk w !! os_path_join UPLOAD_FOLDER (default "" photo) = None →
  delete_photo photo w = (tt, w).
Proof.
  unfold delete_photo. destruct (PyStr.truthy photo); simpl.
  - intros [?|Hl]; [done|]. unfold bind, os_path_exists. simpl.
    by rewrite Hl, bool_decide_eq_false_2 by (by intros [? ?]).
  - done.
Qed.

(** X4.  [delete_photo] removes at most the file of the given name from
    the upload directory: with a non-empty name the directory afterwards
    is the old one without that file, every other file being kept; with
    no name, an empty name, or a name whose file is missing it does
    nothing at all.  It never touches the store, and doing it twice is
    the same as doing it once. *)
Theorem delete_photo_best_effort (photo : option string) (w : world) :
  db (delete_photo photo w).2 = db w
  ∧ (PyStr.truthy photo = true →
     disk (delete_photo photo w).2
     = delete (os_path_join UPLOAD_FOLDER (default "" photo)) (disk w))
  ∧ (PyStr.truthy photo = false
     ∨ disk w !! os_path_join UPLOAD_FOLDER (default "" photo) = None →
     delete_photo photo w = (tt, w))
  ∧ disk (delete_photo photo (delete_photo photo w).2).2 = disk (delete_photo photo w).2.
Proof.
  split; [apply delete_photo_db|]. split.
  - intros Ht. by rewrite delete_photo_disk, Ht.
  - split; [apply delete_photo_noop|].
    rewrite !delete_photo_disk. destruct (PyStr.truthy photo); [|done].
    by rewrite delete_delete_eq.
Qed.

Lemma delete_photo_best_effort_witness :
  disk (delete_photo (Some "old.png") Sample.w).2 = ∅
  ∧ delete_photo (Some "gone.png") Sample.w = (tt, Sample.w).
Proof.
  destruct (delete_photo_best_effort (Some "old.png") Sample.w) as (_ & Hdel & _).
  destruct (delete_photo_best_effort (Some "gone.png") Sample.w) as (_ & _ & Hnoop & _).
  split.
  - rewrite (Hdel eq_refl). apply delete_singleton_eq.
  - apply Hnoop. right. done.
Defined.

Lemma save_photo_frame (E : env) (file : option FileStorage) (w : world) (p : string) :
  (∀ f, file = Some f →
        p ≠ os_path_join UPLOAD_FOLDER (stored_name E (uuid_calls w) f)) →
  disk (save_photo E file w).2 !! p = disk w !! p.
Proof.
  intros Hp. destruct (file_truthy file) eqn:Ht.
  - destruct file as [f|]; [|done]. specialize (Hp f eq_refl).
    destruct (allowed_file (filename f)) eqn:Ha.
    + destruct (save_photo_allowed E f w Ht Ha)
        as [? ? w' _ _ _ _ _ Hdisk | msg w' _ _ _ Hdisk]; rewrite Hdisk.
      * by rewrite lookup_insert_ne.
      * by rewrite lookup_delete_ne.
    + by rewrite save_photo_bad_type.
  - by rewrite save_photo_absent.
Qed.

(** X5.  [save_photo] changes nothing but the file at the path it
    generates: every other file of the upload directory is as before,
    and the store is never touched. *)
Theorem save_photo_touches_one_path (E : env) (file : option FileStorage) (w : world) :
  db (save_photo E file w).2 = db w
  ∧ ∀ p, (∀ f, file = Some f →
               p ≠ os_path_join UPLOAD_FOLDER (stored_name E (uuid_calls w) f)) →
         disk (save_photo E file w).2 !! p = disk w !! p.
Proof. split; [apply save_photo_db | apply save_photo_frame]. Qed.

Lemma save_photo_touches_one_path_witness :
  disk (save_photo Sample.E (Some Sample.wide) Sample.w).2 !! "uploads/old.png"
  = Some (ImageFile 1600 900).
Proof.
  destruct (save_photo_touches_one_path Sample.E (Some Sample.wide) Sample.w)
    as (_ & Hframe).
  rewrite (Hframe "uploads/old.png"); [done|].
  intros f [= <-]. by vm_compute.
Defined.

Lemma save_photo_stored (E : env) (file : option FileStorage) (w : world) (name : string) :
  (save_photo E file w).1.1 = Some name →
  ∃ f width height,
    file = Some f ∧ name = stored_name E (uuid_calls w) f
    ∧ allowed_file (filename f) = true ∧ (save_photo E file w).1.2 = None
    ∧ disk (save_photo E file w).2 !! os_path_join UPLOAD_FOLDER name
      = Some (ImageFile width height)
    ∧ height ≠ 0 ∧ ratio_in_bounds (F64.truediv width height) = true.
Proof.
  destruct (file_truthy file) eqn:Ht.
  - destruct file as [f|]; [|done].
    destruct (allowed_file (filename f)) eqn:Ha.
    + destruct (save_photo_allowed E f w Ht Ha)
        as [width height w' _ Hd Hnz Hin _ Hdisk | msg w' _ _ _ Hdisk]; [|done].
      intros [= <-]. exists f, width, height.
      split; [reflexivity|]. split; [reflexivity|]. split; [exact Ha|].
      split; [reflexivity|].
      split; [rewrite Hdisk, Hd; apply lookup_insert_eq|]. split; assumption.
    + by rewrite save_photo_bad_type.
  - by rewrite save_photo_absent.
Qed.

(** X6.  A name returned by [save_photo] always denotes a validated file:
    it comes with no error, the upload had an allowed type, and the
    file is on disk under that name, an image of non-zero height whose
    ratio passed the check. *)
Theorem save_photo_name_is_validated (E : env) (file : option FileStorage) (w : world)
    (name : string) :
  (save_photo E file w).1.1 = Some name →
  (save_photo E file w).1.2 = None
  ∧ ∃ f width height,
      file = Some f ∧ allowed_file (filename f) = true
      ∧ disk (save_photo E file w).2 !! os_path_join UPLOAD_FOLDER name
        = Some (ImageFile width height)
      ∧ height ≠ 0 ∧ ratio_in_bounds (F64.truediv width height) = true.
Proof.
  intros Hname.
  destruct (save_photo_stored E file w name Hname)
    as (f & width & height & -> & _ & Ha & Herr & Hdisk & Hnz & Hin).
  split; [done|]. exists f, width, height. by repeat split.
Qed.

Lemma save_photo_name_is_validated_witness :
  (save_photo Sample.E (Some Sample.wide) Sample.w).1.2 = None
  ∧ ∃ f width height,
      Some Sample.wide = Some f ∧ allowed_file (filename f) = true
      ∧ disk (save_photo Sample.E (Some Sample.wide) Sample.w).2
          !! os_path_join UPLOAD_FOLDER "uuid-0.png"
        = Some (ImageFile width height)
      ∧ height ≠ 0 ∧ ratio_in_bounds (F64.truediv width height) = true.
Proof. apply save_photo_name_is_validated. vm_compute. reflexivity. Defined.

(** ** Updates of a chapter *)

Lemma chapter_fields_columns (E : env) (data : gmap string string)
    (chapter chapter' : Chapter.t) :
  chapter_fields E data chapter = Some chapter' →
  Chapter.id chapter' = Chapter.id chapter
  ∧ Chapter.photo_path chapter' = Chapter.photo_path chapter
  ∧ Chapter.title chapter'
    = match data !! "title" with Some t => Some t | None => Chapter.title chapter end
  ∧ Chapter.order chapter'
    = match data !! "order" with
      | Some v => py_int E v
      | None => Chapter.order chapter
      end.
Proof.
  unfold chapter_fields. destruct (data !! "order") as [v|].
  - destruct (py_int E v) as [n|]; [|done]. intros [= <-].
    by destruct (data !! "title").
  - intros [= <-]. by destruct (data !! "title").
Qed.

Lemma flush_one {A} `{Ordered A} (obj : A) (rows : list A) :
  flush {[ ent_id obj := obj ]} rows
  = (λ r, if decide (ent_id r = ent_id obj) then obj else r) <$> rows.
Proof.
  unfold flush. apply list_fmap_ext. intros i r _.
  destruct (decide (ent_id r = ent_id obj)) as [->|Hne].
  - by rewrite lookup_singleton_eq.
  - by rewrite lookup_singleton_ne.
Qed.

Lemma flush_chapter_rows (c : Chapter.t) (d : database) :
  chapters (flush_chapter c d)
  = (λ r, if decide (Chapter.id r = Chapter.id c) then c else r) <$> chapters d
  ∧ articles (flush_chapter c d) = articles d.
Proof. split; [exact (flush_one (H:=Chapter_Ordered) c (chapters d)) | done]. Qed.

Lemma store_accepts_flush_chapter (c : Chapter.t) (d : database) :
  (accepts_chapter d c = true → store_accepts d (flush_chapter c d) = true)
  ∧ (accepts_chapter d c = false → c ∉ chapters d →
     Chapter.id c ∈ Chapter.id <$> chapters d →
     store_accepts d (flush_chapter c d) = false).
Proof.
  unfold flush_chapter. rewrite store_accepts_chapters.
  pose proof (flush_one (H:=Chapter_Ordered) c (chapters d)) as Hfl.
  cbn [ent_id Chapter_Ordered] in Hfl. rewrite Hfl. clear Hfl.
  split.
  - intros Hok. apply forallb_written. intros r Hr Hnew.
    apply list_elem_of_fmap in Hr as (r0 & -> & Hr0).
    destruct (decide _); [done|by destruct Hnew].
  - intros Hbad Hnew Hid. apply forallb_written_false. exists c.
    split; [|done]. apply list_elem_of_fmap in Hid as (r0 & e & Hr0).
    apply list_elem_of_fmap. exists r0. split; [|done]. by rewrite decide_True.
Qed.

Lemma store_accepts_flush_article (a : Article.t) (d : database) :
  (accepts_article d a = true → store_accepts d (flush_article a d) = true)
  ∧ (accepts_article d a = false → a ∉ articles d →
     Article.id a ∈ Article.id <$> articles d →
     store_accepts d (flush_article a d) = false).
Proof.
  unfold flush_article. rewrite store_accepts_articles.
  pose proof (flush_one (H:=Article_Ordered) a (articles d)) as Hfl.
  cbn [ent_id Article_Ordered] in Hfl. rewrite Hfl. clear Hfl.
  split.
  - intros Hok. apply forallb_written. intros r Hr Hnew.
    apply list_elem_of_fmap in Hr as (r0 & -> & Hr0).
    destruct (decide _); [done|by destruct Hnew].
  - intros Hbad Hnew Hid. apply forallb_written_false. exists a.
    split; [|done]. apply list_elem_of_fmap in Hid as (r0 & e & Hr0).
    apply list_elem_of_fmap. exists r0. split; [|done]. by rewrite decide_True.
Qed.

Lemma delete_photo_uuid (photo : option string) (w : world) :
  uuid_calls (delete_photo photo w).2 = uuid_calls w.
Proof.
  unfold delete_photo. destruct (PyStr.truthy photo); [|done]. simpl.
  unfold bind, os_path_exists, os_remove, ret. simpl.
  by destruct (bool_decide _).
Qed.

Lemma update_chapter_no_id (E : env) (req : request) (w : world) :
  PyStr.truthy (form req !! "id") = false →
  update_chapter E req w = ((Error "Chapter ID is required in body", 400), w).
Proof. intros Hid. unfold update_chapter. by rewrite Hid. Qed.

Lemma update_chapter_unknown (E : env) (req : request) (w : world) (key : Z) :
  PyStr.truthy (form req !! "id") = true →
  db_int E (default "" (form req !! "id")) = Some key →
  List.find (λ c, Chapter.id c =? key) (chapters (db w)) = None →
  update_chapter E req w = ((Error "Chapter not found", 404), log (SqlSelect "chapters") w).
Proof.
  intros Hid Hkey Hf. unfold update_chapter. rewrite Hid, Hkey. simpl.
  unfold bind, query_chapter_first. by rewrite Hf.
Qed.

Lemma update_chapter_bad_order (E : env) (req : request) (w : world) (key : Z) chapter :
  PyStr.truthy (form req !! "id") = true →
  db_int E (default "" (form req !! "id")) = Some key →
  List.find (λ c, Chapter.id c =? key) (chapters (db w)) = Some chapter →
  chapter_fields E (form req) chapter = None →
  update_chapter E req w = ((Unhandled, 500), log (SqlSelect "chapters") w).
Proof.
  intros Hid Hkey Hf Hset. unfold update_chapter. rewrite Hid, Hkey. simpl.
  unfold bind, query_chapter_first. unfold chapter_fields in Hset. by rewrite Hf, Hset.
Qed.

(** X7.  [PUT /chapters] without a photo is a partial update.  The row
    it writes is the row of the given key with its photo kept and its
    title and order replaced when and only when the form supplies them.
    When the store accepts that row, the reply is 200, in the table
    exactly the row of the key changes, and the articles and the upload
    directory are untouched.  When the store refuses it, the commit
    raises: the reply is a 500 and nothing is changed. *)
Theorem update_chapter_without_photo (E : env) (req : request) (w : world) (key : Z)
    (chapter : Chapter.t) :
  PyStr.truthy (form req !! "id") = true →
  db_int E (default "" (form req !! "id")) = Some key →
  List.find (λ c, Chapter.id c =? key) (chapters (db w)) = Some chapter →
  file_truthy (files req !! "photo") = false →
  (∀ v, form req !! "order" = Some v → is_Some (py_int E v)) →
  ∃ chapter',
    chapter_fields E (form req) chapter = Some chapter'
    ∧ Chapter.id chapter' = key
    ∧ Chapter.photo_path chapter' = Chapter.photo_path chapter
    ∧ Chapter.title chapter'
      = match form req !! "title" with
        | Some t => Some t
        | None => Chapter.title chapter
        end
    ∧ Chapter.order chapter'
      = match form req !! "order" with
        | Some v => py_int E v
        | None => Chapter.order chapter
        end
    ∧ (accepts_chapter (db w) chapter' = true →
       (update_chapter E req w).1
       = (ChapterJson (Chapter_to_dict (BASE_IMAGE_URL E) chapter'), 200)
       ∧ chapters (db (update_chapter E req w).2)
         = (λ c, if decide (Chapter.id c = key) then chapter' else c) <$> chapters (db w)
       ∧ articles (db (update_chapter E req w).2) = articles (db w)
       ∧ disk (update_chapter E req w).2 = disk w)
    ∧ (accepts_chapter (db w) chapter' = false → chapter' ∉ chapters (db w) →
       (update_chapter E req w).1 = (Unhandled, 500)
       ∧ db (update_chapter E req w).2 = db w
       ∧ disk (update_chapter E req w).2 = disk w).
Proof.
  intros Hid Hkey Hf Hfile Hord.
  assert (Chapter.id chapter = key ∧ chapter ∈ chapters (db w)) as [Hk Hin].
  { apply find_some in Hf as [Hin He]. apply Z.eqb_eq in He.
    by apply list_elem_of_In in Hin. }
  destruct (chapter_fields E (form req) chapter) as [chapter'|] eqn:Hset.
  2:{ unfold chapter_fields in Hset. destruct (form req !! "order") as [v|]; [|done].
      destruct (Hord v eq_refl) as [n Hn]. by rewrite Hn in Hset. }
  destruct (chapter_fields_columns E _ _ _ Hset) as (Hi & Hp & Ht & Ho).
  exists chapter'.
  rewrite (update_chapter_unfold E req w key chapter chapter' Hid Hkey Hf Hset).
  cbv zeta. rewrite Hfile.
  split; [done|]. split; [congruence|]. split; [done|]. split; [done|]. split; [done|].
  destruct (store_accepts_flush_chapter chapter' (db w)) as [Hyes Hno].
  split.
  - intros Hok. rewrite (Hyes Hok). cbn [fst snd db disk log with_db].
    destruct (flush_chapter_rows chapter' (db w)) as [-> ->].
    by rewrite Hi, Hk.
  - intros Hbad Hnew. rewrite (Hno Hbad Hnew); [done|].
    rewrite Hi. by apply list_elem_of_fmap_2.
Qed.

Lemma update_chapter_without_photo_witness :
  ∃ chapter',
    (update_chapter Sample.E (Sample.form_request {[ "id" := "2"; "order" := "7" ]} None)
       Sample.w).1
    = (ChapterJson (Chapter_to_dict (BASE_IMAGE_URL Sample.E) chapter'), 200)
    ∧ Chapter.title chapter' = Some "Basics"
    ∧ Chapter.order chapter' = Some 7.
Proof.
  destruct (update_chapter_without_photo Sample.E
              (Sample.form_request {[ "id" := "2"; "order" := "7" ]} None)
              Sample.w 2 Sample.basics ltac:(by vm_compute) ltac:(by vm_compute)
              ltac:(by vm_compute) ltac:(by vm_compute))
    as (c & Hset & _ & _ & Ht & Ho & Hyes & _).
  - intros v Hv. vm_compute in Hv. injection Hv as <-. by eexists.
  - exists c. vm_compute in Hset. injection Hset as <-.
    destruct (Hyes eq_refl) as (Hr & _).
    split; [exact Hr|]. split; [exact Ht|exact Ho].
Defined.

(** X8.  [PUT /chapters] with a named photo that passes validation
    answers 200, stores the new file, names it in the row, and removes
    the file of the previous photo (unless the new file took its very
    path). *)
Theorem update_chapter_replaces_photo (E : env) (req : request) (w : world) (key : Z)
    (chapter : Chapter.t) (f : FileStorage) :
  PyStr.truthy (form req !! "id") = true →
  db_int E (default "" (form req !! "id")) = Some key →
  List.find (λ c, Chapter.id c =? key) (chapters (db w)) = Some chapter →
  files req !! "photo" = Some f → file_truthy (Some f) = true →
  status (update_chapter E req w).1 = 200 →
  let name := stored_name E (uuid_calls w) f in
  let old := os_path_join UPLOAD_FOLDER (default "" (Chapter.photo_path chapter)) in
  ∃ chapter',
    (update_chapter E req w).1
    = (ChapterJson (Chapter_to_dict (BASE_IMAGE_URL E) chapter'), 200)
    ∧ Chapter.photo_path chapter' = Some name
    ∧ chapters (db (update_chapter E req w).2)
      = (λ c, if decide (Chapter.id c = key) then chapter' else c) <$> chapters (db w)
    ∧ disk (update_chapter E req w).2 !! os_path_join UPLOAD_FOLDER name = Some (data f)
    ∧ (PyStr.truthy (Chapter.photo_path chapter) = true →
       old ≠ os_path_join UPLOAD_FOLDER name →
       disk (update_chapter E req w).2 !! old = None).
Proof.
  intros Hid Hkey Hf Hfile Htr. unfold status.
  assert (Chapter.id chapter = key) as Hk.
  { apply find_some in Hf as [_ He]. by apply Z.eqb_eq in He. }
  destruct (chapter_fields E (form req) chapter) as [chapter'|] eqn:Hset.
  2:{ by rewrite (update_chapter_bad_order E req w key chapter). }
  destruct (chapter_fields_columns E _ _ _ Hset) as (Hi & Hp & Ht & Ho).
  rewrite (update_chapter_unfold E req w key chapter chapter' Hid Hkey Hf Hset).
  cbv zeta. rewrite Hfile, Htr.
  set (w1 := (delete_photo (Chapter.photo_path chapter') (log (SqlSelect "chapters") w)).2).
  assert (uuid_calls w1 = uuid_calls w) as Hu.
  { subst w1. by rewrite delete_photo_uuid. }
  assert (disk w1 = if PyStr.truthy (Chapter.photo_path chapter)
                    then delete (os_path_join UPLOAD_FOLDER
                                   (default "" (Chapter.photo_path chapter))) (disk w)
                    else disk w) as Hd1.
  { subst w1. by rewrite delete_photo_disk, Hp. }
  destruct (PyStr.truthy (save_photo E (Some f) w1).1.2) eqn:Herr; [done|].
  destruct (store_accepts _ _); [|done].
  cbn [fst snd]. intros _.
  destruct (allowed_file (filename f)) eqn:Ha.
  2:{ by rewrite save_photo_bad_type in Herr. }
  destruct (save_photo_allowed E f w1 Htr Ha)
    as [width height w' _ Hdata _ _ _ Hdisk | msg w' Hmsg _ _ _].
  2:{ cbn [fst snd] in Herr. congruence. }
  rewrite Hu in *.
  exists (Chapter.set_photo_path (Some (stored_name E (uuid_calls w) f)) chapter').
  cbn [fst snd db disk log with_db].
  split; [done|]. split; [done|]. split.
  { destruct (flush_chapter_rows
                (Chapter.set_photo_path (Some (stored_name E (uuid_calls w) f)) chapter')
                (db w)) as [-> _].
    simpl. by rewrite Hi, Hk. }
  rewrite Hdisk. split; [apply lookup_insert_eq|].
  intros Hold Hne. rewrite lookup_insert_ne by done.
  rewrite Hd1, Hold. apply lookup_delete_eq.
Qed.

Lemma update_chapter_replaces_photo_witness :
  let r := update_chapter Sample.E
             (Sample.form_request {[ "id" := "1" ]} (Some Sample.wide)) Sample.w in
  disk r.2 !! "uploads/uuid-0.png" = Some (ImageFile 1920 1080)
  ∧ disk r.2 !! "uploads/old.png" = None.
Proof.
  intros r.
  assert (status r.1 = 200) as Hok by (vm_compute; reflexivity).
  destruct (update_chapter_replaces_photo Sample.E
              (Sample.form_request {[ "id" := "1" ]} (Some Sample.wide))
              Sample.w 1 Sample.intro Sample.wide ltac:(by vm_compute)
              ltac:(by vm_compute) ltac:(by vm_compute) ltac:(by vm_compute)
              ltac:(by vm_compute) Hok)
    as (c & _ & _ & _ & Hnew & Hold).
  split; [exact Hnew|]. apply Hold; by vm_compute.
Defined.

(** X9.  [PUT /chapters] checks before it acts: without an id the reply is
    400 and nothing at all is done; with an unknown id it is 404, and
    with an order that [int()] rejects the exception is raised before
    the photo is looked at, so that in both cases the store and the
    upload directory are as before, the previous photo included. *)
Theorem update_chapter_checks_first (E : env) (req : request) (w : world) :
  (PyStr.truthy (form req !! "id") = false →
   update_chapter E req w = ((Error "Chapter ID is required in body", 400), w))
  ∧ (∀ key,
       PyStr.truthy (form req !! "id") = true →
       db_int E (default "" (form req !! "id")) = Some key →
       (∀ c, c ∈ chapters (db w) → Chapter.id c ≠ key) →
       (update_chapter E req w).1 = (Error "Chapter not found", 404)
       ∧ db (update_chapter E req w).2 = db w
       ∧ disk (update_chapter E req w).2 = disk w)
  ∧ (∀ key chapter v,
       PyStr.truthy (form req !! "id") = true →
       db_int E (default "" (form req !! "id")) = Some key →
       List.find (λ c, Chapter.id c =? key) (chapters (db w)) = Some chapter →
       form req !! "order" = Some v → py_int E v = None →
       (update_chapter E req w).1 = (Unhandled, 500)
       ∧ db (update_chapter E req w).2 = db w
       ∧ disk (update_chapter E req w).2 = disk w).
Proof.
  split; [apply update_chapter_no_id|]. split.
  - intros key Hid Hkey Hno.
    apply (proj2 (find_chapter_None _ _)) in Hno.
    by rewrite (update_chapter_unknown E req w key Hid Hkey Hno).
  - intros key chapter v Hid Hkey Hf Hv Hint.
    rewrite (update_chapter_bad_order E req w key chapter Hid Hkey Hf); [done|].
    unfold chapter_fields. by rewrite Hv, Hint.
Qed.

Lemma update_chapter_checks_first_witness :
  (update_chapter Sample.E
     (Sample.form_request {[ "id" := "1"; "order" := "first" ]} (Some Sample.wide))
     Sample.w).1 = (Unhandled, 500)
  ∧ disk (update_chapter Sample.E
            (Sample.form_request {[ "id" := "1"; "order" := "first" ]} (Some Sample.wide))
            Sample.w).2 = disk Sample.w.
Proof.
  destruct (update_chapter_checks_first Sample.E
              (Sample.form_request {[ "id" := "1"; "order" := "first" ]} (Some Sample.wide))
              Sample.w) as (_ & _ & Hbad).
  destruct (Hbad 1 Sample.intro "first" ltac:(by vm_compute) ltac:(by vm_compute)
              ltac:(by vm_compute) ltac:(by vm_compute) ltac:(by vm_compute))
    as (Hr & _ & Hd).
  split; [exact Hr|exact Hd].
Defined.

(** ** Updates of an article *)

Lemma article_fields_columns (E : env) (data : gmap string string)
    (article article' : Article.t) :
  article_fields E data article = Some article' →
  Article.id article' = Article.id article
  ∧ Article.photo_path article' = Article.photo_path article
  ∧ Article.title article'
    = match data !! "title" with Some v => Some v | None => Article.title article end
  ∧ Article.description article'
    = match data !! "description" with
      | Some v => Some v
      | None => Article.description article
      end
  ∧ Article.link article'
    = match data !! "link" with Some v => Some v | None => Article.link article end
  ∧ Article.order article'
    = match data !! "order" with Some v => py_int E v | None => Article.order article end
  ∧ Article.chapter_id article'
    = match data !! "chapter_id" with
      | Some v => py_int E v
      | None => Article.chapter_id article
      end.
Proof.
  unfold article_fields. cbn [foldl]. unfold set_article_field. cbn [mbind option_bind].
  destruct (data !! "title") as [t|]; destruct (data !! "description") as [d|];
    destruct (data !! "link") as [l|]; cbn;
    destruct (data !! "order") as [o|]; cbn;
    try (destruct (py_int E o) as [n|]; cbn; [|done]);
    destruct (data !! "chapter_id") as [c|]; cbn;
    try (destruct (py_int E c) as [k|]; cbn; [|done]);
    by intros [= <-].
Qed.

Lemma flush_article_rows (a : Article.t) (d : database) :
  articles (flush_article a d)
  = (λ r, if decide (Article.id r = Article.id a) then a else r) <$> articles d
  ∧ chapters (flush_article a d) = chapters d.
Proof. split; [exact (flush_one (H:=Article_Ordered) a (articles d)) | done]. Qed.

Lemma update_article_unfold (E : env) (req : request) (w : world) key article article' :
  PyStr.truthy (form req !! "id") = true →
  db_int E (default "" (form req !! "id")) = Some key →
  List.find (λ a, Article.id a =? key) (articles (db w)) = Some article →
  article_fields E (form req) article = Some article' →
  update_article E req w =
  let w0 := log (SqlSelect "articles") w in
  if file_truthy (files req !! "photo") then
    let s := save_photo E (files req !! "photo")
               (delete_photo (Article.photo_path article') w0).2 in
    if PyStr.truthy s.1.2 then ((Error (default "" s.1.2), 400), s.2)
    else
      let a := Article.set_photo_path s.1.1 article' in
      if store_accepts (db w) (flush_article a (db w)) then
        ((ArticleJson (Article_to_dict (BASE_IMAGE_URL E) a), 200),
         log SqlCommit (with_db (flush_article a (db w)) s.2))
      else ((Unhandled, 500), s.2)
  else
    if store_accepts (db w) (flush_article article' (db w)) then
      ((ArticleJson (Article_to_dict (BASE_IMAGE_URL E) article'), 200),
       log SqlCommit (with_db (flush_article article' (db w)) w0))
    else ((Unhandled, 500), w0).
Proof.
  intros Hid Hkey Hfind Hset. unfold update_article.
  rewrite Hid, Hkey. cbn [negb].
  unfold bind at 1. unfold query_article_first at 1. rewrite Hfind.
  unfold article_fields in Hset. rewrite Hset.
  destruct (file_truthy (files req !! "photo")).
  2:{ unfold bind, db_commit, ret. cbn [fst snd db log with_db]. cbv zeta.
      by destruct (store_accepts _ _). }
  unfold bind at 1.
  pose proof (delete_photo_db (Article.photo_path article') (log (SqlSelect "articles") w))
    as Hdb1.
  destruct (delete_photo (Article.photo_path article') (log (SqlSelect "articles") w))
    as [[] w1]. cbn [fst snd] in *.
  unfold bind at 1.
  pose proof (save_photo_db E (files req !! "photo") w1) as Hdb2.
  destruct (save_photo E (files req !! "photo") w1) as [[name err] w2]. cbn [fst snd] in *.
  destruct (PyStr.truthy err); [done|].
  unfold bind, db_commit, ret. cbn [fst snd]. cbv zeta. rewrite Hdb2, Hdb1.
  by destruct (store_accepts _ _).
Qed.

Lemma update_article_early (E : env) (req : request) (w : world) :
  (PyStr.truthy (form req !! "id") = false →
   update_article E req w = ((Error "Article ID is required in body", 400), w))
  ∧ (PyStr.truthy (form req !! "id") = true →
     db_int E (default "" (form req !! "id")) = None →
     update_article E req w = ((Unhandled, 500), w))
  ∧ (∀ key, PyStr.truthy (form req !! "id") = true →
     db_int E (default "" (form req !! "id")) = Some key →
     List.find (λ a, Article.id a =? key) (articles (db w)) = None →
     update_article E req w
     = ((Error "Article not found", 404), log (SqlSelect "articles") w))
  ∧ (∀ key article, PyStr.truthy (form req !! "id") = true →
     db_int E (default "" (form req !! "id")) = Some key →
     List.find (λ a, Article.id a =? key) (articles (db w)) = Some article →
     article_fields E (form req) article = None →
     update_article E req w = ((Unhandled, 500), log (SqlSelect "articles") w)).
Proof.
  unfold update_article. repeat split.
  - by intros ->.
  - by intros -> ->.
  - intros key -> -> Hf. cbn [negb]. unfold bind, query_article_first. by rewrite Hf.
  - intros key article -> -> Hf Hset. cbn [negb]. unfold bind, query_article_first.
    unfold article_fields in Hset. by rewrite Hf, Hset.
Qed.

Lemma update_article_db (E : env) (req : request) (w : world) :
  (status (update_article E req w).1 ≠ 200 ∧ db (update_article E req w).2 = db w)
  ∨ ∃ a key article,
      List.find (λ a, Article.id a =? key) (articles (db w)) = Some article
      ∧ Article.id a = Article.id article
      ∧ status (update_article E req w).1 = 200
      ∧ db (update_article E req w).2 = flush_article a (db w)
      ∧ Article.chapter_id a
        = match form req !! "chapter_id" with
          | Some v => py_int E v
          | None => Article.chapter_id article
          end.
Proof.
  destruct (update_article_early E req w) as (H1 & H2 & H3 & H4).
  destruct (PyStr.truthy (form req !! "id")) eqn:Hid; [|left; by rewrite H1].
  destruct (db_int E (default "" (form req !! "id"))) as [key|] eqn:Hkey;
    [|left; by rewrite H2].
  destruct (List.find (λ a, Article.id a =? key) (articles (db w))) as [article|] eqn:Hf;
    [|left; by rewrite (H3 key)].
  destruct (article_fields E (form req) article) as [article'|] eqn:Hset;
    [|left; by rewrite (H4 key article)].
  destruct (article_fields_columns E _ _ _ Hset) as (Hi & _ & _ & _ & _ & _ & Hc).
  rewrite (update_article_unfold E req w key article article' Hid Hkey Hf Hset).
  cbv zeta. destruct (file_truthy (files req !! "photo")).
  - match goal with
    | |- context [PyStr.truthy (save_photo ?a ?b ?c).1.2] =>
        destruct (PyStr.truthy (save_photo a b c).1.2)
    end.
    + left. cbn [fst snd]. split; [done|]. by rewrite save_photo_db, delete_photo_db.
    + destruct (store_accepts _ _).
      * right. eexists _, key, article. cbn [fst snd db log with_db].
        split; [done|]. split; [|done]. done.
      * left. cbn [fst snd]. split; [done|]. by rewrite save_photo_db, delete_photo_db.
  - destruct (store_accepts _ _).
    + right. exists article', key, article. cbn [fst snd db log with_db]. done.
    + left. by cbn [fst snd db log].
Qed.

(** X10.  [PUT /articles] is a partial update like [PUT /chapters]: a
    reply other than 200 commits nothing, and an accepted request
    without photo and without [chapter_id] leaves the upload directory
    alone and changes exactly the row of the given key, replacing the
    title, description, link and order that the form supplies and
    keeping the others, the chapter and the photo. *)
Theorem update_article_partial (E : env) (req : request) (w : world) :
  (status (update_article E req w).1 ≠ 200 → db (update_article E req w).2 = db w)
  ∧ ∀ key article,
      PyStr.truthy (form req !! "id") = true →
      db_int E (default "" (form req !! "id")) = Some key →
      List.find (λ a, Article.id a =? key) (articles (db w)) = Some article →
      file_truthy (files req !! "photo") = false →
      form req !! "chapter_id" = None →
      status (update_article E req w).1 = 200 →
      ∃ article',
        (update_article E req w).1
        = (ArticleJson (Article_to_dict (BASE_IMAGE_URL E) article'), 200)
        ∧ article_fields E (form req) article = Some article'
        ∧ Article.id article' = key
        ∧ Article.photo_path article' = Article.photo_path article
        ∧ Article.chapter_id article' = Article.chapter_id article
        ∧ Article.title article'
          = match form req !! "title" with
            | Some v => Some v
            | None => Article.title article
            end
        ∧ Article.description article'
          = match form req !! "description" with
            | Some v => Some v
            | None => Article.description article
            end
        ∧ Article.link article'
          = match form req !! "link" with
            | Some v => Some v
            | None => Article.link article
            end
        ∧ Article.order article'
          = match form req !! "order" with
            | Some v => py_int E v
            | None => Article.order article
            end
        ∧ articles (db (update_article E req w).2)
          = (λ a, if decide (Article.id a = key) then article' else a)
              <$> articles (db w)
        ∧ chapters (db (update_article E req w).2) = chapters (db w)
        ∧ disk (update_article E req w).2 = disk w.
Proof.
  split.
  - intros Hst. destruct (update_article_db E req w) as [[_ Hdb]|(a & k & ar & _ & _ & Hok & _)];
      [done|by destruct Hst].
  - intros key article Hid Hkey Hf Hfile Hnc.
    assert (Article.id article = key) as Hk.
    { apply find_some in Hf as [_ He]. by apply Z.eqb_eq in He. }
    destruct (article_fields E (form req) article) as [article'|] eqn:Hset.
    2:{ destruct (update_article_early E req w) as (_ & _ & _ & H4).
        by rewrite (H4 key article). }
    destruct (article_fields_columns E _ _ _ Hset) as (Hi & Hp & Ht & Hd & Hl & Ho & Hc).
    rewrite Hnc in Hc.
    rewrite (update_article_unfold E req w key article article' Hid Hkey Hf Hset).
    cbv zeta. rewrite Hfile. unfold status.
    destruct (store_accepts _ _); [|done].
    cbn [fst snd db disk log with_db]. intros _.
    exists article'. destruct (flush_article_rows article' (db w)) as [-> ->].
    rewrite Hi, Hk. by repeat split.
Qed.

Lemma update_article_partial_witness :
  ∃ article',
    (update_article Sample.E
       (Sample.form_request {[ "id" := "2"; "link" := "https://e.org/two" ]} None)
       Sample.w).1
    = (ArticleJson (Article_to_dict (BASE_IMAGE_URL Sample.E) article'), 200)
    ∧ Article.title article' = Some "Next steps"
    ∧ Article.order article' = Some 2.
Proof.
  destruct (update_article_partial Sample.E
              (Sample.form_request {[ "id" := "2"; "link" := "https://e.org/two" ]} None)
              Sample.w) as (_ & Hpart).
  destruct (Hpart 2 Sample.next_steps ltac:(by vm_compute) ltac:(by vm_compute)
              ltac:(by vm_compute) ltac:(by vm_compute) ltac:(by vm_compute)
              ltac:(by vm_compute))
    as (a & Hr & _ & _ & _ & _ & Ht & _ & _ & Ho & _).
  exists a. split; [exact Hr|]. split; [exact Ht|exact Ho].
Defined.

(** ** Creating and reading back *)

Lemma find_chapter_appended (rows : list Chapter.t) (c : Chapter.t) :
  (∀ r, r ∈ rows → Chapter.id r < Chapter.id c) →
  List.find (λ r, Chapter.id r =? Chapter.id c) (rows ++ [c]) = Some c.
Proof.
  intros Hlt. induction rows as [|r rows IH]; simpl.
  - by rewrite Z.eqb_refl.
  - destruct (Z.eqb_spec (Chapter.id r) (Chapter.id c)) as [e|_].
    + specialize (Hlt r ltac:(left)). lia.
    + apply IH. intros r' Hr'. apply Hlt. by right.
Qed.

Lemma find_article_appended (rows : list Article.t) (a : Article.t) :
  (∀ r, r ∈ rows → Article.id r < Article.id a) →
  List.find (λ r, Article.id r =? Article.id a) (rows ++ [a]) = Some a.
Proof.
  intros Hlt. induction rows as [|r rows IH]; simpl.
  - by rewrite Z.eqb_refl.
  - destruct (Z.eqb_spec (Article.id r) (Article.id a)) as [e|_].
    + specialize (Hlt r ltac:(left)). lia.
    + apply IH. intros r' Hr'. apply Hlt. by right.
Qed.

Lemma create_chapter_db (E : env) (req : request) (w : world) :
  (status (create_chapter E req w).1 ≠ 201 ∧ db (create_chapter E req w).2 = db w)
  ∨ ∃ c, Chapter.id c = chapters_id_seq (db w)
         ∧ (create_chapter E req w).1
           = (ChapterJson (Chapter_to_dict (BASE_IMAGE_URL E) c), 201)
         ∧ Chapter.photo_path c = (save_photo E (files req !! "photo") w).1.1
         ∧ db (create_chapter E req w).2 = insert_chapter c (db w)
         ∧ disk (create_chapter E req w).2 = disk (save_photo E (files req !! "photo") w).2.
Proof.
  destruct (PyStr.truthy (form req !! "title")) eqn:Ht.
  2:{ left. by rewrite (create_chapter_no_title E req w Ht). }
  rewrite (create_chapter_unfold E req w Ht). cbv zeta.
  destruct (PyStr.truthy (save_photo E (files req !! "photo") w).1.2).
  - left. cbn [fst snd]. split; [done|]. apply save_photo_db.
  - destruct (accepts_chapter _ _).
    + right. eexists. cbn [fst snd db disk log with_db]. by repeat split.
    + left. cbn [fst snd db log]. split; [done|]. apply save_photo_db.
Qed.

Lemma create_article_db (E : env) (req : request) (w : world) :
  (status (create_article E req w).1 ≠ 201 ∧ db (create_article E req w).2 = db w)
  ∨ ∃ a c, Article.id a = articles_id_seq (db w)
           ∧ c ∈ chapters (db w) ∧ Article.chapter_id a = Some (Chapter.id c)
           ∧ (create_article E req w).1
             = (ArticleJson (Article_to_dict (BASE_IMAGE_URL E) a), 201)
           ∧ db (create_article E req w).2 = insert_article a (db w).
Proof.
  destruct (forallb (λ field, bool_decide (is_Some (form req !! field)))
              required_fields) eqn:Hall.
  2:{ left. rewrite create_article_missing_field; [done|]. intros Hreq.
      apply (proj2 (required_fields_present _)) in Hreq. congruence. }
  pose proof (proj1 (required_fields_present _) Hall) as Hreq. clear Hall.
  destruct (py_int E (default "" (form req !! "chapter_id"))) as [chapter_id|] eqn:Hint.
  2:{ left. unfold create_article. apply (proj2 (required_fields_present _)) in Hreq.
      unfold required_fields in Hreq. by rewrite Hreq, Hint. }
  destruct (List.find (λ c, Chapter.id c =? chapter_id) (chapters (db w)))
    as [c|] eqn:Hf.
  2:{ left. pose proof (proj1 (find_chapter_None _ _) Hf) as Hno.
      by rewrite (create_article_no_chapter E req w chapter_id). }
  rewrite (create_article_unfold E req w chapter_id c Hreq Hint Hf). cbv zeta.
  destruct (PyStr.truthy
              (save_photo E (files req !! "photo") (log (SqlSelect "chapters") w)).1.2).
  - left. cbn [fst snd]. split; [done|]. by rewrite save_photo_db.
  - destruct (accepts_article _ _).
    2:{ left. cbn [fst snd db log]. split; [done|]. by rewrite save_photo_db. }
    right. apply find_some in Hf as [Hin He]. apply Z.eqb_eq in He.
    apply list_elem_of_In in Hin.
    cbn [fst snd].
    match goal with |- context [insert_article ?a _] => exists a, c end.
    split; [reflexivity|]. split; [done|]. split; [by rewrite He|]. done.
Qed.

(** X11.  What [POST] created, [GET] reads back: on a store whose keys are
    below their sequences, a successful [POST /chapters] is followed by
    a [GET /chapters/<id>] of the new key that answers 200 with the same
    body, and likewise for articles. *)
Theorem create_then_get (E : env) (req : request) (w : world) :
  store_wf (db w) →
  (status (create_chapter E req w).1 = 201 →
   ∃ d, (create_chapter E req w).1 = (ChapterJson d, 201)
        ∧ (get_chapter E (cd_id d) (create_chapter E req w).2).1 = (ChapterJson d, 200))
  ∧ (status (create_article E req w).1 = 201 →
     ∃ d, (create_article E req w).1 = (ArticleJson d, 201)
          ∧ (get_article E (ad_id d) (create_article E req w).2).1 = (ArticleJson d, 200)).
Proof.
  intros (_ & Hc & _ & Ha). split.
  - intros Hok. destruct (create_chapter_db E req w) as [[Hno _]|(c & Hid & Hr & _ & Hdb & _)];
      [done|].
    eexists. split; [exact Hr|].
    unfold get_chapter, bind, query_chapter_first. rewrite Hdb. cbn [fst snd cd_id].
    unfold Chapter_to_dict at 1. cbn [cd_id]. unfold insert_chapter. cbn [chapters].
    rewrite find_chapter_appended; [done|]. intros r Hr'. rewrite Hid. by apply Hc.
  - intros Hok. destruct (create_article_db E req w) as [[Hno _]|(a & c & Hid & _ & _ & Hr & Hdb)];
      [done|].
    eexists. split; [exact Hr|].
    unfold get_article, bind, query_article_first. rewrite Hdb. cbn [fst snd ad_id].
    unfold Article_to_dict at 1. cbn [ad_id]. unfold insert_article. cbn [articles].
    rewrite find_article_appended; [done|]. intros r Hr'. rewrite Hid. by apply Ha.
Qed.

Lemma sample_store_wf : store_wf Sample.store.
Proof.
  unfold store_wf. split; [apply (bool_decide_unpack _); by vm_compute|].
  split.
  { intros c Hc. apply elem_of_cons in Hc as [->|Hc]; [done|].
    apply elem_of_cons in Hc as [->|Hc]; [done|]. by apply elem_of_nil in Hc. }
  split; [apply (bool_decide_unpack _); by vm_compute|].
  intros a Ha. apply elem_of_cons in Ha as [->|Ha]; [done|].
  apply elem_of_cons in Ha as [->|Ha]; [done|]. by apply elem_of_nil in Ha.
Defined.

Lemma create_then_get_witness :
  let req := Sample.form_request {[ "title" := "Advanced" ]} None in
  ∃ d, (create_chapter Sample.E req Sample.w).1 = (ChapterJson d, 201)
       ∧ (get_chapter Sample.E (cd_id d) (create_chapter Sample.E req Sample.w).2).1
         = (ChapterJson d, 200).
Proof.
  intros req.
  destruct (create_then_get Sample.E req Sample.w sample_store_wf) as (Hc & _).
  exact (Hc ltac:(by vm_compute)).
Defined.

(** X12.  An article is only ever created under an existing chapter: after
    a successful [POST /articles] the new row is the last of the table,
    its [chapter_id] is the key of a chapter of the store, and the
    chapters are untouched. *)
Theorem create_article_under_chapter (E : env) (req : request) (w : world) :
  status (create_article E req w).1 = 201 →
  ∃ a c, articles (db (create_article E req w).2) = articles (db w) ++ [a]
         ∧ c ∈ chapters (db w) ∧ Article.chapter_id a = Some (Chapter.id c)
         ∧ chapters (db (create_article E req w).2) = chapters (db w).
Proof.
  intros Hok.
  destruct (create_article_db E req w) as [[Hno _]|(a & c & _ & Hin & Hc & _ & Hdb)];
    [done|].
  exists a, c. by rewrite Hdb.
Qed.

Lemma create_article_under_chapter_witness :
  let req := Sample.form_request
               {[ "title" := "T"; "description" := "D"; "link" := "L";
                  "chapter_id" := "2" ]} None in
  ∃ a c, articles (db (create_article Sample.E req Sample.w).2)
         = articles (db Sample.w) ++ [a]
         ∧ c ∈ chapters (db Sample.w) ∧ Article.chapter_id a = Some (Chapter.id c)
         ∧ chapters (db (create_article Sample.E req Sample.w).2) = chapters (db Sample.w).
Proof.
  intros req. apply create_article_under_chapter. by vm_compute.
Defined.

Lemma save_photo_no_new_file (E : env) (file : option FileStorage) (w : world) (p : string) :
  PyStr.truthy (save_photo E file w).1.2 = true →
  disk (save_photo E file w).2 !! p = None
  ∨ disk (save_photo E file w).2 !! p = disk w !! p.
Proof.
  destruct (file_truthy file) eqn:Ht.
  - destruct file as [f|]; [|done].
    destruct (allowed_file (filename f)) eqn:Ha.
    + destruct (save_photo_allowed E f w Ht Ha) as [| msg w' _ _ _ Hdisk]; [done|].
      intros _. rewrite Hdisk.
      destruct (decide (os_path_join UPLOAD_FOLDER (stored_name E (uuid_calls w) f) = p))
        as [->|Hne].
      * left. apply lookup_delete_eq.
      * right. by rewrite lookup_delete_ne.
    + rewrite save_photo_bad_type by done. by right.
  - rewrite save_photo_absent by done. by right.
Qed.

(** X13.  [POST /chapters] and the files it leaves.  When the request is
    refused with a 400, the store is unchanged and the upload directory
    holds no file that was not there before.  When it is answered 201
    and the new row names a photo, that file is on disk and passed
    validation.  When the store refuses the row and the commit raises,
    the reply is a 500 and no chapter is added, but the photo was
    written before the commit: an accepted photo stays in the upload
    directory under its generated name. *)
Theorem create_chapter_photo_files (E : env) (req : request) (w : world) :
  (status (create_chapter E req w).1 = 400 →
   db (create_chapter E req w).2 = db w
   ∧ ∀ p, disk (create_chapter E req w).2 !! p = None
          ∨ disk (create_chapter E req w).2 !! p = disk w !! p)
  ∧ (status (create_chapter E req w).1 = 201 →
     ∃ c, chapters (db (create_chapter E req w).2) = chapters (db w) ++ [c]
          ∧ ∀ name, Chapter.photo_path c = Some name →
              ∃ width height,
                disk (create_chapter E req w).2 !! os_path_join UPLOAD_FOLDER name
                = Some (ImageFile width height)
                ∧ height ≠ 0 ∧ ratio_in_bounds (F64.truediv width height) = true)
  ∧ (status (create_chapter E req w).1 = 500 →
     (create_chapter E req w).1 = (Unhandled, 500)
     ∧ chapters (db (create_chapter E req w).2) = chapters (db w)
     ∧ ∀ name, (save_photo E (files req !! "photo") w).1.1 = Some name →
         ∃ width height,
           disk (create_chapter E req w).2 !! os_path_join UPLOAD_FOLDER name
           = Some (ImageFile width height)).
Proof.
  split; [|split].
  - intros H400. split; [apply create_chapter_keeps; by rewrite H400|].
    intros p. revert H400. unfold status.
    destruct (PyStr.truthy (form req !! "title")) eqn:Ht.
    2:{ rewrite (create_chapter_no_title E req w Ht). by right. }
    rewrite (create_chapter_unfold E req w Ht). cbv zeta.
    destruct (PyStr.truthy (save_photo E (files req !! "photo") w).1.2) eqn:Herr.
    + intros _. cbn [fst snd]. by apply save_photo_no_new_file.
    + by destruct (accepts_chapter _ _).
  - intros Hok.
    destruct (create_chapter_db E req w) as [[Hno _]|(c & _ & _ & Hp & Hdb & Hdisk)];
      [done|].
    exists c. split; [by rewrite Hdb|]. intros name Hname. rewrite Hp in Hname.
    destruct (save_photo_stored E _ w name Hname)
      as (f & width & height & _ & _ & _ & _ & Hfile & Hnz & Hin).
    exists width, height. rewrite Hdisk. split; [exact Hfile|]. split; assumption.
  - unfold status.
    destruct (PyStr.truthy (form req !! "title")) eqn:Ht.
    2:{ by rewrite (create_chapter_no_title E req w Ht). }
    rewrite (create_chapter_unfold E req w Ht). cbv zeta.
    destruct (PyStr.truthy (save_photo E (files req !! "photo") w).1.2) eqn:Herr; [done|].
    destruct (accepts_chapter _ _); [done|].
    intros _. cbn [fst snd db disk log]. split; [done|].
    split; [by rewrite save_photo_db|].
    intros name Hname.
    destruct (save_photo_stored E _ w name Hname)
      as (f & width & height & _ & _ & _ & _ & Hfile & _).
    by exists width, height.
Qed.

Lemma create_chapter_photo_files_witness :
  let square := Sample.form_request {[ "title" := "Square" ]} (Some Sample.square) in
  let wide := Sample.form_request {[ "title" := "Wide" ]} (Some Sample.wide) in
  let full := with_db (with_chapters
                         [Chapter.mk 1 None (Some "Last") (Some 2147483647)]
                         Sample.store) Sample.w in
  (db (create_chapter Sample.E square Sample.w).2 = db Sample.w
   ∧ (disk (create_chapter Sample.E square Sample.w).2 !! "uploads/uuid-0.png" = None
      ∨ disk (create_chapter Sample.E square Sample.w).2 !! "uploads/uuid-0.png"
        = disk Sample.w !! "uploads/uuid-0.png"))
  ∧ (chapters (db (create_chapter Sample.E wide full).2) = chapters (db full)
     ∧ ∃ width height,
         disk (create_chapter Sample.E wide full).2 !! os_path_join UPLOAD_FOLDER "uuid-0.png"
         = Some (ImageFile width height)).
Proof.
  intros square wide full. split.
  - destruct (create_chapter_photo_files Sample.E square Sample.w) as (Hrefused & _).
    destruct (Hrefused ltac:(by vm_compute)) as (Hdb & Hdisk).
    split; [exact Hdb|exact (Hdisk "uploads/uuid-0.png")].
  - destruct (create_chapter_photo_files Sample.E wide full) as (_ & _ & Hraised).
    destruct (Hraised ltac:(by vm_compute)) as (_ & Hrows & Hfile).
    split; [exact Hrows|]. apply Hfile. by vm_compute.
Defined.

(** ** Deleting *)

Lemma find_article_None (rows : list Article.t) (key : Z) :
  List.find (λ a, Article.id a =? key) rows = None
  ↔ ∀ a, a ∈ rows → Article.id a ≠ key.
Proof.
  split.
  - intros Hf a Hin e. apply list_elem_of_In in Hin.
    pose proof (find_none _ _ Hf a Hin) as Hn. simpl in Hn.
    apply Z.eqb_neq in Hn. done.
  - intros Hall. destruct (List.find _ rows) as [a|] eqn:Hf; [|done].
    apply find_some in Hf as [Hin He]. apply Z.eqb_eq in He.
    apply list_elem_of_In in Hin. by destruct (Hall a Hin).
Qed.

(** A commit that only deletes writes no row: no store refuses it. *)
Lemma store_accepts_remove (key : Z) (d : database) :
  store_accepts d (remove_chapter key d) = true
  ∧ store_accepts d (remove_article key d) = true.
Proof.
  unfold store_accepts, remove_chapter, remove_article, with_articles.
  cbn [chapters articles].
  rewrite !written_nil; [done| | | |]; try done;
    intros r Hr; by apply list_elem_of_filter in Hr as [_ Hr].
Qed.

Lemma delete_chapter_unfold (key : Z) (w : world) :
  delete_chapter key w
  = match List.find (λ c, Chapter.id c =? key) (chapters (db w)) with
    | None => ((Error "Chapter not found", 404), log (SqlSelect "chapters") w)
    | Some c =>
        let w1 := (delete_photo (Chapter.photo_path c) (log (SqlSelect "chapters") w)).2 in
        ((Message "Chapter deleted successfully", 200),
         log SqlCommit
           (with_db (remove_chapter (Chapter.id c) (db w)) (log (SqlSelect "articles") w1)))
    end.
Proof.
  unfold delete_chapter, bind, query_chapter_first. cbn [fst snd db log with_db].
  destruct (List.find _ _) as [c|]; [|done].
  pose proof (delete_photo_db (Chapter.photo_path c) (log (SqlSelect "chapters") w)) as Hdb.
  destruct (delete_photo _ _) as [u w1]. cbn [fst snd] in *.
  unfold db_delete_chapter, db_commit, ret. cbn [fst snd db log with_db]. cbv zeta.
  rewrite Hdb. cbn [db log].
  by rewrite (proj1 (store_accepts_remove (Chapter.id c) (db w))).
Qed.

Lemma delete_article_unfold (key : Z) (w : world) :
  delete_article key w
  = match List.find (λ a, Article.id a =? key) (articles (db w)) with
    | None => ((Error "Article not found", 404), log (SqlSelect "articles") w)
    | Some a =>
        let w1 := (delete_photo (Article.photo_path a) (log (SqlSelect "articles") w)).2 in
        ((Message "Article deleted successfully", 200),
         log SqlCommit (with_db (remove_article (Article.id a) (db w)) w1))
    end.
Proof.
  unfold delete_article, bind, query_article_first. cbn [fst snd db log with_db].
  destruct (List.find _ _) as [a|]; [|done].
  pose proof (delete_photo_db (Article.photo_path a) (log (SqlSelect "articles") w)) as Hdb.
  destruct (delete_photo _ _) as [u w1]. cbn [fst snd] in *.
  unfold db_commit, ret. cbn [fst snd db log with_db]. cbv zeta.
  rewrite Hdb. cbn [db log].
  by rewrite (proj2 (store_accepts_remove (Article.id a) (db w))).
Qed.

(** X14.  [DELETE /chapters/<id>] of a chapter of the store answers 200
    and takes the chapter away together with its articles and nothing
    else: every other chapter and every article of another chapter
    stays as it was, a later [GET] of the key answers 404, and on disk
    only the chapter's own photo file goes, so the photo files of the
    removed articles stay in the upload directory. *)
Theorem delete_chapter_cascade (E : env) (c : Chapter.t) (w : world) :
  NoDup (Chapter.id <$> chapters (db w)) →
  c ∈ chapters (db w) →
  let r := delete_chapter (Chapter.id c) w in
  r.1 = (Message "Chapter deleted successfully", 200)
  ∧ (∀ c', c' ∈ chapters (db r.2) ↔ c' ∈ chapters (db w) ∧ c' ≠ c)
  ∧ (∀ a, a ∈ articles (db r.2)
          ↔ a ∈ articles (db w) ∧ Article.chapter_id a ≠ Some (Chapter.id c))
  ∧ (get_chapter E (Chapter.id c) r.2).1 = (Error "Chapter not found", 404)
  ∧ (∀ p, p ≠ os_path_join UPLOAD_FOLDER (default "" (Chapter.photo_path c)) →
          disk r.2 !! p = disk w !! p)
  ∧ (PyStr.truthy (Chapter.photo_path c) = true →
     disk r.2 !! os_path_join UPLOAD_FOLDER (default "" (Chapter.photo_path c)) = None).
Proof.
  intros Hnd Hin r. subst r. rewrite delete_chapter_unfold.
  destruct (List.find _ _) as [c0|] eqn:Hf.
  2:{ by destruct (proj1 (find_chapter_None _ _) Hf c Hin). }
  assert (c0 = c) as ->.
  { apply find_some in Hf as [Hin0 He]. apply Z.eqb_eq in He.
    apply list_elem_of_In in Hin0.
    apply list_elem_of_lookup in Hin as [i Hi]. apply list_elem_of_lookup in Hin0 as [j Hj].
    assert (i = j) as ->; [|congruence].
    eapply NoDup_lookup; [exact Hnd| |]; rewrite list_lookup_fmap.
    - by rewrite Hi.
    - rewrite Hj. simpl. by rewrite He. }
  cbv zeta. cbn [fst snd db disk log with_db].
  split; [done|]. split.
  { intros c'. unfold remove_chapter. cbn [chapters]. rewrite list_elem_of_filter.
    split.
    - intros [Hne Hc']. split; [done|]. by intros ->.
    - intros [Hc' Hne]. split; [|done]. intros He. apply Hne.
      apply list_elem_of_lookup in Hin as [i Hi]. apply list_elem_of_lookup in Hc' as [j Hj].
      assert (j = i) as ->; [|congruence].
      eapply NoDup_lookup; [exact Hnd| |]; rewrite list_lookup_fmap.
      + by rewrite Hj.
      + rewrite Hi. simpl. by rewrite He. }
  split.
  { intros a. unfold remove_chapter. cbn [articles]. rewrite list_elem_of_filter. tauto. }
  split.
  { unfold get_chapter, bind, query_chapter_first. cbn [fst snd db log with_db].
    replace (List.find _ _) with (@None Chapter.t); [done|]. symmetry.
    apply find_chapter_None. intros c'. unfold remove_chapter. cbn [chapters].
    rewrite list_elem_of_filter. tauto. }
  rewrite delete_photo_disk. cbn [disk log].
  split.
  - intros p Hp. destruct (PyStr.truthy (Chapter.photo_path c)); [|done].
    by rewrite lookup_delete_ne.
  - intros ->. apply lookup_delete_eq.
Qed.

Lemma delete_chapter_cascade_witness :
  let r := delete_chapter 1 Sample.w in
  r.1 = (Message "Chapter deleted successfully", 200)
  ∧ (∀ a, a ∈ articles (db r.2)
          ↔ a ∈ articles (db Sample.w) ∧ Article.chapter_id a ≠ Some 1)
  ∧ disk r.2 !! "uploads/old.png" = None.
Proof.
  intros r.
  destruct (delete_chapter_cascade Sample.E Sample.intro Sample.w
              ltac:(apply (bool_decide_unpack _); by vm_compute)
              ltac:(by left))
    as (Hr & _ & Ha & _ & _ & Hgone).
  split; [exact Hr|]. split; [exact Ha|]. exact (Hgone eq_refl).
Defined.



(** X16.  [DELETE /articles/<id>] of an article of the store answers 200
    and removes exactly that row: the other articles and all chapters
    stay, a later [GET] of the key answers 404, and on disk at most the
    article's own photo file goes. *)
Theorem delete_article_removes_one (E : env) (a : Article.t) (w : world) :
  NoDup (Article.id <$> articles (db w)) →
  a ∈ articles (db w) →
  let r := delete_article (Article.id a) w in
  r.1 = (Message "Article deleted successfully", 200)
  ∧ (∀ a', a' ∈ articles (db r.2) ↔ a' ∈ articles (db w) ∧ a' ≠ a)
  ∧ chapters (db r.2) = chapters (db w)
  ∧ (get_article E (Article.id a) r.2).1 = (Error "Article not found", 404)
  ∧ (∀ p, p ≠ os_path_join UPLOAD_FOLDER (default "" (Article.photo_path a)) →
          disk r.2 !! p = disk w !! p).
Proof.
  intros Hnd Hin r. subst r. rewrite delete_article_unfold.
  destruct (List.find _ _) as [a0|] eqn:Hf.
  2:{ by destruct (proj1 (find_article_None _ _) Hf a Hin). }
  assert (a0 = a) as ->.
  { apply find_some in Hf as [Hin0 He]. apply Z.eqb_eq in He.
    apply list_elem_of_In in Hin0.
    apply list_elem_of_lookup in Hin as [i Hi]. apply list_elem_of_lookup in Hin0 as [j Hj].
    assert (i = j) as ->; [|congruence].
    eapply NoDup_lookup; [exact Hnd| |]; rewrite list_lookup_fmap.
    - by rewrite Hi.
    - rewrite Hj. simpl. by rewrite He. }
  cbv zeta. cbn [fst snd db disk log with_db].
  split; [done|]. split.
  { intros a'. unfold remove_article, with_articles. cbn [articles].
    rewrite list_elem_of_filter. split.
    - intros [Hne Ha']. split; [done|]. by intros ->.
    - intros [Ha' Hne]. split; [|done]. intros He. apply Hne.
      apply list_elem_of_lookup in Hin as [i Hi]. apply list_elem_of_lookup in Ha' as [j Hj].
      assert (j = i) as ->; [|congruence].
      eapply NoDup_lookup; [exact Hnd| |]; rewrite list_lookup_fmap.
      + by rewrite Hj.
      + rewrite Hi. simpl. by rewrite He. }
  split; [done|]. split.
  { unfold get_article, bind, query_article_first. cbn [fst snd db log with_db].
    replace (List.find _ _) with (@None Article.t); [done|]. symmetry.
    apply find_article_None. intros a'. unfold remove_article, with_articles. cbn [articles].
    rewrite list_elem_of_filter. tauto. }
  rewrite delete_photo_disk. cbn [disk log].
  intros p Hp. destruct (PyStr.truthy (Article.photo_path a)); [|done].
  by rewrite lookup_delete_ne.
Qed.

Lemma delete_article_removes_one_witness :
  let r := delete_article 2 Sample.w in
  r.1 = (Message "Article deleted successfully", 200)
  ∧ (get_article Sample.E 2 r.2).1 = (Error "Article not found", 404).
Proof.
  intros r.
  destruct (delete_article_removes_one Sample.E Sample.next_steps Sample.w
              ltac:(apply (bool_decide_unpack _); by vm_compute)
              ltac:(right; left))
    as (Hr & _ & _ & Hget & _).
  split; [exact Hr|exact Hget].
Defined.

(** ** More on the bulk reorder *)

Section ReorderMore.
Context {A : Type} `{Ordered A}.

Lemma reordered_ids (order_data : list order_item) (rows : list A) :
  ent_id <$> reordered order_data rows = ent_id <$> rows.
Proof.
  unfold reordered. rewrite <- list_fmap_compose. apply list_fmap_ext.
  intros i r _. simpl. destruct (supplied_order order_data (ent_id r)); [|done].
  apply ent_id_set_order.
Qed.

Lemma reordered_twice (order_data : list order_item) (rows : list A) :
  reordered order_data (reordered order_data rows) = reordered order_data rows.
Proof.
  unfold reordered. rewrite <- list_fmap_compose. apply list_fmap_ext.
  intros i r _. simpl. destruct (supplied_order order_data (ent_id r)) as [v|] eqn:Hs.
  - by rewrite ent_id_set_order, Hs, ent_set_order_twice.
  - by rewrite Hs.
Qed.

Lemma reordered_unnamed (order_data : list order_item) (rows : list A) r :
  r ∈ reordered order_data rows → ent_id r ∉ item_id <$> order_data → r ∈ rows.
Proof.
  unfold reordered. intros Hin Hno. apply list_elem_of_fmap in Hin as (r0 & -> & Hr0).
  destruct (supplied_order order_data (ent_id r0)) as [v|] eqn:Hs; [|done].
  rewrite ent_id_set_order in Hno.
  by rewrite (supplied_order_None order_data (ent_id r0) Hno) in Hs.
Qed.

(** With distinct keys the loop either stops at an element that names no
    row or ends with every supplied order written. *)
Lemma reorder_loop_cases (order_data : list order_item) (rows : list A) :
  NoDup (ent_id <$> rows) →
  (∃ item, reorder_loop order_data
             (dict_by_id (filter (λ r, ent_id r ∈ item_id <$> order_data) rows)) = inl item
           ∧ item ∈ order_data ∧ ∀ r, r ∈ rows → ent_id r ≠ item_id item)
  ∨ (∃ m, reorder_loop order_data
            (dict_by_id (filter (λ r, ent_id r ∈ item_id <$> order_data) rows)) = inr m
          ∧ flush m rows = reordered order_data rows
          ∧ ∀ item, item ∈ order_data → item_id item ∈ ent_id <$> rows).
Proof.
  intros Hnd.
  destruct (decide (Forall (λ item, item_id item ∈ ent_id <$> rows) order_data))
    as [Hall|Hnot].
  - right. rewrite Forall_forall in Hall.
    destruct (reorder_succeeds order_data rows Hnd) as (m & Hm & Hflush).
    { intros item Hin. apply Hall in Hin. apply list_elem_of_fmap in Hin as (r & e & Hr).
      by exists r. }
    exists m. by repeat split.
  - left. apply not_Forall_Exists in Hnot; [|intros ?; apply _].
    apply Exists_exists in Hnot as (item & Hin & Hno).
    destruct (proj2 (reorder_fails_iff order_data rows)) as [it Hit].
    { exists item. split; [done|]. intros r Hr e. apply Hno. rewrite <- e.
      by apply list_elem_of_fmap_2. }
    exists it. split; [done|].
    apply reorder_loop_fail in Hit as Hf. destruct Hf as [Hin' Hnone].
    split; [done|]. intros r Hr e.
    rewrite dict_by_id_None in Hnone. apply (Hnone r); [|done].
    apply list_elem_of_filter. split; [|done]. rewrite e. by apply list_elem_of_fmap_2.
Qed.
End ReorderMore.

Lemma update_chapters_order_db (E : env) (req : request) (w : world) :
  NoDup (Chapter.id <$> chapters (db w)) →
  (status (update_chapters_order E req w).1 ≠ 200
   ∧ db (update_chapters_order E req w).2 = db w)
  ∨ ∃ order_data,
      get_json req = JsonList order_data
      ∧ (∀ item, item ∈ order_data → item_id item ∈ Chapter.id <$> chapters (db w))
      ∧ (update_chapters_order E req w).1
        = (Message "Chapters order updated successfully", 200)
      ∧ db (update_chapters_order E req w).2
        = with_chapters (reordered order_data (chapters (db w))) (db w).
Proof.
  intros Hnd. destruct (get_json req) as [order_data|] eqn:Hj.
  2:{ left. unfold update_chapters_order. by rewrite Hj. }
  rewrite (update_chapters_order_unfold E req w order_data Hj).
  destruct (reorder_loop_cases (H:=Chapter_Ordered) order_data (chapters (db w)) Hnd)
    as [(item & Hl & _)|(m & Hl & Hflush & Hall)].
  - left. cbn [ent_id Chapter_Ordered] in Hl. by rewrite Hl.
  - cbn [ent_id Chapter_Ordered] in Hl. rewrite Hl. cbv zeta. rewrite Hflush.
    destruct (forallb _ _).
    + right. exists order_data. by cbn [fst snd db log with_db].
    + left. by cbn [fst snd db log].
Qed.

Lemma update_articles_order_db (E : env) (req : request) (w : world) :
  NoDup (Article.id <$> articles (db w)) →
  (status (update_articles_order E req w).1 ≠ 200
   ∧ db (update_articles_order E req w).2 = db w)
  ∨ ∃ order_data,
      get_json req = JsonList order_data
      ∧ (∀ item, item ∈ order_data → item_id item ∈ Article.id <$> articles (db w))
      ∧ (update_articles_order E req w).1
        = (Message "Articles order updated successfully", 200)
      ∧ db (update_articles_order E req w).2
        = with_articles (reordered order_data (articles (db w))) (db w).
Proof.
  intros Hnd. destruct (get_json req) as [order_data|] eqn:Hj.
  2:{ left. unfold update_articles_order. by rewrite Hj. }
  rewrite (update_articles_order_unfold E req w order_data Hj).
  destruct (reorder_loop_cases (H:=Article_Ordered) order_data (articles (db w)) Hnd)
    as [(item & Hl & _)|(m & Hl & Hflush & Hall)].
  - left. cbn [ent_id Article_Ordered] in Hl. by rewrite Hl.
  - cbn [ent_id Article_Ordered] in Hl. rewrite Hl. cbv zeta. rewrite Hflush.
    destruct (forallb _ _).
    + right. exists order_data. by cbn [fst snd db log with_db].
    + left. by cbn [fst snd db log].
Qed.

Lemma reordered_chapter_columns (order_data : list order_item) (rows : list Chapter.t) :
  Chapter.title <$> reordered order_data rows = Chapter.title <$> rows
  ∧ Chapter.photo_path <$> reordered order_data rows = Chapter.photo_path <$> rows.
Proof.
  unfold reordered. rewrite <- !list_fmap_compose.
  split; apply list_fmap_ext; intros i r _; simpl;
    by destruct (supplied_order order_data _).
Qed.

Lemma reordered_article_columns (order_data : list order_item) (rows : list Article.t) :
  Article.title <$> reordered order_data rows = Article.title <$> rows
  ∧ Article.description <$> reordered order_data rows = Article.description <$> rows
  ∧ Article.link <$> reordered order_data rows = Article.link <$> rows
  ∧ Article.photo_path <$> reordered order_data rows = Article.photo_path <$> rows
  ∧ Article.chapter_id <$> reordered order_data rows = Article.chapter_id <$> rows.
Proof.
  unfold reordered. rewrite <- !list_fmap_compose.
  repeat split; apply list_fmap_ext; intros i r _; simpl;
    by destruct (supplied_order order_data _).
Qed.

(** X17.  A bulk reorder writes the [order] column and nothing else:
    whatever the body and whatever the reply, the keys, titles and photo
    names of the chapters are, row by row, what they were, the articles
    and the upload directory are untouched, and so is every chapter that
    the body does not name.  [PATCH /articles/order] likewise keeps the
    keys, titles, descriptions, links, photo names and chapters of the
    articles, and the table of chapters. *)
Theorem reorder_writes_only_order (E : env) (req : request) (w : world) :
  (NoDup (Chapter.id <$> chapters (db w)) →
   let w' := (update_chapters_order E req w).2 in
   Chapter.id <$> chapters (db w') = Chapter.id <$> chapters (db w)
   ∧ Chapter.title <$> chapters (db w') = Chapter.title <$> chapters (db w)
   ∧ Chapter.photo_path <$> chapters (db w') = Chapter.photo_path <$> chapters (db w)
   ∧ articles (db w') = articles (db w)
   ∧ disk w' = disk w
   ∧ ∀ order_data c, get_json req = JsonList order_data →
       c ∈ chapters (db w') → Chapter.id c ∉ item_id <$> order_data →
       c ∈ chapters (db w))
  ∧ (NoDup (Article.id <$> articles (db w)) →
     let w' := (update_articles_order E req w).2 in
     Article.id <$> articles (db w') = Article.id <$> articles (db w)
     ∧ Article.title <$> articles (db w') = Article.title <$> articles (db w)
     ∧ Article.description <$> articles (db w') = Article.description <$> articles (db w)
     ∧ Article.link <$> articles (db w') = Article.link <$> articles (db w)
     ∧ Article.photo_path <$> articles (db w') = Article.photo_path <$> articles (db w)
     ∧ Article.chapter_id <$> articles (db w') = Article.chapter_id <$> articles (db w)
     ∧ chapters (db w') = chapters (db w)
     ∧ disk w' = disk w
     ∧ ∀ order_data a, get_json req = JsonList order_data →
         a ∈ articles (db w') → Article.id a ∉ item_id <$> order_data →
         a ∈ articles (db w)).
Proof.
  split; intros Hnd w'; subst w'.
  - assert (disk (update_chapters_order E req w).2 = disk w) as Hdisk.
    { destruct (get_json req) as [order_data|] eqn:Hj.
      - rewrite (update_chapters_order_unfold E req w order_data Hj). cbv zeta.
        destruct (reorder_loop _ _); [done|]. by destruct (forallb _ _).
      - unfold update_chapters_order. by rewrite Hj. }
    destruct (update_chapters_order_db E req w Hnd)
      as [[_ ->]|(order_data & Hj & _ & _ & ->)]; [done|].
    cbn [chapters articles with_chapters].
    destruct (reordered_chapter_columns order_data (chapters (db w))) as [-> ->].
    rewrite (reordered_ids (H:=Chapter_Ordered)).
    repeat split; try done.
    intros od c Hj' Hc Hno. assert (od = order_data) as -> by congruence.
    by apply (reordered_unnamed (H:=Chapter_Ordered) order_data).
  - assert (disk (update_articles_order E req w).2 = disk w) as Hdisk.
    { destruct (get_json req) as [order_data|] eqn:Hj.
      - rewrite (update_articles_order_unfold E req w order_data Hj). cbv zeta.
        destruct (reorder_loop _ _); [done|]. by destruct (forallb _ _).
      - unfold update_articles_order. by rewrite Hj. }
    destruct (update_articles_order_db E req w Hnd)
      as [[_ ->]|(order_data & Hj & _ & _ & ->)]; [done|].
    cbn [chapters articles with_articles].
    destruct (reordered_article_columns order_data (articles (db w)))
      as (-> & -> & -> & -> & ->).
    rewrite (reordered_ids (H:=Article_Ordered)).
    repeat split; try done.
    intros od a Hj' Ha Hno. assert (od = order_data) as -> by congruence.
    by apply (reordered_unnamed (H:=Article_Ordered) order_data).
Qed.

Lemma reorder_writes_only_order_witness :
  let w' := (update_chapters_order Sample.E (Sample.json_request (JsonList Sample.swap))
               Sample.w).2 in
  Chapter.title <$> chapters (db w') = [Some "Intro"; Some "Basics"]
  ∧ articles (db w') = articles (db Sample.w).
Proof.
  intros w'.
  destruct (reorder_writes_only_order Sample.E (Sample.json_request (JsonList Sample.swap))
              Sample.w) as (Hc & _).
  destruct (Hc ltac:(apply (bool_decide_unpack _); by vm_compute))
    as (_ & Ht & _ & Ha & _).
  split; [exact Ht|exact Ha].
Defined.

(** X18.  A bulk reorder is idempotent: sending the same body a second
    time gives the same reply and leaves the store as the first request
    left it. *)
Theorem reorder_idempotent (E : env) (req : request) (w : world) :
  (NoDup (Chapter.id <$> chapters (db w)) →
   let w1 := (update_chapters_order E req w).2 in
   (update_chapters_order E req w1).1 = (update_chapters_order E req w).1
   ∧ db (update_chapters_order E req w1).2 = db w1)
  ∧ (NoDup (Article.id <$> articles (db w)) →
     let w1 := (update_articles_order E req w).2 in
     (update_articles_order E req w1).1 = (update_articles_order E req w).1
     ∧ db (update_articles_order E req w1).2 = db w1).
Proof.
  split; intros Hnd w1.
  - assert (∀ wa wb, db wa = db wb →
              (update_chapters_order E req wa).1 = (update_chapters_order E req wb).1
              ∧ (db (update_chapters_order E req wb).2 = db wb →
                 db (update_chapters_order E req wa).2 = db wa)) as Hsame.
    { intros wa wb Hdb. destruct (get_json req) as [order_data|] eqn:Hj.
      - rewrite !(update_chapters_order_unfold E req _ order_data Hj), Hdb. cbv zeta.
        destruct (reorder_loop _ _); cbn [fst snd db log with_db]; [done|].
        destruct (forallb _ _); cbn [fst snd db log with_db]; [|done].
        split; [done|]. by intros ?.
      - unfold update_chapters_order. by rewrite Hj. }
    destruct (update_chapters_order_db E req w Hnd)
      as [[_ Hdb]|(order_data & Hj & Hall & Hr & Hdb)].
    + fold w1 in Hdb. destruct (Hsame w1 w Hdb) as [Hr1 Hdb1]. split; [done|].
      apply Hdb1. fold w1. done.
    + fold w1 in Hdb.
      assert (NoDup (Chapter.id <$> chapters (db w1))) as Hnd1.
      { rewrite Hdb. cbn [chapters with_chapters].
        by rewrite (reordered_ids (H:=Chapter_Ordered)). }
      destruct (update_chapters_order_db E req w1 Hnd1)
        as [[Hno _]|(od & Hj' & _ & Hr' & Hdb')].
      * exfalso. apply Hno. clear Hno.
        rewrite (update_chapters_order_unfold E req w1 order_data Hj).
        destruct (reorder_loop_cases (H:=Chapter_Ordered) order_data (chapters (db w1)) Hnd1)
          as [(item & _ & Hin & Hnone)|(m & Hl & Hflush & _)].
        -- exfalso. specialize (Hall item Hin).
           apply list_elem_of_fmap in Hall as (c & e & Hc).
           assert (item_id item ∈ Chapter.id <$> chapters (db w1)) as Hin1.
           { rewrite Hdb. cbn [chapters with_chapters].
             rewrite (reordered_ids (H:=Chapter_Ordered)), e. by apply list_elem_of_fmap_2. }
           apply list_elem_of_fmap in Hin1 as (c1 & e1 & Hc1). by apply (Hnone c1).
        -- cbn [ent_id Chapter_Ordered] in Hl. rewrite Hl. cbv zeta. rewrite Hflush, Hdb.
           cbn [chapters with_chapters]. rewrite (reordered_twice (H:=Chapter_Ordered)).
           by rewrite written_nil.
      * assert (od = order_data) as -> by congruence.
        rewrite Hr', Hdb'. split; [by rewrite Hr|].
        rewrite Hdb. cbn [chapters with_chapters].
        by rewrite (reordered_twice (H:=Chapter_Ordered)).
  - assert (∀ wa wb, db wa = db wb →
              (update_articles_order E req wa).1 = (update_articles_order E req wb).1
              ∧ (db (update_articles_order E req wb).2 = db wb →
                 db (update_articles_order E req wa).2 = db wa)) as Hsame.
    { intros wa wb Hdb. destruct (get_json req) as [order_data|] eqn:Hj.
      - rewrite !(update_articles_order_unfold E req _ order_data Hj), Hdb. cbv zeta.
        destruct (reorder_loop _ _); cbn [fst snd db log with_db]; [done|].
        destruct (forallb _ _); cbn [fst snd db log with_db]; [|done].
        split; [done|]. by intros ?.
      - unfold update_articles_order. by rewrite Hj. }
    destruct (update_articles_order_db E req w Hnd)
      as [[_ Hdb]|(order_data & Hj & Hall & Hr & Hdb)].
    + fold w1 in Hdb. destruct (Hsame w1 w Hdb) as [Hr1 Hdb1]. split; [done|].
      apply Hdb1. fold w1. done.
    + fold w1 in Hdb.
      assert (NoDup (Article.id <$> articles (db w1))) as Hnd1.
      { rewrite Hdb. cbn [articles with_articles].
        by rewrite (reordered_ids (H:=Article_Ordered)). }
      destruct (update_articles_order_db E req w1 Hnd1)
        as [[Hno _]|(od & Hj' & _ & Hr' & Hdb')].
      * exfalso. apply Hno. clear Hno.
        rewrite (update_articles_order_unfold E req w1 order_data Hj).
        destruct (reorder_loop_cases (H:=Article_Ordered) order_data (articles (db w1)) Hnd1)
          as [(item & _ & Hin & Hnone)|(m & Hl & Hflush & _)].
        -- exfalso. specialize (Hall item Hin).
           apply list_elem_of_fmap in Hall as (c & e & Hc).
           assert (item_id item ∈ Article.id <$> articles (db w1)) as Hin1.
           { rewrite Hdb. cbn [articles with_articles].
             rewrite (reordered_ids (H:=Article_Ordered)), e. by apply list_elem_of_fmap_2. }
           apply list_elem_of_fmap in Hin1 as (c1 & e1 & Hc1). by apply (Hnone c1).
        -- cbn [ent_id Article_Ordered] in Hl. rewrite Hl. cbv zeta. rewrite Hflush, Hdb.
           cbn [articles with_articles]. rewrite (reordered_twice (H:=Article_Ordered)).
           by rewrite written_nil.
      * assert (od = order_data) as -> by congruence.
        rewrite Hr', Hdb'. split; [by rewrite Hr|].
        rewrite Hdb. cbn [articles with_articles].
        by rewrite (reordered_twice (H:=Article_Ordered)).
Qed.

Lemma reorder_idempotent_witness :
  let req := Sample.json_request (JsonList Sample.swap) in
  let w1 := (update_chapters_order Sample.E req Sample.w).2 in
  (update_chapters_order Sample.E req w1).1 = (update_chapters_order Sample.E req Sample.w).1
  ∧ db (update_chapters_order Sample.E req w1).2 = db w1.
Proof.
  intros req w1.
  destruct (reorder_idempotent Sample.E req Sample.w) as (Hc & _).
  exact (Hc ltac:(apply (bool_decide_unpack _); by vm_compute)).
Defined.

(** ** Invariants of the store *)

Lemma flush_chapter_ids (c : Chapter.t) (d : database) :
  Chapter.id <$> chapters (flush_chapter c d) = Chapter.id <$> chapters d.
Proof.
  destruct (flush_chapter_rows c d) as [-> _]. rewrite <- list_fmap_compose.
  apply list_fmap_ext. intros i r _. simpl. by destruct (decide _).
Qed.

Lemma update_chapter_db (E : env) (req : request) (w : world) :
  (status (update_chapter E req w).1 ≠ 200 ∧ db (update_chapter E req w).2 = db w)
  ∨ ∃ c, status (update_chapter E req w).1 = 200
         ∧ db (update_chapter E req w).2 = flush_chapter c (db w).
Proof.
  destruct (PyStr.truthy (form req !! "id")) eqn:Hid.
  2:{ left. by rewrite update_chapter_no_id. }
  destruct (db_int E (default "" (form req !! "id"))) as [key|] eqn:Hkey.
  2:{ left. unfold update_chapter. by rewrite Hid, Hkey. }
  destruct (List.find (λ c, Chapter.id c =? key) (chapters (db w))) as [chapter|] eqn:Hf.
  2:{ left. by rewrite (update_chapter_unknown E req w key). }
  destruct (chapter_fields E (form req) chapter) as [chapter'|] eqn:Hset.
  2:{ left. by rewrite (update_chapter_bad_order E req w key chapter). }
  rewrite (update_chapter_unfold E req w key chapter chapter' Hid Hkey Hf Hset).
  cbv zeta. destruct (file_truthy (files req !! "photo")).
  - match goal with
    | |- context [PyStr.truthy (save_photo ?a ?b ?c).1.2] =>
        destruct (PyStr.truthy (save_photo a b c).1.2)
    end.
    + left. cbn [fst snd]. split; [done|]. by rewrite save_photo_db, delete_photo_db.
    + destruct (store_accepts _ _).
      * right. eexists. cbn [fst snd db log with_db]. done.
      * left. cbn [fst snd]. split; [done|]. by rewrite save_photo_db, delete_photo_db.
  - destruct (store_accepts _ _).
    + right. exists chapter'. cbn [fst snd db log with_db]. done.
    + left. by cbn [fst snd db log].
Qed.

Lemma delete_chapter_db (key : Z) (w : world) :
  db (delete_chapter key w).2 = db w
  ∨ db (delete_chapter key w).2 = remove_chapter key (db w).
Proof.
  rewrite delete_chapter_unfold. destruct (List.find _ _) as [c|] eqn:Hf; [|by left].
  right. apply find_some in Hf as [_ He]. apply Z.eqb_eq in He. by rewrite He.
Qed.

Lemma delete_article_db (key : Z) (w : world) :
  db (delete_article key w).2 = db w
  ∨ db (delete_article key w).2 = remove_article key (db w).
Proof.
  rewrite delete_article_unfold. destruct (List.find _ _) as [a|] eqn:Hf; [|by left].
  right. apply find_some in Hf as [_ He]. apply Z.eqb_eq in He. by rewrite He.
Qed.

Lemma refs_ok_step (d d' : database) :
  (∀ a', a' ∈ articles d' →
     ∃ a, a ∈ articles d ∧ Article.chapter_id a' = Article.chapter_id a) →
  Chapter.id <$> chapters d' = Chapter.id <$> chapters d →
  refs_ok d → refs_ok d'.
Proof.
  intros Ha Hc Hok a' k Hin Hk. rewrite Hc.
  destruct (Ha a' Hin) as (a & Hin0 & e). apply (Hok a k Hin0). congruence.
Qed.

(** X20.  References stay sound: if every article of the store that has a
    [chapter_id] has that of a chapter of the store, this is still so
    after each writing handler, with one exception that the statement
    leaves out: [PUT /articles] with a [chapter_id] in the form, which
    the handler writes without looking the chapter up. *)
Theorem handlers_keep_references (E : env) (req : request) (key : Z) (w : world) :
  store_wf (db w) → refs_ok (db w) →
  refs_ok (db (create_chapter E req w).2)
  ∧ refs_ok (db (update_chapter E req w).2)
  ∧ refs_ok (db (delete_chapter key w).2)
  ∧ refs_ok (db (update_chapters_order E req w).2)
  ∧ refs_ok (db (create_article E req w).2)
  ∧ (form req !! "chapter_id" = None → refs_ok (db (update_article E req w).2))
  ∧ refs_ok (db (delete_article key w).2)
  ∧ refs_ok (db (update_articles_order E req w).2).
Proof.
  intros (Hnc & _ & Hna & _) Hok.
  split.
  { destruct (create_chapter_db E req w) as [[_ ->]|(c & _ & _ & _ & -> & _)]; [done|].
    intros a k Hin Hk. unfold insert_chapter. cbn [chapters articles] in *.
    rewrite fmap_app. apply elem_of_app. left. by apply (Hok a). }
  split.
  { destruct (update_chapter_db E req w) as [[_ ->]|(c & _ & ->)]; [done|].
    eapply refs_ok_step; [| |exact Hok].
    - intros a' Ha'. by exists a'.
    - apply flush_chapter_ids. }
  split.
  { destruct (delete_chapter_db key w) as [->| ->]; [done|].
    intros a k Hin Hk. unfold remove_chapter in *. cbn [chapters articles] in *.
    apply list_elem_of_filter in Hin as [Hne Hin].
    pose proof (Hok a k Hin Hk) as Hc. apply list_elem_of_fmap in Hc as (c & -> & Hc).
    apply list_elem_of_fmap_2, list_elem_of_filter. split; [|done]. congruence. }
  split.
  { destruct (update_chapters_order_db E req w Hnc) as [[_ ->]|(od & _ & _ & _ & ->)];
      [done|].
    eapply refs_ok_step; [| |exact Hok].
    - intros a' Ha'. by exists a'.
    - cbn [chapters with_chapters]. apply (reordered_ids (H:=Chapter_Ordered)). }
  split.
  { destruct (create_article_db E req w) as [[_ ->]|(a & c & _ & Hc & Hk & _ & ->)];
      [done|].
    intros a' k Hin Hk'. unfold insert_article in *. cbn [chapters articles] in *.
    apply elem_of_app in Hin as [Hin|Hin]; [by apply (Hok a')|].
    apply list_elem_of_singleton in Hin as ->.
    assert (k = Chapter.id c) as -> by congruence. by apply list_elem_of_fmap_2. }
  split.
  { intros Hnone.
    destruct (update_article_db E req w) as [[_ ->]|(a & k & ar & Hf & _ & _ & -> & Hk)];
      [done|].
    rewrite Hnone in Hk. apply find_some in Hf as [Har _]. apply list_elem_of_In in Har.
    eapply refs_ok_step; [| |exact Hok]; [|done].
    intros a' Ha'. destruct (flush_article_rows a (db w)) as [Hrows _].
    rewrite Hrows in Ha'. apply list_elem_of_fmap in Ha' as (a0 & -> & Ha0).
    destruct (decide _); [by exists ar|by exists a0]. }
  split.
  { destruct (delete_article_db key w) as [->| ->]; [done|].
    eapply refs_ok_step; [| |exact Hok]; [|done].
    intros a' Ha'. unfold remove_article, with_articles in Ha'. cbn [articles] in Ha'.
    apply list_elem_of_filter in Ha' as [_ Ha']. by exists a'. }
  destruct (update_articles_order_db E req w Hna) as [[_ ->]|(od & _ & _ & _ & ->)];
    [done|].
  eapply refs_ok_step; [| |exact Hok]; [|done].
  intros a' Ha'. cbn [articles with_articles] in Ha'. unfold reordered in Ha'.
  apply list_elem_of_fmap in Ha' as (a0 & -> & Ha0). exists a0. split; [done|].
  by destruct (supplied_order od _).
Qed.

Lemma sample_refs_ok : refs_ok Sample.store.
Proof.
  intros a k Ha Hk.
  apply elem_of_cons in Ha as [->|Ha]; [injection Hk as <-; by left|].
  apply elem_of_cons in Ha as [->|Ha]; [injection Hk as <-; by left|].
  by apply elem_of_nil in Ha.
Defined.

Lemma handlers_keep_references_witness :
  refs_ok (db (delete_chapter 1 Sample.w).2)
  ∧ refs_ok (db (create_article Sample.E
                   (Sample.form_request
                      {[ "title" := "T"; "description" := "D"; "link" := "L";
                         "chapter_id" := "2" ]} None) Sample.w).2).
Proof.
  destruct (handlers_keep_references Sample.E
              (Sample.form_request
                 {[ "title" := "T"; "description" := "D"; "link" := "L";
                    "chapter_id" := "2" ]} None) 1 Sample.w
              sample_store_wf sample_refs_ok) as (_ & _ & Hd & _ & Hc & _).
  split; [exact Hd|exact Hc].
Defined.

(** ** More on the aspect-ratio check *)

(** X21.  The aspect-ratio check of [save_photo] looks at the shape of
    the image, not at its resolution: scaling width and height by the
    same factor does not change its verdict (sizes below 2^32). *)
Theorem ratio_check_scale_invariant (width height k : Z) :
  0 < k → 0 ≤ width → 0 < height → k * width < 2 ^ 32 → k * height < 2 ^ 32 →
  ratio_in_bounds (F64.truediv (k * width) (k * height))
  = ratio_in_bounds (F64.truediv width height).
Proof.
  intros Hk Hw Hh Hkw Hkh.
  assert (width < 2 ^ 32 ∧ height < 2 ^ 32) as [Hw' Hh'] by nia.
  pose proof (ratio_in_bounds_exact width height ltac:(lia) ltac:(lia)) as H1.
  pose proof (ratio_in_bounds_exact (k * width) (k * height) ltac:(nia) ltac:(nia)) as H2.
  destruct (ratio_in_bounds (F64.truediv width height)).
  - apply H2. destruct (proj1 H1 eq_refl). nia.
  - destruct (ratio_in_bounds (F64.truediv (k * width) (k * height))); [|done].
    symmetry. apply H1. destruct (proj1 H2 eq_refl). nia.
Qed.

Lemma ratio_check_scale_invariant_witness :
  ratio_in_bounds (F64.truediv (120 * 16) (120 * 9))
  = ratio_in_bounds (F64.truediv 16 9).
Proof.
  apply ratio_check_scale_invariant; [lia|lia|lia|by vm_compute|by vm_compute].
Defined.

(** X22.  What the check accepts is a landscape image: an accepted image
    is wider than high and less than twice as wide as high, so a square
    or an upright image is never stored; and an image of exactly 16:9 is
    always accepted (sizes below 2^32). *)
Theorem ratio_check_landscape (width height : Z) :
  0 ≤ width < 2 ^ 32 → 0 < height < 2 ^ 32 →
  (ratio_in_bounds (F64.truediv width height) = true → height < width < 2 * height)
  ∧ (9 * width = 16 * height → ratio_in_bounds (F64.truediv width height) = true).
Proof.
  intros Hw Hh. pose proof (ratio_in_bounds_exact width height Hw Hh) as Hex.
  split.
  - intros Hok. apply Hex in Hok. lia.
  - intros H169. apply Hex. lia.
Qed.

Lemma ratio_check_landscape_witness :
  1080 < 1920 < 2 * 1080 ∧ ratio_in_bounds (F64.truediv 1920 1080) = true.
Proof.
  destruct (ratio_check_landscape 1920 1080) as (Hland & Hexact).
  - split; [lia|by vm_compute].
  - split; [lia|by vm_compute].
  - split; [apply Hland; by vm_compute|apply Hexact; lia].
Defined.

(** ** Reading by key *)




